(** * ClearStream: frame extraction, generation client and session controller

    A shallow embedding of the TypeScript sources

    - [utils/videoUtils] in its two versions ([extractFirstFrame] and
      [downloadVideo] without guards, called [Bare] below, and with the
      timeout, the zero-dimension check, the shared [cleanup] and the
      [try/catch], called [Guarded]),
    - [services/geminiService] ([generateCleanVideo]),
    - [App.tsx] ([handleFileChange], [handleProcess], [handleReset] and the
      unmount effect),

    followed by the properties proved about them.

    Conventions.  A JavaScript [number] is a binary64 float ([PrimFloat.float]);
    the arithmetic of the source is the arithmetic of the model, rounding
    included.  A promise is [option (Settled A)], [None] being "pending".
    Everything the browser or the network decides (which media events fire and
    when, what the canvas encodes, what the service answers) is a field of an
    environment record, so every statement quantifies over all of them.
    A string is the sequence of its UTF-8 bytes.  Console output is part of
    the model for [downloadVideo] only, where it is all the [catch] does. *)

From Stdlib Require Import ZArith List String Ascii Bool Lia.
From Stdlib Require Import Floats.
From Stdlib Require Uint63.
From stdpp Require Import base gmap strings pretty.
Import ListNotations.

Set Warnings "-inexact-float".
Open Scope string_scope.
Open Scope Z_scope.

(** ** JavaScript values *)

Module JS.

(** [Number]: IEEE 754 binary64. *)
Definition number : Set := float.
Bind Scope float_scope with number.

(** An integer of magnitude below 2^53 as a number (exact). *)
Definition of_Z (z : Z) : number :=
  if (z <? 0)%Z
  then PrimFloat.opp (PrimFloat.of_uint63 (Uint63.of_Z (- z)))
  else PrimFloat.of_uint63 (Uint63.of_Z z).

(** [Math.floor].  A finite float with a non-negative exponent is an
    integer already; otherwise its magnitude is below 2^53 and the floor
    of [±m * 2^e] is an arithmetic shift right. *)
Definition Math_floor (x : number) : number :=
  match Prim2SF x with
  | S754_finite s m e =>
      if (0 <=? e)%Z then x
      else of_Z (Z.shiftr (if s then Z.neg m else Z.pos m) (- e))
  | _ => x
  end.

(** [Math.max] and [Math.min] of two arguments: NaN is contagious and
    [-0] is below [+0]. *)
Definition Math_max (x y : number) : number :=
  if PrimFloat.is_nan x || PrimFloat.is_nan y then PrimFloat.nan
  else if (x <? y)%float then y
  else if (y <? x)%float then x
  else if PrimFloat.is_zero x && PrimFloat.get_sign x then y else x.

Definition Math_min (x y : number) : number :=
  if PrimFloat.is_nan x || PrimFloat.is_nan y then PrimFloat.nan
  else if (x <? y)%float then x
  else if (y <? x)%float then y
  else if PrimFloat.is_zero x && PrimFloat.get_sign x then x else y.

Definition Number_isFinite (x : number) : bool := PrimFloat.is_finite x.

(** [!x] for a number: [0], [-0] and [NaN] are falsy. *)
Definition falsy_number (x : number) : bool :=
  PrimFloat.is_zero x || PrimFloat.is_nan x.

(** [!s] for a string. *)
Definition falsy_string (s : string) : bool :=
  match s with EmptyString => true | _ => false end.

(** [!s] for a string that may be [undefined]. *)
Definition falsy (s : option string) : bool :=
  match s with Some s => falsy_string s | None => true end.

(** [a || b] on possibly undefined strings. *)
Definition or_else (s : option string) (d : string) : string :=
  match s with
  | Some s => if falsy_string s then d else s
  | None => d
  end.

(** [hay.includes(needle)]. *)
Fixpoint includes (needle hay : string) : bool :=
  if String.prefix needle hay then true
  else match hay with
       | EmptyString => false
       | String _ rest => includes needle rest
       end.

(** [s.split(',')]. *)
Fixpoint split_comma (s : string) : list string :=
  match s with
  | EmptyString => [EmptyString]
  | String c rest =>
      let pieces := split_comma rest in
      if Ascii.eqb c ","%char then EmptyString :: pieces
      else match pieces with
           | p :: ps => String c p :: ps
           | [] => [String c EmptyString]
           end
  end.

(** What [trim] removes: the white space and the line terminators of
    ECMAScript.  A string is the sequence of its UTF-8 bytes, as the
    literals of this file are, so a white character takes one, two or three
    bytes.

    One byte: U+0009 to U+000D and U+0020. *)
Definition is_white (c : ascii) : bool :=
  let n := nat_of_ascii c in
  Nat.eqb n 32 || (Nat.leb 9 n && Nat.leb n 13).

(** Two bytes: U+00A0 (C2 A0). *)
Definition is_white2 (c1 c2 : ascii) : bool :=
  Nat.eqb (nat_of_ascii c1) 194 && Nat.eqb (nat_of_ascii c2) 160.

(** Three bytes: U+1680 (E1 9A 80), U+2000 to U+200A (E2 80 80 to E2 80 8A),
    U+2028, U+2029, U+202F (E2 80 A8, A9, AF), U+205F (E2 81 9F), U+3000
    (E3 80 80) and U+FEFF (EF BB BF). *)
Definition is_white3 (c1 c2 c3 : ascii) : bool :=
  let n1 := nat_of_ascii c1 in
  let n2 := nat_of_ascii c2 in
  let n3 := nat_of_ascii c3 in
  (Nat.eqb n1 225 && Nat.eqb n2 154 && Nat.eqb n3 128)
  || (Nat.eqb n1 226 && Nat.eqb n2 128 &&
      ((Nat.leb 128 n3 && Nat.leb n3 138)
       || Nat.eqb n3 168 || Nat.eqb n3 169 || Nat.eqb n3 175))
  || (Nat.eqb n1 226 && Nat.eqb n2 129 && Nat.eqb n3 159)
  || (Nat.eqb n1 227 && Nat.eqb n2 128 && Nat.eqb n3 128)
  || (Nat.eqb n1 239 && Nat.eqb n2 187 && Nat.eqb n3 191).

Fixpoint trimStart (s : string) : string :=
  match s with
  | String c1 rest1 =>
      if is_white c1 then trimStart rest1
      else match rest1 with
           | String c2 rest2 =>
               if is_white2 c1 c2 then trimStart rest2
               else match rest2 with
                    | String c3 rest3 =>
                        if is_white3 c1 c2 c3 then trimStart rest3 else s
                    | EmptyString => s
                    end
           | EmptyString => s
           end
  | EmptyString => EmptyString
  end.

(** A suffix made of white characters only is dropped.  (No white
    character starts with a continuation byte or has one of its bytes
    inside another character, so the test never fires within a
    character.) *)
Fixpoint trimEnd (s : string) : string :=
  match s with
  | String c rest =>
      if falsy_string (trimStart s) then EmptyString
      else String c (trimEnd rest)
  | EmptyString => EmptyString
  end.

Definition trim (s : string) : string := trimEnd (trimStart s).

(** A thrown value, read through its [message] only (which is all the
    sources read); [None] is a missing [message]. *)
Record Error : Set := mkError { message : option string }.

Definition new_Error (msg : string) : Error := mkError (Some msg).

(** A settled promise. *)
Inductive Settled (A : Type) : Type :=
| Resolved (a : A)
| Rejected (e : Error).
Arguments Resolved {A} a.
Arguments Rejected {A} e.

(** Settling is first-come: [resolve] and [reject] on a settled promise do
    nothing. *)
Definition settle {A} (r : Settled A) (p : option (Settled A))
  : option (Settled A) :=
  match p with None => Some r | Some _ => p end.

End JS.
Import JS.

(** ** The browser: object URLs and alerts

    Object URLs are named by a counter, so that each one created is new. *)

Record Browser : Type := mkBrowser {
  objectURLs : gset string;   (* the live object URLs *)
  nextBlob : nat;             (* names the next object URL *)
  alerts : list string        (* [alert] calls, latest first *)
}.

Definition URL_createObjectURL (b : Browser) : string * Browser :=
  let u := "blob:" ++ pretty (nextBlob b) in
  (u, mkBrowser ({[ u ]} ∪ objectURLs b) (S (nextBlob b)) (alerts b)).

Definition URL_revokeObjectURL (u : string) (b : Browser) : Browser :=
  mkBrowser (objectURLs b ∖ {[ u ]}) (nextBlob b) (alerts b).

Definition window_alert (msg : string) (b : Browser) : Browser :=
  mkBrowser (objectURLs b) (nextBlob b) (msg :: alerts b).

Definition emptyBrowser : Browser := mkBrowser ∅ 0 [].


(** ** Frame extraction (utils/videoUtils) *)

(** What [extractFirstFrame] resolves to.  [base64] is
    [dataUrl.split(',')[1]], which is [undefined] for a string without a
    comma. *)
Record ExtractedFrame : Set := mkFrame {
  base64 : option string;
  mimeType : string;
  width : number;
  height : number
}.

Inductive MediaEvent : Set := EvLoadedData | EvSeeked | EvError.

(** One [canvas.toDataURL(type, quality)] call, with what the canvas holds:
    its size and the playback position of the frame drawn on it. *)
Record EncodeRequest : Set := mkEncode {
  enc_type : string;
  enc_quality : number;
  enc_width : number;
  enc_height : number;
  enc_time : number
}.

(** The file and the host, as far as extraction sees them. *)
Record VideoEnv : Type := mkVideoEnv {
  has_window : bool;                       (* typeof window !== 'undefined' *)
  has_document : bool;                     (* typeof document !== 'undefined' *)
  createObjectURL_throws : option Error;   (* URL.createObjectURL(videoFile) *)
  media_events : list (Z * MediaEvent);    (* events of the element, with the
                                              milliseconds since the call *)
  video_duration : number;                 (* video.duration *)
  videoWidth : number;                     (* video.videoWidth *)
  videoHeight : number;                    (* video.videoHeight *)
  canvas_getContext : bool;                (* getContext('2d') is not null *)
  canvas_toDataURL : EncodeRequest -> Error + string
}.

(** The state of one [extractFirstFrame] call: the browser, the closure
    variables of the executor, the element and the promise. *)
Record Extraction : Type := mkExtraction {
  browser : Browser;
  timeoutId : option Z;          (* deadline of the timer, while it is pending *)
  url : string;                  (* the variable [url] *)
  video_onloadeddata : bool;     (* a handler is attached *)
  video_onseeked : bool;
  video_onerror : bool;
  video_removed : bool;          (* [video.remove()] has run *)
  currentTime : number;          (* video.currentTime *)
  promise : option (Settled ExtractedFrame)
}.

Definition start (b : Browser) : Extraction :=
  mkExtraction b None "" false false false false 0%float None.

Definition with_browser (f : Browser -> Browser) (st : Extraction) : Extraction :=
  mkExtraction (f (browser st)) (timeoutId st) (url st) (video_onloadeddata st)
    (video_onseeked st) (video_onerror st) (video_removed st) (currentTime st)
    (promise st).

Definition setTimeout (deadline : Z) (st : Extraction) : Extraction :=
  mkExtraction (browser st) (Some deadline) (url st) (video_onloadeddata st)
    (video_onseeked st) (video_onerror st) (video_removed st) (currentTime st)
    (promise st).

Definition clearTimeout (st : Extraction) : Extraction :=
  mkExtraction (browser st) None (url st) (video_onloadeddata st)
    (video_onseeked st) (video_onerror st) (video_removed st) (currentTime st)
    (promise st).

Definition set_url (u : string) (st : Extraction) : Extraction :=
  mkExtraction (browser st) (timeoutId st) u (video_onloadeddata st)
    (video_onseeked st) (video_onerror st) (video_removed st) (currentTime st)
    (promise st).

Definition set_handlers (l s e : bool) (st : Extraction) : Extraction :=
  mkExtraction (browser st) (timeoutId st) (url st) l s e (video_removed st)
    (currentTime st) (promise st).

Definition video_remove (st : Extraction) : Extraction :=
  mkExtraction (browser st) (timeoutId st) (url st) (video_onloadeddata st)
    (video_onseeked st) (video_onerror st) true (currentTime st) (promise st).

Definition set_currentTime (t : number) (st : Extraction) : Extraction :=
  mkExtraction (browser st) (timeoutId st) (url st) (video_onloadeddata st)
    (video_onseeked st) (video_onerror st) (video_removed st) t (promise st).

Definition resolve (f : ExtractedFrame) (st : Extraction) : Extraction :=
  mkExtraction (browser st) (timeoutId st) (url st) (video_onloadeddata st)
    (video_onseeked st) (video_onerror st) (video_removed st) (currentTime st)
    (settle (Resolved f) (promise st)).

Definition reject (e : Error) (st : Extraction) : Extraction :=
  mkExtraction (browser st) (timeoutId st) (url st) (video_onloadeddata st)
    (video_onseeked st) (video_onerror st) (video_removed st) (currentTime st)
    (settle (Rejected e) (promise st)).

(** [URL.createObjectURL(videoFile)] inside the extraction. *)
Definition createObjectURL (st : Extraction) : string * Extraction :=
  let '(u, b) := URL_createObjectURL (browser st) in
  (u, with_browser (fun _ => b) st).

Definition maxDimension : number := 1024%float.

(** The resizing both versions share:
<<
  if (width > maxDimension || height > maxDimension) {
    const scale = maxDimension / Math.max(width, height);
    width = Math.floor(width * scale);
    height = Math.floor(height * scale);
  }
>> *)
Definition downscale (width height : number) : number * number :=
  if (maxDimension <? width)%float || (maxDimension <? height)%float then
    let scale := (maxDimension / Math_max width height)%float in
    (Math_floor (width * scale)%float, Math_floor (height * scale)%float)
  else (width, height).

(** The JPEG quality of both versions. *)
Definition jpegQuality : number := 0.85%float.

Definition encode (env : VideoEnv) (w h t : number) : Error + string :=
  canvas_toDataURL env (mkEncode "image/jpeg" jpegQuality w h t).

(** A version of [extractFirstFrame]: the promise executor, the three media
    handlers and the timer callback. *)
Record Extractor : Type := mkExtractor {
  executor : VideoEnv -> Extraction -> Extraction;
  on_loadeddata : VideoEnv -> Extraction -> Extraction;
  on_seeked : VideoEnv -> Extraction -> Extraction;
  on_error : VideoEnv -> Extraction -> Extraction;
  on_timeout : VideoEnv -> Extraction -> Extraction
}.

(** An event reaches the handler attached at that moment, if any. *)
Definition dispatch (X : Extractor) (env : VideoEnv) (ev : MediaEvent)
    (st : Extraction) : Extraction :=
  match ev with
  | EvLoadedData => if video_onloadeddata st then on_loadeddata X env st else st
  | EvSeeked => if video_onseeked st then on_seeked X env st else st
  | EvError => if video_onerror st then on_error X env st else st
  end.

(** The timer callback runs once, and only if the timer is still pending. *)
Definition fire (X : Extractor) (env : VideoEnv) (st : Extraction) : Extraction :=
  match timeoutId st with
  | Some _ => on_timeout X env (clearTimeout st)
  | None => st
  end.

(** Time passes until [t]: a timer due by then fires first. *)
Definition elapse (X : Extractor) (env : VideoEnv) (t : Z) (st : Extraction)
    : Extraction :=
  match timeoutId st with
  | Some deadline => if (deadline <=? t)%Z then fire X env st else st
  | None => st
  end.

Fixpoint eventLoop (X : Extractor) (env : VideoEnv) (evs : list (Z * MediaEvent))
    (st : Extraction) : Extraction :=
  match evs with
  | [] => st
  | (t, ev) :: rest => eventLoop X env rest (dispatch X env ev (elapse X env t st))
  end.

(** The call, run until nothing is left to happen: the executor, every media
    event in turn, and at last a timer that is still pending. *)
Definition run (X : Extractor) (env : VideoEnv) (b : Browser) : Extraction :=
  fire X env (eventLoop X env (media_events env) (executor X env (start b))).

(** ** The page (utils/videoUtils, [downloadVideo]) *)

(** An element of the page, as far as [downloadVideo] uses one.  [el_id]
    is the node's identity: [document.createElement] returns a node that is
    no other node. *)
Record Element : Set := mkElement {
  el_id : nat;
  tagName : string;
  href : string;
  download : string
}.

(** The page a download starts from: whether [document] is defined, the
    children of [document.body] ([None]: the body is null), the downloads
    started so far (address and file name, oldest first) and what was
    written to [console.error]. *)
Record Page : Type := mkPage {
  has_doc : bool;
  body : option (list Element);
  nextElement : nat;
  downloads : list (string * string);
  console_errors : list (string * JS.Error)
}.

Definition same_node (a e : Element) : bool := Nat.eqb (el_id a) (el_id e).

(** [document.createElement(tag)]. *)
Definition createElement (tag : string) (p : Page) : JS.Error + Element * Page :=
  if has_doc p then
    inr (mkElement (nextElement p) tag "" "",
         mkPage (has_doc p) (body p) (S (nextElement p)) (downloads p)
           (console_errors p))
  else inl (JS.new_Error "document is not defined").

(** [document.body.appendChild(a)]: [a] becomes the last child. *)
Definition appendChild (a : Element) (p : Page) : JS.Error + Page :=
  if has_doc p then
    match body p with
    | Some children =>
        inr (mkPage (has_doc p)
               (Some (List.filter (fun e => negb (same_node a e)) children ++ [a])%list)
               (nextElement p) (downloads p) (console_errors p))
    | None =>
        inl (JS.new_Error "Cannot read properties of null (reading 'appendChild')")
    end
  else inl (JS.new_Error "document is not defined").

(** [a.click()] on an anchor with a [download] attribute: the browser starts
    a download of [a.href] under the name [a.download]. *)
Definition click (a : Element) (p : Page) : Page :=
  mkPage (has_doc p) (body p) (nextElement p)
    (downloads p ++ [(href a, download a)])%list (console_errors p).

(** [document.body.removeChild(a)]: throws unless [a] is a child. *)
Definition removeChild (a : Element) (p : Page) : JS.Error + Page :=
  if has_doc p then
    match body p with
    | Some children =>
        if existsb (same_node a) children then
          inr (mkPage (has_doc p)
                 (Some (List.filter (fun e => negb (same_node a e)) children))
                 (nextElement p) (downloads p) (console_errors p))
        else inl (JS.new_Error "The node to be removed is not a child of this node.")
    | None =>
        inl (JS.new_Error "Cannot read properties of null (reading 'removeChild')")
    end
  else inl (JS.new_Error "document is not defined").

(** [console.error(label, e)]. *)
Definition console_error (label : string) (e : JS.Error) (p : Page) : Page :=
  mkPage (has_doc p) (body p) (nextElement p) (downloads p)
    (console_errors p ++ [(label, e)])%list.

(** First version: no guard, no timer. *)
Module Bare.

Definition executor (env : VideoEnv) (st : Extraction) : Extraction :=
  if negb (has_document env) then
    (* [document.createElement] throws a ReferenceError inside the executor,
       which rejects the promise *)
    reject (new_Error "document is not defined") st
  else
    match createObjectURL_throws env with
    | Some e => reject e st
    | None =>
        let '(u, st) := createObjectURL st in
        set_handlers true true true (set_url u st)
    end.

Definition onloadeddata (env : VideoEnv) (st : Extraction) : Extraction :=
  set_currentTime 0.1%float st.

Definition onseeked (env : VideoEnv) (st : Extraction) : Extraction :=
  let '(width, height) := downscale (videoWidth env) (videoHeight env) in
  if negb (canvas_getContext env) then
    reject (new_Error "Could not get canvas context")
      (with_browser (URL_revokeObjectURL (url st)) st)
  else
    let mimeType := "image/jpeg" in
    match encode env width height (currentTime st) with
    | inl _ => st      (* the handler throws: nothing is revoked or settled *)
    | inr dataUrl =>
        let base64 := nth_error (split_comma dataUrl) 1 in
        resolve (mkFrame base64 mimeType width height)
          (with_browser (URL_revokeObjectURL (url st)) st)
    end.

Definition onerror (env : VideoEnv) (st : Extraction) : Extraction :=
  reject (new_Error "Error loading video file")
    (with_browser (URL_revokeObjectURL (url st)) st).

Definition extractor : Extractor :=
  mkExtractor executor onloadeddata onseeked onerror (fun _ st => st).

Definition extractFirstFrame (env : VideoEnv) (b : Browser) : Extraction :=
  run extractor env b.

(** [downloadVideo] of the first version: the error it throws, if any, and
    the page it leaves. *)
Definition downloadVideo (url filename : string) (p : Page)
    : option Error * Page :=
  match createElement "a" p with
  | inl e => (Some e, p)
  | inr (a, p) =>
      let a := mkElement (el_id a) (tagName a) url (download a) in
      let a := mkElement (el_id a) (tagName a) (href a) filename in
      match appendChild a p with
      | inl e => (Some e, p)
      | inr p =>
          let p := click a p in
          match removeChild a p with
          | inl e => (Some e, p)
          | inr p => (None, p)
          end
      end
  end.

End Bare.

(** Second version: environment check, 15 s timer, zero-dimension check and
    one [cleanup] on every exit. *)
Module Guarded.

Definition timeoutDelay : Z := 15000.

Definition cleanup (st : Extraction) : Extraction :=
  let st := clearTimeout st in
  let st := if falsy_string (url st) then st
            else with_browser (URL_revokeObjectURL (url st)) st in
  video_remove (set_handlers false false false st).

Definition ontimeout (env : VideoEnv) (st : Extraction) : Extraction :=
  reject (new_Error "Tempo limite excedido: Não foi possível extrair o frame do vídeo.")
    (cleanup st).

Definition executor (env : VideoEnv) (st : Extraction) : Extraction :=
  if negb (has_window env) || negb (has_document env) then
    reject (new_Error "O processamento de vídeo requer um ambiente de navegador.") st
  else
    let st := setTimeout timeoutDelay st in
    match createObjectURL_throws env with
    | Some _ =>
        reject (new_Error "Falha ao carregar o arquivo de vídeo.") (cleanup st)
    | None =>
        let '(u, st) := createObjectURL st in
        set_handlers true true true (set_url u st)
    end.

(** The seek target of [onloadeddata]. *)
Definition targetTime (video_duration : number) : number :=
  let duration :=
    if Number_isFinite video_duration then video_duration else 10%float in
  Math_min 0.1%float
    (if (0 <? duration)%float then (duration / 2)%float else 0%float).

Definition onloadeddata (env : VideoEnv) (st : Extraction) : Extraction :=
  set_currentTime (targetTime (video_duration env)) st.

Definition onseeked (env : VideoEnv) (st : Extraction) : Extraction :=
  let catch (error : Error) := reject error (cleanup st) in
  let width := videoWidth env in
  let height := videoHeight env in
  if falsy_number width || falsy_number height then
    catch (new_Error "Dimensões de vídeo inválidas.")
  else
    let '(width, height) := downscale width height in
    if negb (canvas_getContext env) then
      catch (new_Error "Não foi possível obter o contexto do canvas.")
    else
      let mimeType := "image/jpeg" in
      match encode env width height (currentTime st) with
      | inl error => catch error
      | inr dataUrl =>
          let base64 := nth_error (split_comma dataUrl) 1 in
          resolve (mkFrame base64 mimeType width height) (cleanup st)
      end.

Definition onerror (env : VideoEnv) (st : Extraction) : Extraction :=
  reject (new_Error "Erro ao decodificar o vídeo. O arquivo pode estar corrompido ou formato não suportado.")
    (cleanup st).

Definition extractor : Extractor :=
  mkExtractor executor onloadeddata onseeked onerror ontimeout.

Definition extractFirstFrame (env : VideoEnv) (b : Browser) : Extraction :=
  run extractor env b.

(** [downloadVideo] of the second version: the same steps inside [try],
    and a [catch] that writes to the console. *)
Definition downloadVideo (url filename : string) (p : Page) : Page :=
  let catch (e : Error) (p : Page) :=
    console_error "Erro ao iniciar download:" e p in
  match createElement "a" p with
  | inl e => catch e p
  | inr (a, p) =>
      let a := mkElement (el_id a) (tagName a) url (download a) in
      let a := mkElement (el_id a) (tagName a) (href a) filename in
      match appendChild a p with
      | inl e => catch e p
      | inr p =>
          let p := click a p in
          match removeChild a p with
          | inl e => catch e p
          | inr p => p
          end
      end
  end.

End Guarded.


(** ** Generation client (services/geminiService) *)

(** The parameter type ['16:9' | '9:16']. *)
Inductive AspectRatio : Set := Ratio16x9 | Ratio9x16.

Definition aspectRatio_text (r : AspectRatio) : string :=
  match r with Ratio16x9 => "16:9" | Ratio9x16 => "9:16" end.

(** The argument of [ai.models.generateVideos]. *)
Record GenerateVideosParameters : Set := mkParameters {
  p_model : string;
  p_prompt : string;
  p_imageBytes : option string;
  p_mimeType : string;
  p_numberOfVideos : N;
  p_resolution : string;
  p_aspectRatio : AspectRatio
}.

(** An operation as the client reads it: [name], [done],
    [response?.generatedVideos?.[0]?.video?.uri] and [error?.message]. *)
Record Operation : Set := mkOperation {
  op_name : option string;
  op_done : bool;
  op_videoUri : option string;
  op_errorMessage : option string
}.

(** What [fetch] resolves to, and whether [blob()] then fails. *)
Record Response : Set := mkResponse {
  r_ok : bool;
  r_status : N;
  r_statusText : string;
  r_blob : option Error
}.

(** The service and the network: each call either throws or answers.  The
    answer to a poll may depend on how many polls came before it and on the
    name asked for. *)
Record GenEnv : Type := mkGenEnv {
  API_KEY : option string;                                   (* process.env.API_KEY *)
  generateVideos : GenerateVideosParameters -> Error + Operation;
  getVideosOperation : nat -> string -> Error + Operation;
  fetch : string -> Error + Response
}.

(** What the client does that the outside can see, in order. *)
Inductive Call : Set :=
| CallGenerateVideos (p : GenerateVideosParameters)
| CallSleep (ms : Z)
| CallGetVideosOperation (name : string)
| CallFetch (url : string).

Record World : Type := mkWorld {
  calls : list Call;       (* oldest first *)
  polls : nat;             (* [getVideosOperation] calls so far *)
  w_browser : Browser
}.

(** An async function either returns, throws, or is still waiting when the
    model's fuel runs out. *)
Inductive Outcome (A : Type) : Type :=
| Returned (a : A)
| Thrown (e : Error)
| Waiting.
Arguments Returned {A} a.
Arguments Thrown {A} e.
Arguments Waiting {A}.

Definition M (A : Type) : Type := World -> Outcome A * World.

Definition ret {A} (a : A) : M A := fun w => (Returned a, w).

Definition throw {A} (e : Error) : M A := fun w => (Thrown e, w).

Definition waiting {A} : M A := fun w => (Waiting, w).

Definition bind {A B} (m : M A) (k : A -> M B) : M B :=
  fun w =>
    match m w with
    | (Returned a, w') => k a w'
    | (Thrown e, w') => (Thrown e, w')
    | (Waiting, w') => (Waiting, w')
    end.

(** [try { m } catch (e) { h e }]. *)
Definition try_catch {A} (m : M A) (h : Error -> M A) : M A :=
  fun w =>
    match m w with
    | (Thrown e, w') => h e w'
    | r => r
    end.

Declare Scope js_scope.
Delimit Scope js_scope with js.
Notation "'let*' x ':=' m 'in' k" := (bind m (fun x => k))
  (at level 10, x name, m at level 100, k at level 200) : js_scope.
Notation "'await' m 'in' k" := (bind m (fun _ => k))
  (at level 10, m at level 100, k at level 200) : js_scope.

Definition record (c : Call) : M unit :=
  fun w => (Returned tt, mkWorld (calls w ++ [c]) (polls w) (w_browser w)).

(** A call that throws or answers. *)
Definition answer {A} (r : Error + A) : M A :=
  match r with inl e => throw e | inr a => ret a end.

Definition call_generateVideos (env : GenEnv) (p : GenerateVideosParameters)
    : M Operation :=
  (await record (CallGenerateVideos p) in answer (generateVideos env p))%js.

Definition call_getVideosOperation (env : GenEnv) (name : string) : M Operation :=
  fun w =>
    (await record (CallGetVideosOperation name) in
     answer (getVideosOperation env (polls w) name))%js
      (mkWorld (calls w) (S (polls w)) (w_browser w)).

Definition call_fetch (env : GenEnv) (u : string) : M Response :=
  (await record (CallFetch u) in answer (fetch env u))%js.

Definition sleep (ms : Z) : M unit := record (CallSleep ms).

Definition call_createObjectURL : M string :=
  fun w =>
    let '(u, b) := URL_createObjectURL (w_browser w) in
    (Returned u, mkWorld (calls w) (polls w) b).

Definition newline : string := String (ascii_of_nat 10) EmptyString.

Definition fullPrompt (promptDescription : string) : string :=
  "Cinematic, high quality video. " ++ promptDescription ++ ". " ++ newline ++
  "  Clear visual, no watermarks, no overlay text, clean composition. Photorealistic. Keep the original scene structure but remove overlay elements.".

Definition operationLost : string :=
  "A operação de vídeo foi perdida pelo servidor (404). Tente novamente.".

Definition modelNotFound : string :=
  "O modelo de vídeo ou a operação não foi encontrada. Verifique se sua conta tem acesso ao modelo Veo.".

Definition quotaExceeded : string :=
  "Limite de requisições excedido (Quota). Tente novamente em alguns instantes.".

Definition unknownError : string :=
  "Erro desconhecido ao comunicar com a API Gemini.".

(** [pollError.message && pollError.message.includes('404')]. *)
Definition is404 (pollError : Error) : bool :=
  match message pollError with
  | Some m => negb (falsy_string m) && includes "404" m
  | None => false
  end.

(** One poll, with its [catch]. *)
Definition poll (env : GenEnv) (operationName : string) : M Operation :=
  try_catch (call_getVideosOperation env operationName)
    (fun pollError =>
       if is404 pollError then throw (new_Error operationLost)
       else throw pollError).

(** [while (!operation.done) { await sleep(5000); operation = poll }]:
    [fuel] bounds the number of rounds the model follows. *)
Fixpoint pollLoop (fuel : nat) (env : GenEnv) (operationName : string)
    (operation : Operation) : M Operation :=
  if op_done operation then ret operation
  else match fuel with
       | O => waiting
       | S fuel =>
           (await sleep 5000 in
            let* operation := poll env operationName in
            pollLoop fuel env operationName operation)%js
       end.

(** The outer [catch]: the message a caller gets. *)
Definition userMessage (error : Error) : string :=
  let userMessage := or_else (message error) unknownError in
  if includes "404" userMessage && includes "entity" userMessage then modelNotFound
  else if includes "429" userMessage then quotaExceeded
  else userMessage.

(** The [try] block. *)
Definition generateCleanVideo_try (fuel : nat) (env : GenEnv) (apiKey : string)
    (imageBase64 : option string) (imageMimeType promptDescription : string)
    (aspectRatio : AspectRatio) : M string :=
  (let* operation := call_generateVideos env
      (mkParameters "veo-3.1-fast-generate-preview" (fullPrompt promptDescription)
         imageBase64 imageMimeType 1 "720p" aspectRatio) in
   let operationName := op_name operation in
   match operationName with
   | None => throw (new_Error "A API não retornou um ID de operação válido.")
   | Some operationName =>
       if falsy_string operationName then
         throw (new_Error "A API não retornou um ID de operação válido.")
       else
         let* operation := pollLoop fuel env operationName operation in
         let videoUri := op_videoUri operation in
         if falsy videoUri then
           let errorMsg :=
             or_else (op_errorMessage operation) "Nenhum URI de vídeo retornado." in
           throw (new_Error ("Falha na geração: " ++ errorMsg))
         else
           let downloadUrl := or_else videoUri "" ++ "&key=" ++ apiKey in
           let* videoResponse := call_fetch env downloadUrl in
           if negb (r_ok videoResponse) then
             throw (new_Error ("Falha ao baixar vídeo gerado: " ++
                               pretty (r_status videoResponse) ++ " " ++
                               r_statusText videoResponse))
           else
             match r_blob videoResponse with
             | Some e => throw e
             | None => call_createObjectURL
             end
   end)%js.

Definition generateCleanVideo (fuel : nat) (env : GenEnv)
    (imageBase64 : option string) (imageMimeType promptDescription : string)
    (aspectRatio : AspectRatio) : M string :=
  if falsy (API_KEY env) then
    throw (new_Error "Chave de API não detectada no ambiente. O aplicativo requer uma API Key configurada internamente.")
  else
    let apiKey := or_else (API_KEY env) "" in
    try_catch
      (generateCleanVideo_try fuel env apiKey imageBase64 imageMimeType
         promptDescription aspectRatio)
      (fun error => throw (new_Error (userMessage error))).


(** ** Session controller (App.tsx) *)

Module App.

(** [ProcessingState['status']]. *)
Inductive Status : Set := idle | analyzing | generating | completed | error.

Record ProcessingState : Set := mkProcessingState {
  status : Status;
  progress : option number;
  ps_message : option string;
  ps_error : option string
}.

(** A selected file: its declared type, and what decoding it does. *)
Record File : Type := mkFile {
  file_type : string;
  file_video : VideoEnv
}.

(** The component's state: the six [useState] cells and the value of the
    file input behind [fileInputRef].  The input is rendered exactly while
    [videoFile] is null (App.tsx 143-151): [fileInput] is [None] while it is
    not rendered and the ref is null, and an input mounted by a render starts
    empty. *)
Record AppState : Type := mkApp {
  videoFile : option File;
  videoPreviewUrl : option string;
  prompt : string;
  processingState : ProcessingState;
  generatedVideoUrl : option string;
  extractedFrame : option ExtractedFrame;
  fileInput : option string
}.

Definition state_idle : ProcessingState := mkProcessingState idle None None None.

Definition state_analyzing : ProcessingState :=
  mkProcessingState analyzing None
    (Some "Analisando vídeo e extraindo frame de referência...") None.

Definition state_generating : ProcessingState :=
  mkProcessingState generating None
    (Some "A IA está reconstruindo o vídeo sem a marca d'água...") None.

Definition state_completed : ProcessingState :=
  mkProcessingState completed None None None.

Definition state_error (msg : string) : ProcessingState :=
  mkProcessingState error None None (Some msg).

(** The first render. *)
Definition initial : AppState :=
  mkApp None None "" state_idle None None (Some "").

Definition setProcessingState (p : ProcessingState) (s : AppState) : AppState :=
  mkApp (videoFile s) (videoPreviewUrl s) (prompt s) p (generatedVideoUrl s)
    (extractedFrame s) (fileInput s).

Definition setExtractedFrame (f : option ExtractedFrame) (s : AppState) : AppState :=
  mkApp (videoFile s) (videoPreviewUrl s) (prompt s) (processingState s)
    (generatedVideoUrl s) f (fileInput s).

Definition setGeneratedVideoUrl (u : option string) (s : AppState) : AppState :=
  mkApp (videoFile s) (videoPreviewUrl s) (prompt s) (processingState s) u
    (extractedFrame s) (fileInput s).

Definition setPrompt (p : string) (s : AppState) : AppState :=
  mkApp (videoFile s) (videoPreviewUrl s) p (processingState s)
    (generatedVideoUrl s) (extractedFrame s) (fileInput s).

(** [handleFileChange], for the file [event.target.files?.[0]], with the
    version [X] of [extractFirstFrame] behind the import.  The state
    returned is the one reached when the awaited promise settles, or the
    analyzing state if it never does. *)
Definition handleFileChange (X : Extractor) (file : option File)
    (sb : AppState * Browser) : AppState * Browser :=
  let '(s, b) := sb in
  match file with
  | None => (s, b)
  | Some file =>
      if negb (String.eqb (file_type file) "video/mp4") then
        (s, window_alert "Por favor, envie apenas arquivos MP4." b)
      else
        let '(url, b) := URL_createObjectURL b in
        (* with a file selected the input is no longer rendered *)
        let s := mkApp (Some file) (Some url) (prompt s) state_analyzing None
                   (extractedFrame s) None in
        let extraction := run X (file_video file) b in
        match promise extraction with
        | Some (Resolved frameData) =>
            (setProcessingState state_idle (setExtractedFrame (Some frameData) s),
             browser extraction)
        | Some (Rejected _) =>
            (setProcessingState
               (state_error "Falha ao processar o vídeo. Tente outro arquivo.") s,
             browser extraction)
        | None => (s, browser extraction)
        end
  end.

(** The ratio sent with the request:
    [extractedFrame.width >= extractedFrame.height ? '16:9' : '9:16']. *)
Definition ratio (extractedFrame : ExtractedFrame) : AspectRatio :=
  if (height extractedFrame <=? width extractedFrame)%float
  then Ratio16x9 else Ratio9x16.

(** [handleProcess]: the state and browser it ends in, and the calls
    [generateCleanVideo] made on the way. *)
Definition handleProcess (fuel : nat) (env : GenEnv) (sb : AppState * Browser)
    : AppState * Browser * list Call :=
  let '(s, b) := sb in
  match extractedFrame s with
  | None => (s, b, [])
  | Some frame =>
      if falsy_string (trim (prompt s)) then
        (s, window_alert "Por favor, descreva brevemente o conteúdo do vídeo para ajudar a IA." b, [])
      else
        let s := setProcessingState state_generating s in
        match generateCleanVideo fuel env (base64 frame) (mimeType frame)
                (prompt s) (ratio frame) (mkWorld [] 0 b) with
        | (Returned url, w) =>
            (setProcessingState state_completed (setGeneratedVideoUrl (Some url) s),
             w_browser w, calls w)
        | (Thrown e, w) =>
            (setProcessingState
               (state_error (or_else (message e)
                               "Ocorreu um erro durante a geração do vídeo.")) s,
             w_browser w, calls w)
        | (Waiting, w) => (s, w_browser w, calls w)
        end
  end.

(** [handleReset]: six setters and the file input; no call on [URL].  An
    input that is rendered is emptied through the ref; one that is not is
    mounted, empty, by the render that follows [setVideoFile(null)]. *)
Definition handleReset (sb : AppState * Browser) : AppState * Browser :=
  let '(s, b) := sb in
  (mkApp None None "" state_idle None None
     (match fileInput s with
      | Some _ => Some ""      (* [fileInputRef.current.value = ''] *)
      | None => Some ""        (* the ref is null; a new input is mounted *)
      end),
   b).

(** The cleanup returned by the effect, over the state [captured] by its
    closure. *)
Definition effect_cleanup (captured : AppState) (b : Browser) : Browser :=
  let b := if falsy (videoPreviewUrl captured) then b
           else URL_revokeObjectURL (or_else (videoPreviewUrl captured) "") b in
  if falsy (generatedVideoUrl captured) then b
  else URL_revokeObjectURL (or_else (generatedVideoUrl captured) "") b.

(** Unmounting: the effect has the dependency list [[]], so the cleanup that
    runs is the one created by the first render. *)
Definition unmount (b : Browser) : Browser := effect_cleanup initial b.

(** [useEffect(effect, deps)] as React runs it, as far as it decides which
    cleanup is pending.  The hook keeps the render whose effect ran last:
    the pending cleanup is a closure over that render's state.  The first
    render ([kept = None]) runs the effect.  A later render [s] runs the
    pending cleanup and then the effect again only if one of its
    dependencies differs from those of the render kept. *)
Definition useEffect (deps : AppState -> list (option string))
    (kept : option AppState) (s : AppState) (b : Browser)
    : AppState * Browser :=
  match kept with
  | None => (s, b)
  | Some k =>
      if decide (deps k = deps s) then (k, b)
      else (s, effect_cleanup k b)
  end.

(** The dependency list of the effect of [App] (App.tsx 23): [[]]. *)
Definition effect_deps (s : AppState) : list (option string) := [].

(** The component is mounted, rendered again with the states [renders] in
    turn, and unmounted: the browser after the cleanup pending at that
    moment has run. *)
Definition unmount_after (renders : list AppState) (b : Browser) : Browser :=
  let '(kept, b) :=
    fold_left (fun kb s => useEffect effect_deps (Some (fst kb)) s (snd kb))
      renders (useEffect effect_deps None initial b) in
  effect_cleanup kept b.

(** [handleFileChange] up to its [await]: the setters before it, the
    preview URL, and the executor of the promise awaited, which runs at
    once. *)
Definition handleFileChange_begin (X : Extractor) (file : option File)
    (sb : AppState * Browser) : AppState * Browser :=
  let '(s, b) := sb in
  match file with
  | None => (s, b)
  | Some file =>
      if negb (String.eqb (file_type file) "video/mp4") then
        (s, window_alert "Por favor, envie apenas arquivos MP4." b)
      else
        let '(url, b) := URL_createObjectURL b in
        let s := mkApp (Some file) (Some url) (prompt s) state_analyzing None
                   (extractedFrame s) None in
        (s, browser (executor X (file_video file) (start b)))
  end.

(** What [handleFileChange] does when the promise it awaits settles, on
    the state the component has by then. *)
Definition handleFileChange_settled (r : Settled ExtractedFrame) (s : AppState)
    : AppState :=
  match r with
  | Resolved frameData =>
      setProcessingState state_idle (setExtractedFrame (Some frameData) s)
  | Rejected _ =>
      setProcessingState
        (state_error "Falha ao processar o vídeo. Tente outro arquivo.") s
  end.

(** [handleProcess] up to its [await]: the two guards and the first
    setter.  The flag tells whether a generation was started. *)
Definition handleProcess_begin (sb : AppState * Browser)
    : AppState * Browser * bool :=
  let '(s, b) := sb in
  match extractedFrame s with
  | None => (s, b, false)
  | Some frame =>
      if falsy_string (trim (prompt s)) then
        (s, window_alert "Por favor, descreva brevemente o conteúdo do vídeo para ajudar a IA." b, false)
      else (setProcessingState state_generating s, b, true)
  end.

(** What [handleProcess] does when [generateCleanVideo] returns or throws,
    on the state the component has by then. *)
Definition handleProcess_settled (r : Error + string) (s : AppState) : AppState :=
  match r with
  | inr url =>
      setProcessingState state_completed (setGeneratedVideoUrl (Some url) s)
  | inl e =>
      setProcessingState
        (state_error (or_else (message e)
                        "Ocorreu um erro durante a geração do vídeo.")) s
  end.

End App.


(** ** Sample inputs *)

Definition sampleDataUrl : string := "data:image/jpeg;base64,/9j/4AAQSkZJRg==".

(** A decodable clip in a browser: the host has [window] and [document],
    the object URL is created, the canvas has a context and encodes. *)
Definition clip (w h duration : number) (events : list (Z * MediaEvent))
    : VideoEnv :=
  mkVideoEnv true true None events duration w h true (fun _ => inr sampleDataUrl).

(** Data loaded after 120 ms, seek completed after 340 ms. *)
Definition played : list (Z * MediaEvent) := [(120, EvLoadedData); (340, EvSeeked)].

Definition pendingOperation (name : string) : Operation :=
  mkOperation (Some name) false None None.

Definition finishedOperation (name uri : string) : Operation :=
  mkOperation (Some name) true (Some uri) None.

(** A service with a key configured that accepts every submission as
    ["operations/1"] and serves every download; [answers] are its poll
    replies. *)
Definition service (answers : nat -> string -> Error + Operation) : GenEnv :=
  mkGenEnv (Some "KEY")
    (fun _ => inr (pendingOperation "operations/1"))
    answers
    (fun _ => inr (mkResponse true 200 "OK" None)).

(** Two polls answer "not done" with an operation object that carries
    another name; the third reports the video. *)
Definition renamingService : GenEnv :=
  service (fun n _ =>
             match n with
             | 0%nat | 1%nat => inr (pendingOperation "operations/other")
             | _ => inr (finishedOperation "operations/other" "https://video/1?alt=media")
             end).

(** The first poll answers "not done"; the second raises a not-found error. *)
Definition lostOperationService : GenEnv :=
  service (fun n _ =>
             match n with
             | 0%nat => inr (pendingOperation "operations/1")
             | _ => inl (new_Error "got status: 404 Not Found")
             end).

(** The first poll raises the provider's not-found error. *)
Definition entityNotFoundService : GenEnv :=
  service (fun _ _ =>
             inl (new_Error "got status: 404. Requested entity was not found.")).

(** The submission is refused for quota. *)
Definition quotaService : GenEnv :=
  mkGenEnv (Some "KEY")
    (fun _ => inl (new_Error "got status: 429 Too Many Requests"))
    (fun _ _ => inr (pendingOperation "operations/1"))
    (fun _ => inr (mkResponse true 200 "OK" None)).

(** An MP4 file holding [video]. *)
Definition mp4 (video : VideoEnv) : App.File := App.mkFile "video/mp4" video.

(** A session: a 4000x2000 MP4 is selected on a fresh page, ... *)
Definition uploaded (X : Extractor) : App.AppState * Browser :=
  App.handleFileChange X (Some (mp4 (clip 4000 2000 10 played)))
    (App.initial, emptyBrowser).

(** ... described as "a red car", ... *)
Definition described (X : Extractor) : App.AppState * Browser :=
  (App.setPrompt "a red car" (fst (uploaded X)), snd (uploaded X)).

(** ... and processed by a service that finishes at the third poll. *)
Definition processed (X : Extractor) : App.AppState * Browser * list Call :=
  App.handleProcess 10 renamingService (described X).


(** ** Vocabulary of the statements *)

(** The names asked for by the polls of a call log, in order. *)
Fixpoint polled (cs : list Call) : list string :=
  match cs with
  | [] => []
  | CallGetVideosOperation name :: rest => name :: polled rest
  | _ :: rest => polled rest
  end.

(** [k] rounds of the poll loop for [name], as the outside sees them. *)
Fixpoint pollRounds (name : string) (k : nat) : list Call :=
  match k with
  | O => []
  | S k => CallSleep 5000 :: CallGetVideosOperation name :: pollRounds name k
  end.

(** An event whose handler settles the promise. *)
Definition completing (ev : MediaEvent) : bool :=
  match ev with EvLoadedData => false | EvSeeked | EvError => true end.

(** A completing event arrives before the deadline, and so does every
    event before it. *)
Fixpoint completesBefore (deadline : Z) (evs : list (Z * MediaEvent)) : bool :=
  match evs with
  | [] => false
  | (t, ev) :: rest =>
      (t <? deadline)%Z && (completing ev || completesBefore deadline rest)
  end.

(** No completing event arrives before the deadline. *)
Definition silentUntil (deadline : Z) (evs : list (Z * MediaEvent)) : bool :=
  forallb (fun '(t, ev) => negb (completing ev) || (deadline <=? t)%Z) evs.

(** Two promises settled alike: the same frame, or a rejection each. *)
Definition same_outcome (p q : option (Settled ExtractedFrame)) : Prop :=
  match p, q with
  | Some (Resolved f), Some (Resolved g) => f = g
  | Some (Rejected _), Some (Rejected _) => True
  | _, _ => False
  end.

(** Nothing is held: no pending timer, no handler on the element, the
    element removed, and [u] not a live object URL. *)
Definition released (u : string) (st : Extraction) : Prop :=
  timeoutId st = None /\
  video_onloadeddata st = false /\ video_onseeked st = false /\
  video_onerror st = false /\ video_removed st = true /\
  u ∉ objectURLs (browser st).

(** What a frame owes to the canvas: encoded as JPEG at quality 0.85 from a
    canvas of the frame's size, the payload being what follows the first
    comma of the data URL. *)
Definition encoded_by (env : VideoEnv) (f : ExtractedFrame) : Prop :=
  mimeType f = "image/jpeg" /\
  exists (t : number) (dataUrl : string),
    canvas_toDataURL env (mkEncode "image/jpeg" 0.85%float (width f) (height f) t)
      = inr dataUrl /\
    base64 f = nth_error (split_comma dataUrl) 1.

(** Whatever either version resolves to came from the canvas. *)
Definition frames_encoded (env : VideoEnv) (st : Extraction) : Prop :=
  forall f, promise st = Some (Resolved f) -> encoded_by env f.

(** The object URL an extraction started in browser [b] creates. *)
Definition createdURL (b : Browser) : string := "blob:" ++ pretty (nextBlob b).

(** The guarded extraction is waiting: pending promise, timer running,
    handlers attached, and [u] in the variable [url]. *)
Definition armed (u : string) (st : Extraction) : Prop :=
  promise st = None /\ timeoutId st = Some Guarded.timeoutDelay /\ url st = u /\
  video_onloadeddata st = true /\ video_onseeked st = true /\
  video_onerror st = true.

Definition timeoutError : Error :=
  new_Error "Tempo limite excedido: Não foi possível extrair o frame do vídeo.".

(** The guarded extraction has timed out. *)
Definition timedOut (u : string) (st : Extraction) : Prop :=
  promise st = Some (Rejected timeoutError) /\ released u st.

(** The guarded extraction is over in browser [b]: the promise is settled,
    the timer is gone, no handler is attached and no object URL was added
    to those of [b]; the element, if the host let one be created, is
    removed. *)
Definition finished (env : VideoEnv) (b : Browser) (st : Extraction) : Prop :=
  promise st <> None /\ timeoutId st = None /\
  video_onloadeddata st = false /\ video_onseeked st = false /\
  video_onerror st = false /\
  objectURLs (browser st) ⊆ objectURLs b /\
  (has_window env && has_document env = true -> video_removed st = true).

(** Waiting, with at most the created URL added to those of [b]. *)
Definition waiting_in (b : Browser) (st : Extraction) : Prop :=
  armed (createdURL b) st /\
  objectURLs (browser st) ⊆ {[ createdURL b ]} ∪ objectURLs b.

(** Both versions are waiting, at the same playback position. *)
Definition in_step (sb sg : Extraction) : Prop :=
  (promise sb = None /\ timeoutId sb = None /\
   video_onloadeddata sb = true /\ video_onseeked sb = true /\
   video_onerror sb = true) /\
  (promise sg = None /\ timeoutId sg = Some Guarded.timeoutDelay /\
   video_onloadeddata sg = true /\ video_onseeked sg = true /\
   video_onerror sg = true) /\
  currentTime sb = currentTime sg.

(** The world after one more round for [name]. *)
Definition after_round (name : string) (w : World) : World :=
  mkWorld (calls w ++ pollRounds name 1) (S (polls w)) (w_browser w).

(** The error a poll's [catch] throws on. *)
Definition rethrown (pollError : Error) : Error :=
  if is404 pollError then new_Error operationLost else pollError.

(** The request [generateCleanVideo] submits. *)
Definition submission (imageBase64 : option string)
    (imageMimeType promptDescription : string) (aspectRatio : AspectRatio)
    : GenerateVideosParameters :=
  mkParameters "veo-3.1-fast-generate-preview" (fullPrompt promptDescription)
    imageBase64 imageMimeType 1 "720p" aspectRatio.

(** Whatever the guarded version resolves to has the size [downscale]
    gives, for a video whose sides are neither zero nor NaN. *)
Definition sized (env : VideoEnv) (st : Extraction) : Prop :=
  forall f, promise st = Some (Resolved f) ->
    falsy_number (videoWidth env) = false /\
    falsy_number (videoHeight env) = false /\
    (width f, height f) = downscale (videoWidth env) (videoHeight env).

(** The longer sides from 1025 to 8192 pixels. *)
Definition longerSides : list Z :=
  map (fun i => 1025 + Z.of_nat i) (seq 0 (Z.to_nat 7168)).

(** For a longer side of [m] pixels: [m] is above the limit, and the floor
    of [m * (1024 / m)], computed as [downscale] computes it, is 1023 or
    1024. *)
Definition longerSideCheck (m : Z) : bool :=
  let longer := of_Z m in
  (maxDimension <? longer)%float && negb (PrimFloat.is_zero longer) &&
  let scaled := Math_floor (longer * (maxDimension / longer))%float in
  (PrimFloat.Leibniz.eqb scaled 1023 || PrimFloat.Leibniz.eqb scaled 1024).

(** The extraction of version [X] once its executor has run and the events
    [evs] have been handled, in order: a timer due by then has fired, one
    still pending has not. *)
Definition stateAfter (X : Extractor) (env : VideoEnv) (b : Browser)
    (evs : list (Z * MediaEvent)) : Extraction :=
  eventLoop X env evs (executor X env (start b)).

(** The runs on which no guard of the second version fires: a browser, the
    object URL created, a width and a height that are neither zero nor NaN,
    a canvas that encodes, a duration of at least 0.2 s or not finite (so
    that both versions seek to 0.1 s), and a [seeked] or [error] event
    before the deadline. *)
Definition noGuardFires (env : VideoEnv) : Prop :=
  has_window env = true /\ has_document env = true /\
  createObjectURL_throws env = None /\
  falsy_number (videoWidth env) = false /\
  falsy_number (videoHeight env) = false /\
  (forall r, exists dataUrl, canvas_toDataURL env r = inr dataUrl) /\
  ((0.2 <=? video_duration env)%float = true \/
   Number_isFinite (video_duration env) = false) /\
  completesBefore Guarded.timeoutDelay (media_events env) = true.

(** Events that only load data, each before the deadline. *)
Definition leadIn (deadline : Z) (evs : list (Z * MediaEvent)) : bool :=
  forallb (fun '(t, ev) => negb (completing ev) && (t <? deadline)%Z) evs.

(** Events that only load data, whenever they come. *)
Definition loadsOnly (evs : list (Z * MediaEvent)) : bool :=
  forallb (fun '(_, ev) => negb (completing ev)) evs.

(** The playback position once the events [pre], all [loadeddata], have
    been handled by a version that seeks to [target]: the initial 0 if there
    was none. *)
Definition positionAfter (target : number) (pre : list (Z * MediaEvent))
    : number :=
  match pre with [] => 0%float | _ :: _ => target end.

(** A string without a comma. *)
Fixpoint commaFree (s : string) : bool :=
  match s with
  | EmptyString => true
  | String c rest => negb (Ascii.eqb c ","%char) && commaFree rest
  end.

(** Every child of the body was created before the next element will
    be. *)
Definition well_formed (p : Page) : Prop :=
  forall children, body p = Some children ->
    Forall (fun e => (el_id e < nextElement p)%nat) children.

(** The download of [downloadUrl] fails with [raw]: [fetch] throws it, or
    the response is not ok and [raw] is the error made from its status, or
    reading the blob throws it. *)
Definition downloadFails (env : GenEnv) (downloadUrl : string) (raw : Error)
    : Prop :=
  match fetch env downloadUrl with
  | inl e => raw = e
  | inr response =>
      if r_ok response then r_blob response = Some raw
      else raw = new_Error ("Falha ao baixar vídeo gerado: " ++
                            pretty (r_status response) ++ " " ++
                            r_statusText response)
  end.

(** ** The event loop *)

Section EventLoop.

Variable X : Extractor.
Variable env : VideoEnv.
Variable I : Extraction -> Prop.

Hypothesis I_loadeddata :
  forall st, I st -> video_onloadeddata st = true -> I (on_loadeddata X env st).
Hypothesis I_seeked :
  forall st, I st -> video_onseeked st = true -> I (on_seeked X env st).
Hypothesis I_error :
  forall st, I st -> video_onerror st = true -> I (on_error X env st).
Hypothesis I_timeout :
  forall st d, I st -> timeoutId st = Some d -> I (on_timeout X env (clearTimeout st)).

Lemma dispatch_invariant ev st : I st -> I (dispatch X env ev st).
Proof.
  intros H. destruct ev; simpl.
  - destruct (video_onloadeddata st) eqn:E; auto.
  - destruct (video_onseeked st) eqn:E; auto.
  - destruct (video_onerror st) eqn:E; auto.
Qed.

Lemma fire_invariant st : I st -> I (fire X env st).
Proof.
  intros H. unfold fire. destruct (timeoutId st) eqn:E; eauto.
Qed.

Lemma elapse_invariant t st : I st -> I (elapse X env t st).
Proof.
  intros H. unfold elapse. destruct (timeoutId st) eqn:E; auto.
  destruct (z <=? t)%Z; auto using fire_invariant.
Qed.

Lemma eventLoop_invariant evs : forall st, I st -> I (eventLoop X env evs st).
Proof.
  induction evs as [|[t ev] rest IH]; intros st H; simpl; auto.
  apply IH, dispatch_invariant, elapse_invariant, H.
Qed.

Lemma run_invariant b : I (executor X env (start b)) -> I (run X env b).
Proof.
  intros H. unfold run. apply fire_invariant, eventLoop_invariant, H.
Qed.

End EventLoop.

(** A state with no timer and no handler is left alone by every event,
    for any version, and is the end of the run. *)
Lemma inert_eventLoop X env evs : forall st,
  timeoutId st = None ->
  video_onloadeddata st = false -> video_onseeked st = false ->
  video_onerror st = false ->
  eventLoop X env evs st = st.
Proof.
  induction evs as [|[t ev] rest IH]; intros st Ht Hl Hs He; [reflexivity|].
  cbn [eventLoop]. unfold elapse. rewrite Ht.
  assert (E : dispatch X env ev st = st).
  { destruct ev; unfold dispatch; [now rewrite Hl|now rewrite Hs|now rewrite He]. }
  rewrite E. now apply IH.
Qed.

Lemma inert_run X env evs st :
  timeoutId st = None ->
  video_onloadeddata st = false -> video_onseeked st = false ->
  video_onerror st = false ->
  fire X env (eventLoop X env evs st) = st.
Proof.
  intros Ht Hl Hs He. rewrite inert_eventLoop by assumption.
  unfold fire. now rewrite Ht.
Qed.

(** ** Frames *)

Lemma settle_resolved {A} (r : Settled A) p (a : A) :
  settle r p = Some (Resolved a) ->
  p = Some (Resolved a) \/ (p = None /\ r = Resolved a).
Proof.
  destruct p; simpl; intros H; [left; exact H | right; split; congruence].
Qed.

Lemma promise_cleanup st : promise (Guarded.cleanup st) = promise st.
Proof. unfold Guarded.cleanup. destruct (falsy_string _); reflexivity. Qed.

Lemma promise_reject e st : promise (reject e st) = settle (Rejected e) (promise st).
Proof. reflexivity. Qed.

Lemma promise_resolve f st : promise (resolve f st) = settle (Resolved f) (promise st).
Proof. reflexivity. Qed.

Lemma promise_with_browser g st : promise (with_browser g st) = promise st.
Proof. reflexivity. Qed.

Lemma promise_clearTimeout st : promise (clearTimeout st) = promise st.
Proof. reflexivity. Qed.

Lemma promise_set_currentTime t st : promise (set_currentTime t st) = promise st.
Proof. reflexivity. Qed.

Create Rewrite HintDb promise.
#[local] Hint Rewrite promise_cleanup promise_reject promise_resolve
  promise_with_browser promise_clearTimeout promise_set_currentTime : promise.

(** A rejection leaves the frames of a promise as they were. *)
Ltac kept_by H :=
  let Hf := fresh "Hf" in
  autorewrite with promise;
  intros Hf; apply settle_resolved in Hf as [Hf|[_ Hf]];
  [ now apply H | discriminate ].

Lemma Guarded_frames_encoded env b :
  frames_encoded env (Guarded.extractFirstFrame env b).
Proof.
  apply (run_invariant Guarded.extractor env (frames_encoded env));
    unfold frames_encoded; cbn [on_loadeddata on_seeked on_error on_timeout
                                executor Guarded.extractor].
  - intros st H _. exact H.
  - intros st H _ f. unfold Guarded.onseeked.
    destruct (falsy_number (videoWidth env) || falsy_number (videoHeight env));
      [kept_by H|].
    destruct (downscale _ _) as [w h].
    destruct (canvas_getContext env); cbn [negb]; [|kept_by H].
    unfold encode. destruct (canvas_toDataURL env _) as [e|dataUrl] eqn:E;
      [kept_by H|].
    autorewrite with promise.
    intros Hf. apply settle_resolved in Hf as [Hf|[_ Hf]]; [now apply H|].
    inversion Hf; subst. split; [reflexivity|]. cbn [width height base64]. eauto.
  - intros st H _ f. unfold Guarded.onerror. kept_by H.
  - intros st d H _ f. unfold Guarded.ontimeout. kept_by H.
  - unfold Guarded.executor.
    destruct (negb (has_window env) || negb (has_document env)).
    + intros f Hf; discriminate.
    + destruct (createObjectURL_throws env); intros f Hf; discriminate.
Qed.

Lemma Bare_frames_encoded env b :
  frames_encoded env (Bare.extractFirstFrame env b).
Proof.
  apply (run_invariant Bare.extractor env (frames_encoded env));
    unfold frames_encoded; cbn [on_loadeddata on_seeked on_error on_timeout
                                executor Bare.extractor].
  - intros st H _. exact H.
  - intros st H _ f. unfold Bare.onseeked.
    destruct (downscale _ _) as [w h].
    destruct (canvas_getContext env); cbn [negb]; [|kept_by H].
    unfold encode. destruct (canvas_toDataURL env _) as [e|dataUrl] eqn:E;
      [apply H|].
    autorewrite with promise.
    intros Hf. apply settle_resolved in Hf as [Hf|[_ Hf]]; [now apply H|].
    inversion Hf; subst. split; [reflexivity|]. cbn [width height base64]. eauto.
  - intros st H _ f. unfold Bare.onerror. kept_by H.
  - intros st d H _. exact H.
  - unfold Bare.executor. destruct (has_document env); cbn [negb].
    + destruct (createObjectURL_throws env); intros f Hf; discriminate.
    + intros f Hf; discriminate.
Qed.

(** C10.  Every frame [extractFirstFrame] resolves to, in either version
    and whatever the file, has [mimeType] ["image/jpeg"]; it was encoded by
    [canvas.toDataURL('image/jpeg', 0.85)] on a canvas of the frame's size,
    and [base64] is what follows the first comma of that data URL. *)
Theorem extractFirstFrame_mimeType_jpeg
    (env : VideoEnv) (b : Browser) (f : ExtractedFrame) :
  promise (Bare.extractFirstFrame env b) = Some (Resolved f) \/
  promise (Guarded.extractFirstFrame env b) = Some (Resolved f) ->
  mimeType f = "image/jpeg" /\
  exists (t : number) (dataUrl : string),
    canvas_toDataURL env
      (mkEncode "image/jpeg" 0.85%float (width f) (height f) t) = inr dataUrl /\
    base64 f = nth_error (split_comma dataUrl) 1.
Proof.
  intros [H|H].
  - exact (Bare_frames_encoded env b f H).
  - exact (Guarded_frames_encoded env b f H).
Qed.

(** The 4000x2000 clip resolves, in the guarded version, to a JPEG frame. *)
Lemma extractFirstFrame_mimeType_jpeg_witness :
  promise (Guarded.extractFirstFrame (clip 4000 2000 10 played) emptyBrowser)
    = Some (Resolved (mkFrame (Some "/9j/4AAQSkZJRg==") "image/jpeg" 1024 512)) /\
  mimeType (mkFrame (Some "/9j/4AAQSkZJRg==") "image/jpeg" 1024 512) = "image/jpeg".
Proof.
  split; [vm_compute; reflexivity|].
  apply (extractFirstFrame_mimeType_jpeg (clip 4000 2000 10 played) emptyBrowser).
  right. vm_compute. reflexivity.
Defined.

(** ** Release of what the guarded version holds *)

Ltac unfold_state :=
  cbn [promise timeoutId url video_onloadeddata video_onseeked video_onerror
       video_removed currentTime browser reject resolve set_currentTime
       video_remove set_handlers set_url clearTimeout setTimeout with_browser
       start objectURLs nextBlob alerts URL_revokeObjectURL fst snd] in *.

Lemma createdURL_truthy b : falsy_string (createdURL b) = false.
Proof. reflexivity. Qed.

Lemma cleanup_released u st :
  url st = u -> falsy_string u = false -> released u (Guarded.cleanup st).
Proof.
  intros Hu Hf. unfold Guarded.cleanup, released. unfold_state.
  rewrite Hu, Hf. unfold_state. repeat split; try reflexivity.
  intros [_ Hne]%elem_of_difference. apply Hne, elem_of_singleton. reflexivity.
Qed.

Lemma released_reject u e st : released u st -> released u (reject e st).
Proof. exact id. Qed.

Lemma released_resolve u f st : released u st -> released u (resolve f st).
Proof. exact id. Qed.

Lemma settle_not_pending {A} (r : Settled A) p : settle r p <> None.
Proof. destruct p; discriminate. Qed.

(** The state after the guarded executor in a browser. *)
Lemma Guarded_executor_armed env b :
  has_window env = true -> has_document env = true ->
  createObjectURL_throws env = None ->
  let st := Guarded.executor env (start b) in
  armed (createdURL b) st /\
  objectURLs (browser st) = {[ createdURL b ]} ∪ objectURLs b.
Proof.
  intros Hw Hd Hc. unfold Guarded.executor. rewrite Hw, Hd, Hc.
  cbn [negb orb]. unfold createObjectURL, URL_createObjectURL. unfold_state.
  repeat split.
Qed.

(** Once released and settled, the guarded extraction ignores every event. *)
Lemma released_eventLoop u env evs : forall st,
  released u st -> eventLoop Guarded.extractor env evs st = st.
Proof.
  induction evs as [|[t ev] rest IH]; intros st H; [reflexivity|].
  cbn [eventLoop]. destruct H as (Ht & Hl & Hs & He & Hr & Hu).
  assert (E : dispatch Guarded.extractor env ev (elapse Guarded.extractor env t st) = st).
  { unfold elapse. rewrite Ht. destruct ev; unfold dispatch.
    - now rewrite Hl.
    - now rewrite Hs.
    - now rewrite He. }
  rewrite E. apply IH. repeat split; assumption.
Qed.

Lemma released_fire u env st : released u st -> fire Guarded.extractor env st = st.
Proof. intros (Ht & _). unfold fire. now rewrite Ht. Qed.

Lemma armed_fire u env st :
  falsy_string u = false -> armed u st ->
  timedOut u (fire Guarded.extractor env st).
Proof.
  intros Hf (Hp & Ht & Hu & _). unfold fire. rewrite Ht.
  cbn [on_timeout Guarded.extractor]. unfold Guarded.ontimeout. split.
  - autorewrite with promise. rewrite Hp. reflexivity.
  - apply released_reject, cleanup_released; [exact Hu|exact Hf].
Qed.

Lemma armed_silent_eventLoop u env evs : forall st,
  falsy_string u = false ->
  silentUntil Guarded.timeoutDelay evs = true ->
  armed u st ->
  armed u (eventLoop Guarded.extractor env evs st) \/
  timedOut u (eventLoop Guarded.extractor env evs st).
Proof.
  induction evs as [|[t ev] rest IH]; intros st Hf Hs Ha; [now left|].
  cbn [silentUntil forallb] in Hs. apply andb_prop in Hs as [Hev Hs].
  cbn [eventLoop]. unfold elapse.
  pose proof Ha as (Hp & Ht & Hu & Hl & Hk & He). rewrite Ht.
  destruct (Guarded.timeoutDelay <=? t)%Z eqn:Et.
  - (* the timer is due: it fires before the event is delivered *)
    right. pose proof (armed_fire u env st Hf Ha) as [Hq Hr].
    assert (E : dispatch Guarded.extractor env ev (fire Guarded.extractor env st)
                = fire Guarded.extractor env st).
    { destruct Hr as (_ & Hl' & Hs' & He' & _).
      destruct ev; unfold dispatch; [now rewrite Hl'|now rewrite Hs'|now rewrite He']. }
    rewrite E, (released_eventLoop u env rest _ Hr). split; assumption.
  - (* before the deadline only [loadeddata] arrives *)
    rewrite orb_false_r in Hev. destruct ev; try discriminate.
    unfold dispatch. rewrite Hl. apply IH; [exact Hf|exact Hs|].
    (* [onloadeddata] moves the playback position only *)
    exact Ha.
Qed.

(** X1. In a browser, a guarded extraction that sees no [seeked] and no
    [error] event within 15000 ms is rejected with the timeout error, and by
    then holds nothing: the timer is gone, the handlers are detached, the
    element is removed and the object URL is revoked. *)
Lemma Guarded_times_out (env : VideoEnv) (b : Browser) :
  has_window env = true -> has_document env = true ->
  createObjectURL_throws env = None ->
  silentUntil 15000 (media_events env) = true ->
  promise (Guarded.extractFirstFrame env b) = Some (Rejected timeoutError) /\
  released (createdURL b) (Guarded.extractFirstFrame env b).
Proof.
  intros Hw Hd Hc Hs.
  destruct (Guarded_executor_armed env b Hw Hd Hc) as [Ha _].
  unfold Guarded.extractFirstFrame, run.
  destruct (armed_silent_eventLoop (createdURL b) env (media_events env) _
              (createdURL_truthy b) Hs Ha) as [H|H].
  - apply armed_fire; [apply createdURL_truthy|exact H].
  - destruct H as [Hp Hr]. rewrite (released_fire _ _ _ Hr). split; assumption.
Qed.

Lemma Guarded_times_out_witness :
  silentUntil 15000 [(20000, EvSeeked)] = true /\
  promise (Guarded.extractFirstFrame (clip 640 480 10 [(20000, EvSeeked)]) emptyBrowser)
    = Some (Rejected timeoutError).
Proof.
  split; [reflexivity|].
  apply (Guarded_times_out (clip 640 480 10 [(20000, EvSeeked)]) emptyBrowser);
    reflexivity.
Defined.

Lemma cleanup_finished env b st :
  waiting_in b st ->
  timeoutId (Guarded.cleanup st) = None /\
  video_onloadeddata (Guarded.cleanup st) = false /\
  video_onseeked (Guarded.cleanup st) = false /\
  video_onerror (Guarded.cleanup st) = false /\
  objectURLs (browser (Guarded.cleanup st)) ⊆ objectURLs b /\
  (has_window env && has_document env = true ->
   video_removed (Guarded.cleanup st) = true).
Proof.
  intros [(_ & _ & Hu & _) Hsub]. unfold Guarded.cleanup. unfold_state.
  rewrite Hu, createdURL_truthy. unfold_state.
  repeat split; try reflexivity.
  intros x [Hx Hne]%elem_of_difference.
  apply Hsub in Hx. apply elem_of_union in Hx as [Hx|Hx]; [contradiction|exact Hx].
Qed.

Lemma reject_cleanup_finished env b e st :
  waiting_in b st -> finished env b (reject e (Guarded.cleanup st)).
Proof.
  intros H. split; [apply settle_not_pending|].
  exact (cleanup_finished env b st H).
Qed.

Lemma resolve_cleanup_finished env b f st :
  waiting_in b st -> finished env b (resolve f (Guarded.cleanup st)).
Proof.
  intros H. split; [apply settle_not_pending|].
  exact (cleanup_finished env b st H).
Qed.

Lemma reject_start_finished env b e :
  has_window env && has_document env = false ->
  finished env b (reject e (start b)).
Proof.
  intros H. split; [apply settle_not_pending|]. unfold_state.
  repeat split; try reflexivity. rewrite H. discriminate.
Qed.

Lemma Guarded_waiting_or_finished env b :
  let st := Guarded.extractFirstFrame env b in
  waiting_in b st \/ finished env b st.
Proof.
  apply (run_invariant Guarded.extractor env
           (fun st => waiting_in b st \/ finished env b st));
    cbn [on_loadeddata on_seeked on_error on_timeout executor Guarded.extractor].
  - intros st [H|H] _; [left; exact H|right; exact H].
  - intros st [H|(_ & _ & _ & Hs & _)] Hon; [|congruence]. right.
    unfold Guarded.onseeked.
    destruct (falsy_number _ || falsy_number _);
      [now apply reject_cleanup_finished|].
    destruct (downscale _ _) as [w h].
    destruct (negb (canvas_getContext env));
      [now apply reject_cleanup_finished|].
    destruct (encode env w h (currentTime st));
      [now apply reject_cleanup_finished|now apply resolve_cleanup_finished].
  - intros st [H|(_ & _ & _ & _ & He & _)] Hon; [|congruence]. right.
    now apply reject_cleanup_finished.
  - intros st d [H|(_ & Ht & _)] Hd; [|congruence]. right.
    unfold Guarded.ontimeout.
    (* the callback's [cleanup] meets a timer already consumed *)
    split; [apply settle_not_pending|].
    destruct H as [(_ & _ & Hu & _) Hsub].
    unfold Guarded.cleanup. unfold_state. rewrite Hu, createdURL_truthy.
    unfold_state. repeat split; try reflexivity.
    intros x [Hx Hne]%elem_of_difference.
    apply Hsub in Hx. apply elem_of_union in Hx as [Hx|Hx]; [contradiction|exact Hx].
  - unfold Guarded.executor.
    destruct (has_window env && has_document env) eqn:E.
    + apply andb_prop in E as [-> ->]. cbn [negb orb].
      destruct (createObjectURL_throws env).
      * right. split; [apply settle_not_pending|].
        unfold Guarded.cleanup. unfold_state. cbn [falsy_string].
        repeat split; reflexivity.
      * left. unfold createObjectURL, URL_createObjectURL. unfold_state.
        repeat split; reflexivity.
    + right. rewrite <- negb_andb, E. cbn [negb].
      now apply reject_start_finished.
Qed.

Lemma Guarded_fire_clears env st :
  timeoutId (fire Guarded.extractor env st) = None.
Proof.
  unfold fire. destruct (timeoutId st) eqn:E; [|exact E].
  cbn [on_timeout Guarded.extractor]. unfold Guarded.ontimeout, Guarded.cleanup.
  unfold_state. destruct (falsy_string _); reflexivity.
Qed.

(** The guarded extraction at any moment between two events: waiting, or
    finished. *)
Lemma Guarded_stateAfter env b evs :
  let st := stateAfter Guarded.extractor env b evs in
  waiting_in b st \/ finished env b st.
Proof.
  unfold stateAfter.
  apply (eventLoop_invariant Guarded.extractor env
           (fun st => waiting_in b st \/ finished env b st));
    cbn [on_loadeddata on_seeked on_error on_timeout executor Guarded.extractor].
  - intros st [H|H] _; [left; exact H|right; exact H].
  - intros st [H|(_ & _ & _ & Hs & _)] Hon; [|congruence]. right.
    unfold Guarded.onseeked.
    destruct (falsy_number _ || falsy_number _);
      [now apply reject_cleanup_finished|].
    destruct (downscale _ _) as [w h].
    destruct (negb (canvas_getContext env));
      [now apply reject_cleanup_finished|].
    destruct (encode env w h (currentTime st));
      [now apply reject_cleanup_finished|now apply resolve_cleanup_finished].
  - intros st [H|(_ & _ & _ & _ & He & _)] Hon; [|congruence]. right.
    now apply reject_cleanup_finished.
  - intros st d [H|(_ & Ht & _)] Hd; [|congruence]. right.
    unfold Guarded.ontimeout.
    split; [apply settle_not_pending|].
    destruct H as [(_ & _ & Hu & _) Hsub].
    unfold Guarded.cleanup. unfold_state. rewrite Hu, createdURL_truthy.
    unfold_state. repeat split; try reflexivity.
    intros x [Hx Hne]%elem_of_difference.
    apply Hsub in Hx. apply elem_of_union in Hx as [Hx|Hx]; [contradiction|exact Hx].
  - unfold Guarded.executor.
    destruct (has_window env && has_document env) eqn:E.
    + apply andb_prop in E as [-> ->]. cbn [negb orb].
      destruct (createObjectURL_throws env).
      * right. split; [apply settle_not_pending|].
        unfold Guarded.cleanup. unfold_state. cbn [falsy_string].
        repeat split; reflexivity.
      * left. unfold createObjectURL, URL_createObjectURL. unfold_state.
        repeat split; reflexivity.
    + right. rewrite <- negb_andb, E. cbn [negb].
      now apply reject_start_finished.
Qed.

(** X2. Whatever the host, the file and the media events, the guarded
    extraction settles in the end, and at every moment - after the executor
    and after each event handled - it is in one of two conditions: still
    waiting (promise pending, the 15 s timer running, the three handlers
    attached), or settled with nothing left of what it acquired (timer
    cleared, handlers detached, no object URL beyond those live before the
    call, the element removed).  So the promise is never settled while the
    timer is pending or a handler attached: every exit path has run
    [cleanup], timer included, by the time it settles. *)
Lemma Guarded_always_settles_and_releases (env : VideoEnv) (b : Browser) :
  finished env b (Guarded.extractFirstFrame env b) /\
  forall evs : list (Z * MediaEvent),
    let st := stateAfter Guarded.extractor env b evs in
    waiting_in b st \/ finished env b st.
Proof.
  split; [|intros evs; apply Guarded_stateAfter].
  destruct (Guarded_waiting_or_finished env b) as [[(_ & Ht & _) _]|H];
    [|exact H].
  unfold Guarded.extractFirstFrame, run in Ht.
  rewrite Guarded_fire_clears in Ht. discriminate.
Qed.

(** ** Binary64: halving a duration

    [duration / 2] is exact for a normal float: the mantissa stays and the
    exponent drops by one.  This is read off the specification of the
    primitive floats ([SpecFloat], [FloatAxioms]). *)

Lemma div_eucl_exact a b q : 0 < b -> a = q * b -> Z.div_eucl a b = (q, 0).
Proof.
  intros Hb ->. pose proof (Z.div_mul q b ltac:(lia)) as Hq.
  pose proof (Z.mod_mul q b ltac:(lia)) as Hr.
  unfold Z.div, Z.modulo in *. destruct (Z.div_eucl (q * b) b). simpl in *. congruence.
Qed.

Lemma SFdiv_core_two m e :
  digits2_pos m = 53%positive -> -1072 <= e ->
  SFdiv_core_binary prec emax (Zpos m) e 4503599627370496 (-51) = (Zpos m~0, e - 2, loc_Exact).
Proof.
  intros Hd He. unfold SFdiv_core_binary. cbv zeta.
  change (Zdigits2 (Z.pos m)) with (Z.pos (digits2_pos m)). rewrite Hd.
  change (Zdigits2 4503599627370496) with 53.
  replace (Z.min (fexp prec emax (53 + e - (53 + -51))) (e - -51)) with (e - 2)
    by (unfold fexp, SpecFloat.emin, prec, emax; lia).
  replace (e - -51 - (e - 2)) with 53 by lia.
  cbv iota beta.
  rewrite (div_eucl_exact (Z.shiftl (Z.pos m) 53) 4503599627370496 (Z.pos m~0)).
  - reflexivity.
  - lia.
  - rewrite Z.shiftl_mul_pow2 by lia. change (2 ^ 53) with (2 * 4503599627370496). lia.
Qed.

Lemma binary_round_aux_half m e :
  digits2_pos m = 53%positive -> -1072 <= e -> e <= 972 ->
  binary_round_aux prec emax false (Zpos m~0) (e - 2) loc_Exact = S754_finite false m (e - 1).
Proof.
  intros Hd He1 He2. unfold binary_round_aux, shr_fexp.
  change (Zdigits2 (Z.pos m~0)) with (Z.pos (Pos.succ (digits2_pos m))). rewrite Hd.
  change (Z.pos (Pos.succ 53)) with 54.
  replace (fexp prec emax (54 + (e - 2)) - (e - 2)) with 1
    by (unfold fexp, SpecFloat.emin, prec, emax; lia).
  cbn [shr shr_record_of_loc SpecFloat.iter_pos shr_1 shr_m loc_of_shr_record
       round_nearest_even orb].
  change (Zdigits2 (Z.pos m)) with (Z.pos (digits2_pos m)). rewrite Hd.
  replace (fexp prec emax (53 + (e - 2 + 1)) - (e - 2 + 1)) with 0
    by (unfold fexp, SpecFloat.emin, prec, emax; lia).
  cbn [shr shr_m].
  replace (e - 2 + 1) with (e - 1) by lia.
  replace (e - 1 <=? emax - prec) with true by (unfold emax, prec; lia).
  reflexivity.
Qed.

Lemma SFdiv_two m e :
  digits2_pos m = 53%positive -> -1072 <= e -> e <= 972 ->
  SF64div (S754_finite false m e) (S754_finite false 4503599627370496 (-51))
  = S754_finite false m (e - 1).
Proof.
  intros Hd He1 He2. unfold SF64div, SFdiv.
  rewrite (SFdiv_core_two m e Hd He1). cbn [xorb].
  apply binary_round_aux_half; assumption.
Qed.

(** What validity says of a finite float above the subnormal range. *)
Lemma valid_normal (x : float) m e :
  Prim2SF x = S754_finite false m e -> -1073 <= e ->
  digits2_pos m = 53%positive /\ e <= 971.
Proof.
  intros E He. pose proof (Prim2SF_valid x) as V. rewrite E in V.
  unfold valid_binary, bounded, canonical_mantissa in V.
  apply andb_prop in V as [Vc Vb].
  apply Z.eqb_eq in Vc. apply Z.leb_le in Vb.
  unfold fexp, SpecFloat.emin, prec, emax in *. split; [|lia].
  assert (Z.pos (digits2_pos m) = 53) by lia. congruence.
Qed.

Lemma half_of_normal (x : float) m e :
  Prim2SF x = S754_finite false m e -> -1072 <= e ->
  Prim2SF (x / 2) = S754_finite false m (e - 1).
Proof.
  intros E He. destruct (valid_normal x m e E ltac:(lia)) as [Hd Hb].
  rewrite FloatAxioms.div_spec, E.
  change (Prim2SF 2) with (S754_finite false 4503599627370496 (-51)).
  apply SFdiv_two; [exact Hd|exact He|lia].
Qed.

Lemma finite_not_nan (x : float) s m e :
  Prim2SF x = S754_finite s m e -> is_nan x = false.
Proof.
  intros E. unfold is_nan. rewrite FloatAxioms.eqb_spec, E. unfold SFeqb, SFcompare.
  rewrite Z.compare_refl.
  replace (Pos.compare_cont Eq m m) with Eq by (symmetry; apply Pos.compare_refl).
  destruct s; reflexivity.
Qed.

Lemma finite_is_finite (x : float) s m e :
  Prim2SF x = S754_finite s m e -> is_finite x = true.
Proof.
  intros E. unfold is_finite. rewrite (finite_not_nan x s m e E).
  unfold is_infinity. rewrite FloatAxioms.eqb_spec, FloatAxioms.abs_spec, E. reflexivity.
Qed.

Lemma compare_cont_Eq_spec p q :
  CompareSpec (p = q) (p < q)%positive (q < p)%positive (Pos.compare_cont Eq p q).
Proof. exact (Pos.compare_spec p q). Qed.

Lemma Math_min_tenth_above (y : float) m e :
  Prim2SF y = S754_finite false m e ->
  (-56 < e \/ (e = -56 /\ (7205759403792794 <= m)%positive)) ->
  Math_min 0.1 y = 0.1%float.
Proof.
  intros E H. unfold Math_min.
  rewrite (finite_not_nan y false m e E).
  change (PrimFloat.is_nan 0.1) with false. cbn [orb].
  rewrite FloatAxioms.ltb_spec, E.
  change (Prim2SF 0.1) with (S754_finite false 7205759403792794 (-56)).
  unfold SFltb, SFcompare.
  destruct H as [H|[-> H]].
  - replace (-56 ?= e) with Lt by (symmetry; apply Z.compare_lt_iff; exact H).
    reflexivity.
  - rewrite Z.compare_refl.
    destruct (compare_cont_Eq_spec 7205759403792794 m) as [Heq|Hlt|Hgt].
    + (* the argument is 0.1 itself *)
      subst m.
      assert (Hy : y = 0.1%float) by (apply Prim2SF_inj; rewrite E; reflexivity).
      subst y. reflexivity.
    + reflexivity.
    + exfalso. apply (proj1 (Pos.lt_nle _ _) Hgt). exact H.
Qed.

Lemma Math_min_tenth_below (y : float) m e :
  Prim2SF y = S754_finite false m e ->
  (e < -56 \/ (e = -56 /\ (m < 7205759403792794)%positive)) ->
  Math_min 0.1 y = y.
Proof.
  intros E H. unfold Math_min.
  rewrite (finite_not_nan y false m e E).
  change (PrimFloat.is_nan 0.1) with false. cbn [orb].
  rewrite !FloatAxioms.ltb_spec, E.
  change (Prim2SF 0.1) with (S754_finite false 7205759403792794 (-56)).
  unfold SFltb, SFcompare.
  destruct H as [H|[-> H]].
  - replace (-56 ?= e) with Gt by (symmetry; apply Z.compare_gt_iff; exact H).
    replace (e ?= -56) with Lt by (symmetry; apply Z.compare_lt_iff; exact H).
    reflexivity.
  - rewrite Z.compare_refl.
    destruct (compare_cont_Eq_spec 7205759403792794 m) as [Heq|Hlt|Hgt].
    + exfalso. subst m. exact (Pos.lt_irrefl _ H).
    + exfalso. exact (Pos.lt_irrefl _ (Pos.lt_trans _ _ _ H Hlt)).
    + destruct (compare_cont_Eq_spec m 7205759403792794) as [Heq'|Hlt'|Hgt'].
      * exfalso. subst m. exact (Pos.lt_irrefl _ H).
      * reflexivity.
      * exfalso. exact (Pos.lt_irrefl _ (Pos.lt_trans _ _ _ H Hgt')).
Qed.

Lemma targetTime_at_least_a_fifth (d : float) :
  (0.2 <=? d)%float = true -> Guarded.targetTime d = 0.1%float.
Proof.
  intros H. rewrite FloatAxioms.leb_spec in H.
  change (Prim2SF 0.2) with (S754_finite false 7205759403792794 (-55)) in H.
  destruct (Prim2SF d) as [s|s| |s m e] eqn:E; try discriminate.
  - destruct s; [discriminate|].
    assert (Hd : d = infinity) by (apply Prim2SF_inj; rewrite E; reflexivity).
    subst d. reflexivity.
  - destruct s; [discriminate|].
    unfold SFleb, SFcompare in H.
    assert (He : -55 < e \/ (e = -55 /\ (7205759403792794 <= m)%positive)).
    { destruct (Z.compare_spec (-55) e) as [Heq|Hlt|Hgt]; try discriminate.
      - right. split; [symmetry; exact Heq|].
        destruct (compare_cont_Eq_spec 7205759403792794 m) as [Hm|Hm|Hm];
          try discriminate.
        + subst m. apply Pos.le_refl.
        + apply Pos.lt_le_incl, Hm.
      - left. exact Hlt. }
    unfold Guarded.targetTime, Number_isFinite.
    rewrite (finite_is_finite d false m e E).
    replace (0 <? d)%float with true
      by (rewrite FloatAxioms.ltb_spec, E; reflexivity).
    apply (Math_min_tenth_above (d / 2) m (e - 1)).
    + apply half_of_normal; [exact E|].
      destruct He as [He|[-> _]]; [apply Z.le_trans with (-55); [discriminate|apply Z.lt_le_incl, He]|discriminate].
    + destruct He as [He|[-> Hm]]; [left|right; split; [reflexivity|exact Hm]].
      clear - He. lia.
Qed.

Lemma targetTime_below_a_fifth (d : float) :
  (1e-300 <=? d)%float = true -> (d <? 0.2)%float = true ->
  Guarded.targetTime d = (d / 2)%float.
Proof.
  intros Hlow Hhigh. rewrite FloatAxioms.leb_spec in Hlow. rewrite FloatAxioms.ltb_spec in Hhigh.
  change (Prim2SF 0.2) with (S754_finite false 7205759403792794 (-55)) in Hhigh.
  change (Prim2SF 1e-300) with (S754_finite false 6032057205060441 (-1049)) in Hlow.
  destruct (Prim2SF d) as [s|s| |s m e] eqn:E; try discriminate.
  - destruct s; discriminate.
  - destruct s; [discriminate|].
    unfold SFleb, SFltb, SFcompare in Hlow, Hhigh.
    assert (Hl : -1049 <= e).
    { destruct (Z.compare_spec (-1049) e) as [Heq|Hlt|Hgt]; try discriminate.
      - rewrite <- Heq. apply Z.le_refl.
      - apply Z.lt_le_incl, Hlt. }
    assert (Hh : e < -55 \/ (e = -55 /\ (m < 7205759403792794)%positive)).
    { destruct (Z.compare_spec e (-55)) as [Heq|Hlt|Hgt]; try discriminate.
      - right. split; [exact Heq|].
        destruct (compare_cont_Eq_spec m 7205759403792794); try discriminate.
        assumption.
      - left. exact Hlt. }
    unfold Guarded.targetTime, Number_isFinite.
    rewrite (finite_is_finite d false m e E).
    replace (0 <? d)%float with true
      by (rewrite FloatAxioms.ltb_spec, E; reflexivity).
    apply (Math_min_tenth_below (d / 2) m (e - 1)).
    + apply half_of_normal; [exact E|].
      apply Z.le_trans with (-1049); [discriminate|exact Hl].
    + destruct Hh as [Hh|[-> Hh]]; [left|right; split; [reflexivity|exact Hh]].
      clear - Hh. lia.
Qed.

Lemma targetTime_not_finite (d : number) :
  Number_isFinite d = false -> Guarded.targetTime d = 0.1%float.
Proof. intros Hf. unfold Guarded.targetTime. now rewrite Hf. Qed.

(** ** The unguarded version against the guarded one *)

(** C5.  The version without the timer, on a clip that never fires an
    event: the promise stays pending for good, nothing times out, and the
    object URL it created stays live with the handlers still attached.  The
    guarded version ([Guarded_times_out], [Guarded_always_settles_and_releases])
    rejects such a run at 15000 ms and releases everything. *)
Theorem Bare_stalled_clip_never_times_out :
  let st := Bare.extractFirstFrame (clip 640 480 10 []) emptyBrowser in
  promise st = None /\ timeoutId st = None /\
  url st = "blob:0" /\ "blob:0" ∈ objectURLs (browser st) /\
  video_onloadeddata st = true /\ video_onseeked st = true /\
  video_onerror st = true /\
  promise (Guarded.extractFirstFrame (clip 640 480 10 []) emptyBrowser)
    = Some (Rejected timeoutError).
Proof.
  cbv zeta. repeat split; vm_compute; reflexivity.
Qed.

(** C6.  A clip of 0.1 s: the version without the duration test sets
    [currentTime] to 0.1 s, the whole length of the clip, where half the
    duration is 0.05 s; the guarded version seeks to 0.05 s. *)
Theorem Bare_short_clip_seeks_to_a_tenth :
  let env := clip 640 480 0.1 [(120, EvLoadedData)] in
  currentTime (Bare.extractFirstFrame env emptyBrowser) = 0.1%float /\
  Math_min 0.1 (video_duration env / 2) = 0.05%float /\
  currentTime (Guarded.extractFirstFrame env emptyBrowser) = 0.05%float.
Proof. cbv zeta. repeat split; vm_compute; reflexivity. Qed.

(** C1.  A 1568x882 clip: [1024 / 1568] rounds down in binary64, the
    product [1568 * scale] falls just short of 1024, and the floor makes the
    longer side 1023, not 1024. *)
Theorem downscale_1568x882_longer_side_1023 :
  (1568 * (1024 / 1568) <? 1024)%float = true /\
  downscale 1568 882 = (1023%float, 576%float) /\
  promise (Guarded.extractFirstFrame (clip 1568 882 10 played) emptyBrowser)
    = Some (Resolved (mkFrame (Some "/9j/4AAQSkZJRg==") "image/jpeg" 1023 576)).
Proof. repeat split; vm_compute; reflexivity. Qed.

(** A settled promise stays as it is, whatever is delivered afterwards. *)
Lemma settle_settled {A} (r r' : Settled A) p : p = Some r -> settle r' p = Some r.
Proof. intros ->. reflexivity. Qed.

Lemma Bare_settled_stays env r evs st :
  promise st = Some r ->
  promise (fire Bare.extractor env (eventLoop Bare.extractor env evs st)) = Some r.
Proof.
  intros H. apply (fire_invariant Bare.extractor env (fun st => promise st = Some r)).
  { intros st' d H' _. exact H'. }
  apply (eventLoop_invariant Bare.extractor env (fun st => promise st = Some r));
    cbn [on_loadeddata on_seeked on_error on_timeout Bare.extractor]; try exact H.
  - intros st' H' _. exact H'.
  - intros st' H' _. unfold Bare.onseeked.
    destruct (downscale _ _) as [w h].
    destruct (negb (canvas_getContext env)).
    + autorewrite with promise. now apply settle_settled.
    + destruct (encode env w h (currentTime st')); [exact H'|].
      autorewrite with promise. now apply settle_settled.
  - intros st' H' _. unfold Bare.onerror. autorewrite with promise.
    now apply settle_settled.
  - intros st' d H' _. exact H'.
Qed.

Lemma Guarded_settled_stays env r evs st :
  promise st = Some r ->
  promise (fire Guarded.extractor env (eventLoop Guarded.extractor env evs st))
    = Some r.
Proof.
  intros H.
  apply (fire_invariant Guarded.extractor env (fun st => promise st = Some r)).
  { intros st' d H' _. cbn [on_timeout Guarded.extractor].
    unfold Guarded.ontimeout. autorewrite with promise. now apply settle_settled. }
  apply (eventLoop_invariant Guarded.extractor env (fun st => promise st = Some r));
    cbn [on_loadeddata on_seeked on_error on_timeout Guarded.extractor];
    try exact H.
  - intros st' H' _. exact H'.
  - intros st' H' _. unfold Guarded.onseeked.
    destruct (falsy_number _ || falsy_number _).
    { autorewrite with promise. now apply settle_settled. }
    destruct (downscale _ _) as [w h].
    destruct (negb (canvas_getContext env)).
    { autorewrite with promise. now apply settle_settled. }
    destruct (encode env w h (currentTime st'));
      autorewrite with promise; now apply settle_settled.
  - intros st' H' _. unfold Guarded.onerror. autorewrite with promise.
    now apply settle_settled.
  - intros st' d H' _. unfold Guarded.ontimeout. autorewrite with promise.
    now apply settle_settled.
Qed.

Section Agreement.

Variable env : VideoEnv.

Hypothesis width_readable : falsy_number (videoWidth env) = false.
Hypothesis height_readable : falsy_number (videoHeight env) = false.
Hypothesis canvas_encodes :
  forall r, exists dataUrl, canvas_toDataURL env r = inr dataUrl.
Hypothesis seeks_to_a_tenth : Guarded.targetTime (video_duration env) = 0.1%float.

Lemma onseeked_agree sb sg :
  in_step sb sg ->
  exists rb rg,
    promise (Bare.onseeked env sb) = Some rb /\
    promise (Guarded.onseeked env sg) = Some rg /\
    same_outcome (Some rb) (Some rg).
Proof.
  intros ((Hpb & _) & (Hpg & _) & Ht).
  unfold Bare.onseeked, Guarded.onseeked.
  rewrite width_readable, height_readable. cbn [orb].
  destruct (downscale _ _) as [w h].
  destruct (negb (canvas_getContext env)).
  - autorewrite with promise. rewrite Hpb, Hpg. cbn [settle].
    eexists _, _. repeat split.
  - rewrite Ht. unfold encode.
    destruct (canvas_encodes (mkEncode "image/jpeg" jpegQuality w h (currentTime sg)))
      as [dataUrl ->].
    autorewrite with promise. rewrite Hpb, Hpg. cbn [settle].
    eexists _, _. repeat split.
Qed.

Lemma onerror_agree sb sg :
  in_step sb sg ->
  exists rb rg,
    promise (Bare.onerror env sb) = Some rb /\
    promise (Guarded.onerror env sg) = Some rg /\
    same_outcome (Some rb) (Some rg).
Proof.
  intros ((Hpb & _) & (Hpg & _) & _). unfold Bare.onerror, Guarded.onerror.
  autorewrite with promise. rewrite Hpb, Hpg. cbn [settle].
  eexists _, _. repeat split.
Qed.

Lemma eventLoop_agree evs : forall sb sg,
  in_step sb sg ->
  completesBefore Guarded.timeoutDelay evs = true ->
  same_outcome
    (promise (fire Bare.extractor env (eventLoop Bare.extractor env evs sb)))
    (promise (fire Guarded.extractor env (eventLoop Guarded.extractor env evs sg))).
Proof.
  induction evs as [|[t ev] rest IH]; intros sb sg Hstep Hc; [discriminate|].
  cbn [completesBefore] in Hc. apply andb_prop in Hc as [Ht Hc].
  pose proof Hstep as ((Hpb & Htb & Hlb & Hsb & Heb) &
                       (Hpg & Htg & Hlg & Hsg & Heg) & Hcur).
  cbn [eventLoop]. unfold elapse. rewrite Htb, Htg.
  replace (Guarded.timeoutDelay <=? t)%Z with false by lia.
  destruct ev; unfold dispatch.
  - (* loadeddata: both seek, to the same position *)
    rewrite Hlb, Hlg. cbn [completing orb] in Hc. apply IH; [|exact Hc].
    cbn [on_loadeddata Bare.extractor Guarded.extractor].
    unfold Bare.onloadeddata, Guarded.onloadeddata. rewrite seeks_to_a_tenth.
    repeat split; assumption.
  - (* seeked: both settle *)
    rewrite Hsb, Hsg. cbn [on_seeked Bare.extractor Guarded.extractor].
    destruct (onseeked_agree sb sg Hstep) as (rb & rg & Hb & Hg & Hsame).
    rewrite (Bare_settled_stays env rb rest _ Hb).
    rewrite (Guarded_settled_stays env rg rest _ Hg). exact Hsame.
  - (* error: both reject *)
    rewrite Heb, Heg. cbn [on_error Bare.extractor Guarded.extractor].
    destruct (onerror_agree sb sg Hstep) as (rb & rg & Hb & Hg & Hsame).
    rewrite (Bare_settled_stays env rb rest _ Hb).
    rewrite (Guarded_settled_stays env rg rest _ Hg). exact Hsame.
Qed.

End Agreement.

(** X7. Where no guard of the second version fires, the two versions of
    [extractFirstFrame] agree.  Without a document both reject at once.  In
    a browser where [URL.createObjectURL] throws both reject at once.  In a
    browser where the object URL is created, for a video whose reported
    width and height are neither zero nor NaN, whose frames the canvas
    encodes without throwing, whose duration is at least 0.2 s or not
    finite, and for which a [seeked] or [error] event is delivered before
    the 15000 ms deadline, both settle: with the same frame when they
    resolve, and with a rejection each otherwise. *)
Theorem Bare_Guarded_agree (env : VideoEnv) (b : Browser) :
  has_document env = false \/
  (has_window env = true /\ has_document env = true /\
   createObjectURL_throws env <> None) \/
  noGuardFires env ->
  same_outcome (promise (Bare.extractFirstFrame env b))
               (promise (Guarded.extractFirstFrame env b)).
Proof.
  unfold Bare.extractFirstFrame, Guarded.extractFirstFrame, run.
  cbn [executor Bare.extractor Guarded.extractor].
  intros [Hd|[(Hw & Hd & Hc)|(Hw & Hd & Hc & Hwidth & Hheight & Henc & Hduration & Hev)]].
  - unfold Bare.executor, Guarded.executor. rewrite Hd, orb_true_r. cbn [negb].
    rewrite !inert_run by reflexivity. exact I.
  - unfold Bare.executor, Guarded.executor. rewrite Hw, Hd. cbn [negb orb].
    destruct (createObjectURL_throws env) as [e|]; [|now destruct Hc].
    rewrite !inert_run by reflexivity. exact I.
  - assert (Hseek : Guarded.targetTime (video_duration env) = 0.1%float).
    { destruct Hduration as [H|H];
        [apply targetTime_at_least_a_fifth|apply targetTime_not_finite]; exact H. }
    apply eventLoop_agree; try assumption.
    unfold Bare.executor, Guarded.executor. rewrite Hw, Hd, Hc. cbn [negb orb].
    unfold createObjectURL, URL_createObjectURL. unfold_state.
    repeat split.
Qed.

Lemma Bare_Guarded_agree_witness :
  same_outcome
    (promise (Bare.extractFirstFrame (clip 4000 2000 10 played) emptyBrowser))
    (promise (Guarded.extractFirstFrame (clip 4000 2000 10 played) emptyBrowser)).
Proof.
  apply (Bare_Guarded_agree (clip 4000 2000 10 played) emptyBrowser).
  right. right. unfold noGuardFires. repeat split; try reflexivity.
  - intros r. exists sampleDataUrl. reflexivity.
  - left. reflexivity.
Defined.

(** C9.  The two versions are not equivalent on the inputs the claim
    names: the first lacks the guards of the second.  For a video that
    reports zero dimensions the first resolves with a 0x0 frame where the
    second rejects.  For a video that never fires an event the first leaves
    its promise pending for ever where the second rejects with the timeout
    error.  In a host with a document but no window the first resolves
    where the second rejects. *)
Theorem Bare_Guarded_differ :
  (promise (Bare.extractFirstFrame (clip 0 0 10 played) emptyBrowser)
     = Some (Resolved (mkFrame (Some "/9j/4AAQSkZJRg==") "image/jpeg" 0 0)) /\
   promise (Guarded.extractFirstFrame (clip 0 0 10 played) emptyBrowser)
     = Some (Rejected (new_Error "Dimensões de vídeo inválidas."))) /\
  (promise (Bare.extractFirstFrame (clip 640 480 10 []) emptyBrowser) = None /\
   promise (Guarded.extractFirstFrame (clip 640 480 10 []) emptyBrowser)
     = Some (Rejected (new_Error "Tempo limite excedido: Não foi possível extrair o frame do vídeo."))) /\
  (let headless :=
     mkVideoEnv false true None played 10 640 480 true
       (fun _ => inr sampleDataUrl) in
   promise (Bare.extractFirstFrame headless emptyBrowser)
     = Some (Resolved (mkFrame (Some "/9j/4AAQSkZJRg==") "image/jpeg" 640 480)) /\
   promise (Guarded.extractFirstFrame headless emptyBrowser)
     = Some (Rejected (new_Error "O processamento de vídeo requer um ambiente de navegador."))).
Proof. repeat split; vm_compute; reflexivity. Qed.

(** ** The poll loop *)

Lemma pollLoop_unfold fuel env operationName operation :
  pollLoop fuel env operationName operation =
  if op_done operation then ret operation
  else match fuel with
       | O => waiting
       | S fuel =>
           (await sleep 5000 in
            let* operation := poll env operationName in
            pollLoop fuel env operationName operation)%js
       end.
Proof. destruct fuel; reflexivity. Qed.

(** One round: 5 s of sleep, one poll by [operationName], and either the
    next round on the operation returned or the error of the [catch]. *)
Lemma pollLoop_step fuel env operationName operation w :
  op_done operation = false ->
  pollLoop (S fuel) env operationName operation w =
  match getVideosOperation env (polls w) operationName with
  | inr operation' =>
      pollLoop fuel env operationName operation' (after_round operationName w)
  | inl pollError => (Thrown (rethrown pollError), after_round operationName w)
  end.
Proof.
  intros Hd. rewrite pollLoop_unfold, Hd.
  unfold bind, sleep, record, poll, try_catch, call_getVideosOperation, bind,
    record, answer, after_round, rethrown.
  cbn [calls polls w_browser pollRounds].
  rewrite <- app_assoc. cbn [app].
  destruct (getVideosOperation env (polls w) operationName) as [e|op']; cbn.
  - destruct (is404 e); reflexivity.
  - reflexivity.
Qed.

(** Whatever the loop ends in, all it did was [k] rounds for the captured
    name. *)
Lemma pollLoop_calls env operationName fuel : forall operation w,
  exists k,
    calls (snd (pollLoop fuel env operationName operation w))
      = (calls w ++ pollRounds operationName k)%list /\
    w_browser (snd (pollLoop fuel env operationName operation w)) = w_browser w.
Proof.
  induction fuel as [|fuel IH]; intros operation w.
  - exists 0%nat. rewrite pollLoop_unfold.
    destruct (op_done operation); cbn; rewrite app_nil_r; split; reflexivity.
  - destruct (op_done operation) eqn:Hd.
    + exists 0%nat. rewrite pollLoop_unfold, Hd. cbn. rewrite app_nil_r.
      split; reflexivity.
    + rewrite pollLoop_step by exact Hd.
      destruct (getVideosOperation env (polls w) operationName) as [e|op'].
      * exists 1%nat. split; reflexivity.
      * destruct (IH op' (after_round operationName w)) as (k & Hk & Hb).
        exists (S k). rewrite Hk, Hb. cbn [after_round calls w_browser].
        rewrite <- app_assoc. split; reflexivity.
Qed.

Lemma polled_app cs cs' : polled (cs ++ cs') = (polled cs ++ polled cs')%list.
Proof.
  induction cs as [|c cs IH]; [reflexivity|].
  destruct c; cbn; rewrite IH; reflexivity.
Qed.

Lemma polled_pollRounds name k : polled (pollRounds name k) = repeat name k.
Proof. induction k as [|k IH]; [reflexivity|]. cbn. now rewrite IH. Qed.

(** ** The calls of [generateCleanVideo] *)

Lemma snd_try_catch_throw {A} (m : M A) (h : Error -> Error) w :
  snd (try_catch m (fun e => throw (h e)) w) = snd (m w).
Proof. unfold try_catch, throw. destruct (m w) as [[a|e|] w']; reflexivity. Qed.

Lemma fst_try_catch_throw {A} (m : M A) (h : Error -> Error) w :
  fst (try_catch m (fun e => throw (h e)) w) =
  match fst (m w) with
  | Thrown e => Thrown (h e)
  | r => r
  end.
Proof. unfold try_catch, throw. destruct (m w) as [[a|e|] w']; reflexivity. Qed.

(** What follows the loop (the download) polls nothing. *)
Lemma try_block_calls fuel env apiKey imageBase64 imageMimeType
    promptDescription aspectRatio operation w :
  generateVideos env
    (submission imageBase64 imageMimeType promptDescription aspectRatio)
    = inr operation ->
  exists k tail,
    calls (snd (generateCleanVideo_try fuel env apiKey imageBase64 imageMimeType
                  promptDescription aspectRatio w))
    = (calls w ++
       CallGenerateVideos
         (submission imageBase64 imageMimeType promptDescription aspectRatio)
       :: pollRounds (or_else (op_name operation) "") k ++ tail)%list /\
    (tail = [] \/ exists downloadUrl, tail = [CallFetch downloadUrl]) /\
    (falsy (op_name operation) = true -> k = 0%nat).
Proof.
  intros Hsub. unfold generateCleanVideo_try, bind at 1.
  unfold call_generateVideos, bind, record, answer. fold (submission imageBase64
    imageMimeType promptDescription aspectRatio). rewrite Hsub. cbn [ret].
  set (w1 := mkWorld _ _ _).
  destruct (op_name operation) as [name|] eqn:Hname;
    [|exists 0%nat, []; cbn; repeat split; now left].
  destruct (falsy_string name) eqn:Hfalsy;
    [exists 0%nat, []; cbn; repeat split; now left|].
  cbn [or_else]. rewrite Hfalsy.
  destruct (pollLoop_calls env name fuel operation w1) as (k & Hk & _).
  destruct (pollLoop fuel env name operation w1) as [[op'|e|] w2] eqn:Hloop;
    cbn [snd] in Hk.
  2,3: exists k, []; rewrite app_nil_r; cbn [snd falsy];
       rewrite Hk; subst w1; cbn [calls];
       rewrite <- app_assoc; repeat split; [now left|congruence].
  destruct (falsy (op_videoUri op')).
  { exists k, []. rewrite app_nil_r. cbn [snd throw falsy].
    rewrite Hk. subst w1. cbn [calls]. rewrite <- app_assoc.
    repeat split; [now left|congruence]. }
  set (downloadUrl := (_ ++ "&key=" ++ apiKey)%string).
  exists k, [CallFetch downloadUrl].
  assert (Hcalls :
    forall r : Outcome string * World,
      calls (snd r) = (calls w2 ++ [CallFetch downloadUrl])%list ->
      calls (snd r) =
      (calls w ++ CallGenerateVideos
         (submission imageBase64 imageMimeType promptDescription aspectRatio)
       :: pollRounds name k ++ [CallFetch downloadUrl])%list).
  { intros r ->. rewrite Hk. subst w1. cbn [calls].
    rewrite <- !app_assoc. reflexivity. }
  split; [|split; [right; eauto|cbn [falsy]; congruence]].
  apply Hcalls. unfold call_fetch, bind, record, answer.
  destruct (fetch env downloadUrl) as [e|response]; [reflexivity|].
  cbn [ret]. destruct (negb (r_ok response)); [reflexivity|].
  destruct (r_blob response); [reflexivity|].
  unfold call_createObjectURL. cbn. reflexivity.
Qed.

(** C2.  With a key configured and the submission accepted, the first call
    of [generateCleanVideo] is the submission, and every poll that follows,
    however many, asks for the name the submission returned, whatever name
    the operation objects returned by earlier polls carry. *)
Theorem polls_use_captured_name
    (fuel : nat) (env : GenEnv) (imageBase64 : option string)
    (imageMimeType promptDescription : string) (aspectRatio : AspectRatio)
    (b : Browser) (operation : Operation) :
  falsy (API_KEY env) = false ->
  generateVideos env
    (submission imageBase64 imageMimeType promptDescription aspectRatio)
    = inr operation ->
  let w := snd (generateCleanVideo fuel env imageBase64 imageMimeType
                  promptDescription aspectRatio (mkWorld [] 0 b)) in
  (exists rest,
     calls w = CallGenerateVideos
                 (submission imageBase64 imageMimeType promptDescription
                    aspectRatio) :: rest) /\
  (forall name, In name (polled (calls w)) -> op_name operation = Some name).
Proof.
  intros Hkey Hsub w. subst w. unfold generateCleanVideo. rewrite Hkey.
  rewrite snd_try_catch_throw.
  destruct (try_block_calls fuel env (or_else (API_KEY env) "") imageBase64
              imageMimeType promptDescription aspectRatio operation
              (mkWorld [] 0 b) Hsub) as (k & tail & -> & Htail & Hk).
  cbn [calls app]. split; [eauto|].
  assert (Hpolled : polled tail = []) by (destruct Htail as [->|[u ->]]; reflexivity).
  intros name. cbn [polled]. rewrite polled_app, polled_pollRounds, Hpolled,
    app_nil_r.
  destruct (falsy (op_name operation)) eqn:Hfalsy.
  - (* no name was returned: the loop is never entered *)
    rewrite (Hk eq_refl). intros [].
  - intros Hin. apply repeat_spec in Hin. subst name.
    destruct (op_name operation) as [name|]; [|discriminate].
    cbn [falsy] in Hfalsy. cbn [or_else]. now rewrite Hfalsy.
Qed.

Lemma polls_use_captured_name_witness :
  polled (calls (snd (generateCleanVideo 10 renamingService (Some "/9j/4AAQ")
                        "image/jpeg" "a red car" Ratio16x9
                        (mkWorld [] 0 emptyBrowser))))
    = ["operations/1"; "operations/1"; "operations/1"] /\
  exists rest,
    calls (snd (generateCleanVideo 10 renamingService (Some "/9j/4AAQ")
                  "image/jpeg" "a red car" Ratio16x9 (mkWorld [] 0 emptyBrowser)))
    = CallGenerateVideos
        (submission (Some "/9j/4AAQ") "image/jpeg" "a red car" Ratio16x9) :: rest.
Proof.
  split; [vm_compute; reflexivity|].
  exact (proj1 (polls_use_captured_name 10 renamingService (Some "/9j/4AAQ")
                  "image/jpeg" "a red car" Ratio16x9 emptyBrowser
                  (pendingOperation "operations/1") eq_refl eq_refl)).
Defined.

(** The loop on a service that loses the operation at its [k]-th poll
    (counting from the state of [w]). *)
Lemma pollLoop_lost env operationName pollError k :
  forall fuel operation w,
  op_done operation = false ->
  (forall i, (i < k)%nat ->
     exists op, getVideosOperation env (polls w + i) operationName = inr op /\
                op_done op = false) ->
  getVideosOperation env (polls w + k) operationName = inl pollError ->
  is404 pollError = true ->
  (k < fuel)%nat ->
  pollLoop fuel env operationName operation w =
  (Thrown (new_Error operationLost),
   mkWorld (calls w ++ pollRounds operationName (S k)) (polls w + S k)
     (w_browser w)).
Proof.
  induction k as [|k IH]; intros fuel operation w Hd Hbefore Hlost H404 Hfuel;
    (destruct fuel as [|fuel]; [lia|]); rewrite pollLoop_step by exact Hd.
  - rewrite Nat.add_0_r in Hlost. rewrite Hlost. unfold rethrown.
    rewrite H404. unfold after_round. now rewrite Nat.add_1_r.
  - destruct (Hbefore 0%nat ltac:(lia)) as (op & Hop & Hopd).
    rewrite Nat.add_0_r in Hop. rewrite Hop.
    rewrite (IH fuel op (after_round operationName w) Hopd).
    + unfold after_round. cbn [calls polls w_browser].
      rewrite <- app_assoc. f_equal. f_equal. lia.
    + intros i Hi. destruct (Hbefore (S i) ltac:(lia)) as (op' & Hop' & Hd').
      exists op'. split; [|exact Hd'].
      cbn [after_round polls]. rewrite <- Hop'. f_equal. lia.
    + cbn [after_round polls]. rewrite <- Hlost. f_equal. lia.
    + exact H404.
    + lia.
Qed.

(** C3.  With a key configured and an operation submitted under a name,
    if the first [k] polls answer "not done" and the next one raises an
    error whose message contains "404", then [generateCleanVideo] throws the
    operation-lost error, and the failed poll is the last thing it did: its
    calls are the submission and [k + 1] rounds of sleep and poll, with no
    poll, sleep or download after them. *)
Theorem not_found_poll_aborts
    (fuel : nat) (env : GenEnv) (imageBase64 : option string)
    (imageMimeType promptDescription : string) (aspectRatio : AspectRatio)
    (b : Browser) (operation : Operation) (operationName : string)
    (k : nat) (pollError : Error) :
  falsy (API_KEY env) = false ->
  generateVideos env
    (submission imageBase64 imageMimeType promptDescription aspectRatio)
    = inr operation ->
  op_name operation = Some operationName ->
  falsy_string operationName = false ->
  op_done operation = false ->
  (forall i, (i < k)%nat ->
     exists op, getVideosOperation env i operationName = inr op /\
                op_done op = false) ->
  getVideosOperation env k operationName = inl pollError ->
  is404 pollError = true ->
  (k < fuel)%nat ->
  generateCleanVideo fuel env imageBase64 imageMimeType promptDescription
    aspectRatio (mkWorld [] 0 b) =
  (Thrown (new_Error "A operação de vídeo foi perdida pelo servidor (404). Tente novamente."),
   mkWorld
     (CallGenerateVideos
        (submission imageBase64 imageMimeType promptDescription aspectRatio)
      :: pollRounds operationName (S k))
     (S k) b).
Proof.
  intros Hkey Hsub Hname Htruthy Hd Hbefore Hlost H404 Hfuel.
  unfold generateCleanVideo. rewrite Hkey.
  unfold try_catch, generateCleanVideo_try, bind at 1.
  unfold call_generateVideos, bind, record, answer.
  fold (submission imageBase64 imageMimeType promptDescription aspectRatio).
  rewrite Hsub. cbn [ret calls polls w_browser app]. rewrite Hname, Htruthy.
  rewrite (pollLoop_lost env operationName pollError k fuel operation _ Hd);
    try assumption.
  reflexivity.
Qed.

Lemma not_found_poll_aborts_witness :
  generateCleanVideo 10 lostOperationService (Some "/9j/4AAQ") "image/jpeg"
    "a red car" Ratio16x9 (mkWorld [] 0 emptyBrowser) =
  (Thrown (new_Error "A operação de vídeo foi perdida pelo servidor (404). Tente novamente."),
   mkWorld
     [CallGenerateVideos
        (submission (Some "/9j/4AAQ") "image/jpeg" "a red car" Ratio16x9);
      CallSleep 5000; CallGetVideosOperation "operations/1";
      CallSleep 5000; CallGetVideosOperation "operations/1"]
     2 emptyBrowser).
Proof.
  apply (not_found_poll_aborts 10 lostOperationService (Some "/9j/4AAQ")
           "image/jpeg" "a red car" Ratio16x9 emptyBrowser
           (pendingOperation "operations/1") "operations/1" 1
           (new_Error "got status: 404 Not Found"));
    try reflexivity; try lia.
  intros i Hi. exists (pendingOperation "operations/1").
  destruct i as [|i]; [split; reflexivity|lia].
Defined.

(** ** Error translation *)

(** C7, as amended.  Whatever [generateCleanVideo] throws is either the
    missing-key error, thrown before the [try], or the translation of the
    error [raw] that left the [try] block.  The translation reads the text of
    [raw] (its message, or the unknown-error text when it has none): a text
    with both "404" and "entity" gives the model-or-operation-not-found
    message; otherwise a text with "429" gives the quota message; otherwise
    the text is passed on unchanged.  A poll error whose message contains
    "404" does not reach the translation as itself: the poll's [catch]
    replaces it by the operation-lost error, whose text is passed on
    unchanged. *)
Theorem thrown_message_is_classified :
  (forall (fuel : nat) (env : GenEnv) (imageBase64 : option string)
          (imageMimeType promptDescription : string)
          (aspectRatio : AspectRatio) (w : World) (e : Error),
     fst (generateCleanVideo fuel env imageBase64 imageMimeType
            promptDescription aspectRatio w) = Thrown e ->
     (falsy (API_KEY env) = true /\
      e = new_Error "Chave de API não detectada no ambiente. O aplicativo requer uma API Key configurada internamente.") \/
     exists raw,
       fst (generateCleanVideo_try fuel env (or_else (API_KEY env) "")
              imageBase64 imageMimeType promptDescription aspectRatio w)
         = Thrown raw /\
       let text := or_else (message raw) "Erro desconhecido ao comunicar com a API Gemini." in
       e = new_Error
             (if includes "404" text && includes "entity" text then
                "O modelo de vídeo ou a operação não foi encontrada. Verifique se sua conta tem acesso ao modelo Veo."
              else if includes "429" text then
                "Limite de requisições excedido (Quota). Tente novamente em alguns instantes."
              else text)) /\
  (forall (env : GenEnv) (operationName : string) (w : World) (pollError : Error),
     getVideosOperation env (polls w) operationName = inl pollError ->
     is404 pollError = true ->
     fst (poll env operationName w)
       = Thrown (new_Error "A operação de vídeo foi perdida pelo servidor (404). Tente novamente.") /\
     userMessage (new_Error "A operação de vídeo foi perdida pelo servidor (404). Tente novamente.")
       = "A operação de vídeo foi perdida pelo servidor (404). Tente novamente.").
Proof.
  split.
  - intros fuel env imageBase64 imageMimeType promptDescription aspectRatio w e.
    unfold generateCleanVideo. destruct (falsy (API_KEY env)) eqn:Hkey.
    + intros H. left. split; [reflexivity|]. cbn in H. congruence.
    + rewrite fst_try_catch_throw. intros H. right.
      destruct (fst (generateCleanVideo_try _ _ _ _ _ _ _ _)) as [url|raw|];
        try discriminate.
      exists raw. split; [reflexivity|]. cbv zeta. injection H as <-.
      reflexivity.
  - intros env operationName w pollError Hpoll H404. split; [|reflexivity].
    unfold poll, try_catch, call_getVideosOperation, bind, record, answer.
    rewrite Hpoll. cbn [throw]. rewrite H404. reflexivity.
Qed.

Lemma thrown_message_is_classified_witness :
  exists raw,
    fst (generateCleanVideo_try 10 quotaService "KEY" (Some "/9j/4AAQ")
           "image/jpeg" "a red car" Ratio16x9 (mkWorld [] 0 emptyBrowser))
      = Thrown raw /\
    let text := or_else (message raw) "Erro desconhecido ao comunicar com a API Gemini." in
    new_Error "Limite de requisições excedido (Quota). Tente novamente em alguns instantes."
    = new_Error
        (if includes "404" text && includes "entity" text then
           "O modelo de vídeo ou a operação não foi encontrada. Verifique se sua conta tem acesso ao modelo Veo."
         else if includes "429" text then
           "Limite de requisições excedido (Quota). Tente novamente em alguns instantes."
         else text).
Proof.
  destruct (proj1 thrown_message_is_classified 10%nat quotaService
              (Some "/9j/4AAQ") "image/jpeg" "a red car" Ratio16x9
              (mkWorld [] 0 emptyBrowser)
              (new_Error "Limite de requisições excedido (Quota). Tente novamente em alguns instantes.")
              ltac:(vm_compute; reflexivity)) as [[Hkey _]|H].
  - discriminate Hkey.
  - exact H.
Defined.

(** C7, as stated, fails on a poll that raises the provider's not-found
    error (a message with both "404" and "entity"): what the caller gets is
    the operation-lost message, not the model-or-operation-not-found one. *)
Lemma poll_404_is_not_reported_as_model_not_found :
  getVideosOperation entityNotFoundService 0 "operations/1"
    = inl (new_Error "got status: 404. Requested entity was not found.") /\
  includes "404" "got status: 404. Requested entity was not found." = true /\
  includes "entity" "got status: 404. Requested entity was not found." = true /\
  fst (generateCleanVideo 10 entityNotFoundService (Some "/9j/4AAQ") "image/jpeg"
         "a red car" Ratio16x9 (mkWorld [] 0 emptyBrowser))
    = Thrown (new_Error "A operação de vídeo foi perdida pelo servidor (404). Tente novamente.") /\
  fst (generateCleanVideo 10 entityNotFoundService (Some "/9j/4AAQ") "image/jpeg"
         "a red car" Ratio16x9 (mkWorld [] 0 emptyBrowser))
    <> Thrown (new_Error "O modelo de vídeo ou a operação não foi encontrada. Verifique se sua conta tem acesso ao modelo Veo.").
Proof.
  repeat split; try (vm_compute; reflexivity).
  vm_compute. discriminate.
Qed.

(** ** The session controller *)

(** With the dependency list [[]] the hook keeps the first render, whatever
    is rendered afterwards. *)
Lemma useEffect_keeps_first_render renders : forall k b,
  fold_left (fun kb s => App.useEffect App.effect_deps (Some (fst kb)) s (snd kb))
    renders (k, b) = (k, b).
Proof.
  induction renders as [|s renders IH]; intros k b; [reflexivity|].
  cbn [fold_left fst snd]. unfold App.useEffect at 2, App.effect_deps.
  destruct (decide _) as [_|Hne]; [apply IH|now destruct Hne].
Qed.

(** X8. The unmount cleanup revokes nothing, whatever the session did.
    The effect that returns it has the dependency list [[]]: by the rule of
    [useEffect] it runs after the first render only, so the cleanup pending
    at unmount is the closure of the first render, where [videoPreviewUrl]
    and [generatedVideoUrl] are null - however many renders followed and
    whatever URLs their states hold.  Every object URL live before the
    unmount is live after it. *)
Lemma unmount_revokes_nothing (renders : list App.AppState) (b : Browser) :
  App.unmount_after renders b = b /\
  App.unmount_after renders b = App.unmount b.
Proof.
  unfold App.unmount_after. cbn [App.useEffect].
  rewrite useEffect_keeps_first_render. split; reflexivity.
Qed.

(** C4.  After an upload and a generation the session holds two object
    URLs, the preview ("blob:0") and the generated video ("blob:2").  Reset
    brings the state back to idle with no frame, no URLs and an empty
    description, but revokes neither URL: both are still live after it,
    and after the unmount cleanup too. *)
Theorem handleReset_revokes_no_object_URL :
  let '(s, b, _) := processed Guarded.extractor in
  App.videoPreviewUrl s = Some "blob:0" /\
  App.generatedVideoUrl s = Some "blob:2" /\
  App.status (App.processingState s) = App.completed /\
  "blob:0" ∈ objectURLs b /\ "blob:2" ∈ objectURLs b /\
  let '(s', b') := App.handleReset (s, b) in
  App.status (App.processingState s') = App.idle /\
  App.extractedFrame s' = None /\
  App.generatedVideoUrl s' = None /\
  App.videoPreviewUrl s' = None /\
  App.prompt s' = "" /\
  "blob:0" ∈ objectURLs b' /\ "blob:2" ∈ objectURLs b' /\
  "blob:0" ∈ objectURLs (App.unmount b') /\
  "blob:2" ∈ objectURLs (App.unmount b').
Proof.
  destruct (processed Guarded.extractor) as [[s b] cs] eqn:E.
  vm_compute in E. injection E as <- <- <-.
  repeat split; vm_compute; reflexivity.
Qed.

(** The only submission [generateCleanVideo] makes is its own. *)
Lemma generateCleanVideo_submission fuel env imageBase64 imageMimeType
    promptDescription aspectRatio b p :
  In (CallGenerateVideos p)
    (calls (snd (generateCleanVideo fuel env imageBase64 imageMimeType
                   promptDescription aspectRatio (mkWorld [] 0 b)))) ->
  p = submission imageBase64 imageMimeType promptDescription aspectRatio.
Proof.
  unfold generateCleanVideo. destruct (falsy (API_KEY env)); [intros []|].
  rewrite snd_try_catch_throw.
  destruct (generateVideos env
              (submission imageBase64 imageMimeType promptDescription aspectRatio))
    as [e|operation] eqn:Hsub.
  - unfold generateCleanVideo_try, bind at 1.
    unfold call_generateVideos, bind, record, answer.
    fold (submission imageBase64 imageMimeType promptDescription aspectRatio).
    rewrite Hsub. cbn. intros [H|[]]. congruence.
  - destruct (try_block_calls fuel env (or_else (API_KEY env) "") imageBase64
                imageMimeType promptDescription aspectRatio operation
                (mkWorld [] 0 b) Hsub) as (k & tail & -> & Htail & _).
    cbn [calls app]. intros [H|H]; [congruence|].
    apply in_app_or in H as [H|H].
    + exfalso. induction k as [|k IH]; cbn in H; [exact H|].
      destruct H as [H|[H|H]]; try discriminate. exact (IH H).
    + exfalso. destruct Htail as [->|[u ->]]; [exact H|].
      destruct H as [H|[]]. discriminate.
Qed.

(** C8.  Whatever the session and the service, a submission made by
    [handleProcess] carries ["16:9"] when the frame's width is at least its
    height and ["9:16"] otherwise.  In particular the 4000x2000 MP4,
    described as "a red car", is extracted (by either version) as a
    1024x512 frame and submitted with ["16:9"]. *)
Theorem submission_aspect_ratio :
  (forall (fuel : nat) (env : GenEnv) (s : App.AppState) (b : Browser)
          (frame : ExtractedFrame) (p : GenerateVideosParameters),
     App.extractedFrame s = Some frame ->
     In (CallGenerateVideos p) (snd (App.handleProcess fuel env (s, b))) ->
     aspectRatio_text (p_aspectRatio p) =
     if (height frame <=? width frame)%float then "16:9" else "9:16") /\
  (forall X, X = Bare.extractor \/ X = Guarded.extractor ->
     App.extractedFrame (fst (uploaded X))
       = Some (mkFrame (Some "/9j/4AAQSkZJRg==") "image/jpeg" 1024 512) /\
     exists rest,
       snd (processed X)
       = CallGenerateVideos
           (mkParameters "veo-3.1-fast-generate-preview" (fullPrompt "a red car")
              (Some "/9j/4AAQSkZJRg==") "image/jpeg" 1 "720p" Ratio16x9) :: rest /\
       aspectRatio_text Ratio16x9 = "16:9").
Proof.
  split.
  - intros fuel env s b frame p Hframe. unfold App.handleProcess.
    rewrite Hframe. destruct (falsy_string (trim (App.prompt s))); [intros []|].
    cbn [App.prompt App.setProcessingState].
    pose proof (generateCleanVideo_submission fuel env (base64 frame)
                  (mimeType frame) (App.prompt s) (App.ratio frame) b p) as Hsub.
    destruct (generateCleanVideo fuel env (base64 frame) (mimeType frame)
                (App.prompt s) (App.ratio frame) (mkWorld [] 0 b))
      as [[url|e|] w]; cbn [snd] in *; intros Hin;
      rewrite (Hsub Hin); cbn [p_aspectRatio submission]; unfold App.ratio;
      destruct (height frame <=? width frame)%float; reflexivity.
  - intros X [->| ->]; (split; [vm_compute; reflexivity|]);
      exists (pollRounds "operations/1" 3
              ++ [CallFetch "https://video/1?alt=media&key=KEY"])%list;
      (split; [vm_compute; reflexivity|reflexivity]).
Qed.

(** A portrait frame, 576x1024, with a description: the submission is
    ["9:16"]. *)
Lemma submission_aspect_ratio_witness :
  aspectRatio_text
    (p_aspectRatio (submission (Some "/9j/4AAQ") "image/jpeg" "a tower" Ratio9x16))
  = "9:16".
Proof.
  exact (proj1 submission_aspect_ratio 10%nat renamingService
           (App.mkApp None None "a tower" App.state_idle None
              (Some (mkFrame (Some "/9j/4AAQ") "image/jpeg" 576 1024)) None)
           emptyBrowser
           (mkFrame (Some "/9j/4AAQ") "image/jpeg" 576 1024)
           (submission (Some "/9j/4AAQ") "image/jpeg" "a tower" Ratio9x16)
           eq_refl ltac:(vm_compute; left; reflexivity)).
Defined.

(** ** The guarded version: seek target, frame size *)

(** X3. With a duration of at least 0.2 s (infinite included), the guarded
    [onloadeddata] seeks to exactly 0.1 s. *)
Theorem Guarded_seeks_to_a_tenth (env : VideoEnv) (st : Extraction) :
  (0.2 <=? video_duration env)%float = true ->
  currentTime (Guarded.onloadeddata env st) = 0.1%float.
Proof. intros H. exact (targetTime_at_least_a_fifth (video_duration env) H). Qed.

Lemma Guarded_seeks_to_a_tenth_witness :
  currentTime (Guarded.onloadeddata (clip 4000 2000 0.2 played) (start emptyBrowser))
  = 0.1%float.
Proof.
  exact (Guarded_seeks_to_a_tenth (clip 4000 2000 0.2 played) (start emptyBrowser)
           eq_refl).
Defined.

(** X4. With a duration below 0.2 s (and of at least 1e-300 s, so that
    halving is exact), the guarded [onloadeddata] seeks to half the
    duration. *)
Theorem Guarded_seeks_to_half (env : VideoEnv) (st : Extraction) :
  (1e-300 <=? video_duration env)%float = true ->
  (video_duration env <? 0.2)%float = true ->
  currentTime (Guarded.onloadeddata env st) = (video_duration env / 2)%float.
Proof.
  intros Hl Hh. exact (targetTime_below_a_fifth (video_duration env) Hl Hh).
Qed.

Lemma Guarded_seeks_to_half_witness :
  currentTime (Guarded.onloadeddata (clip 4000 2000 0.15 played) (start emptyBrowser))
  = (0.15 / 2)%float.
Proof.
  exact (Guarded_seeks_to_half (clip 4000 2000 0.15 played) (start emptyBrowser)
           eq_refl eq_refl).
Defined.

(** X5. For every finite positive duration the guarded seek target is
    [Math.min(0.1, duration / 2)]; a duration that is not finite counts as
    10 s and gives 0.1 s. *)
Theorem Guarded_seek_target (d : number) :
  (Number_isFinite d = true -> (0 <? d)%float = true ->
   Guarded.targetTime d = Math_min 0.1 (d / 2)) /\
  (Number_isFinite d = false -> Guarded.targetTime d = 0.1%float).
Proof.
  split.
  - intros Hf Hp. unfold Guarded.targetTime. now rewrite Hf, Hp.
  - apply targetTime_not_finite.
Qed.

(** Frames no larger than 1024 on either side are not resized. *)
Lemma downscale_within_limit (w h : number) :
  (1024 <? w)%float = false -> (1024 <? h)%float = false ->
  downscale w h = (w, h).
Proof. intros Hw Hh. unfold downscale, maxDimension. now rewrite Hw, Hh. Qed.

Lemma Guarded_frames_sized env b :
  sized env (Guarded.extractFirstFrame env b).
Proof.
  apply (run_invariant Guarded.extractor env (sized env));
    unfold sized; cbn [on_loadeddata on_seeked on_error on_timeout executor
                       Guarded.extractor].
  - intros st H _. exact H.
  - intros st H _ f. unfold Guarded.onseeked.
    destruct (falsy_number (videoWidth env)) eqn:Ew; cbn [orb]; [kept_by H|].
    destruct (falsy_number (videoHeight env)) eqn:Eh; [kept_by H|].
    destruct (downscale _ _) as [w h].
    destruct (canvas_getContext env); cbn [negb]; [|kept_by H].
    destruct (encode env w h (currentTime st)) as [e|dataUrl]; [kept_by H|].
    autorewrite with promise.
    intros Hf. apply settle_resolved in Hf as [Hf|[_ Hf]]; [now apply H|].
    inversion Hf; subst. repeat split.
  - intros st H _ f. unfold Guarded.onerror. kept_by H.
  - intros st d H _ f. unfold Guarded.ontimeout. kept_by H.
  - unfold Guarded.executor.
    destruct (negb (has_window env) || negb (has_document env)).
    + intros f Hf; discriminate.
    + destruct (createObjectURL_throws env); intros f Hf; discriminate.
Qed.

(** X6. A frame the guarded version resolves to comes from a video whose
    width and height are neither zero nor NaN, and has the size [downscale]
    gives; when neither side exceeds 1024 that is the size of the video. *)
Theorem Guarded_frame_size (env : VideoEnv) (b : Browser) (f : ExtractedFrame) :
  promise (Guarded.extractFirstFrame env b) = Some (Resolved f) ->
  falsy_number (videoWidth env) = false /\
  falsy_number (videoHeight env) = false /\
  (width f, height f) = downscale (videoWidth env) (videoHeight env) /\
  ((1024 <? videoWidth env)%float = false ->
   (1024 <? videoHeight env)%float = false ->
   width f = videoWidth env /\ height f = videoHeight env).
Proof.
  intros H. destruct (Guarded_frames_sized env b f H) as (Hw & Hh & Hs).
  split; [exact Hw|]. split; [exact Hh|]. split; [exact Hs|].
  intros Hwide Htall. rewrite (downscale_within_limit _ _ Hwide Htall) in Hs.
  split; congruence.
Qed.

Lemma Guarded_frame_size_witness :
  (width (mkFrame (Some "/9j/4AAQSkZJRg==") "image/jpeg" 640 480),
   height (mkFrame (Some "/9j/4AAQSkZJRg==") "image/jpeg" 640 480))
  = downscale 640 480.
Proof.
  exact (proj1 (proj2 (proj2
    (Guarded_frame_size (clip 640 480 10 played) emptyBrowser
       (mkFrame (Some "/9j/4AAQSkZJRg==") "image/jpeg" 640 480) eq_refl)))).
Defined.

(** ** The session controller, continued *)

(** X9. Without a configured key [generateCleanVideo] throws at once and
    makes no call. *)
Theorem no_key_no_call
    (fuel : nat) (env : GenEnv) (imageBase64 : option string)
    (imageMimeType promptDescription : string) (aspectRatio : AspectRatio)
    (w : World) :
  falsy (API_KEY env) = true ->
  generateCleanVideo fuel env imageBase64 imageMimeType promptDescription
    aspectRatio w =
  (Thrown (new_Error "Chave de API não detectada no ambiente. O aplicativo requer uma API Key configurada internamente."),
   w).
Proof. intros H. unfold generateCleanVideo. now rewrite H. Qed.

Lemma no_key_no_call_witness :
  calls (snd (generateCleanVideo 10
                (mkGenEnv None (fun _ => inr (pendingOperation "operations/1"))
                   (fun _ _ => inr (pendingOperation "operations/1"))
                   (fun _ => inr (mkResponse true 200 "OK" None)))
                (Some "/9j/4AAQ") "image/jpeg" "a red car" Ratio16x9
                (mkWorld [] 0 emptyBrowser))) = [].
Proof.
  rewrite (no_key_no_call 10
             (mkGenEnv None (fun _ => inr (pendingOperation "operations/1"))
                (fun _ _ => inr (pendingOperation "operations/1"))
                (fun _ => inr (mkResponse true 200 "OK" None)))
             (Some "/9j/4AAQ") "image/jpeg" "a red car" Ratio16x9
             (mkWorld [] 0 emptyBrowser) eq_refl).
  reflexivity.
Defined.

(** X10. A file whose declared type is not ["video/mp4"] is refused with an
    alert: the state is untouched and no object URL is created. *)
Theorem other_file_types_are_refused
    (X : Extractor) (file : App.File) (s : App.AppState) (b : Browser) :
  App.file_type file <> "video/mp4" ->
  App.handleFileChange X (Some file) (s, b) =
  (s, window_alert "Por favor, envie apenas arquivos MP4." b).
Proof.
  intros H. unfold App.handleFileChange.
  destruct (String.eqb_spec (App.file_type file) "video/mp4") as [E|E];
    [contradiction|reflexivity].
Qed.

Lemma other_file_types_are_refused_witness :
  App.status (App.processingState
    (fst (App.handleFileChange Guarded.extractor
            (Some (App.mkFile "video/quicktime" (clip 4000 2000 10 played)))
            (App.initial, emptyBrowser)))) = App.idle.
Proof.
  rewrite (other_file_types_are_refused Guarded.extractor
             (App.mkFile "video/quicktime" (clip 4000 2000 10 played))
             App.initial emptyBrowser ltac:(discriminate)).
  reflexivity.
Defined.

(** The loop on a service that reports completion at its [k]-th poll
    (counting from the state of [w]). *)
Lemma pollLoop_done env operationName final k :
  forall fuel operation w,
  op_done operation = false ->
  (forall i, (i < k)%nat ->
     exists op, getVideosOperation env (polls w + i) operationName = inr op /\
                op_done op = false) ->
  getVideosOperation env (polls w + k) operationName = inr final ->
  op_done final = true ->
  (k < fuel)%nat ->
  pollLoop fuel env operationName operation w =
  (Returned final,
   mkWorld (calls w ++ pollRounds operationName (S k)) (polls w + S k)
     (w_browser w)).
Proof.
  induction k as [|k IH]; intros fuel operation w Hd Hbefore Hlast Hdone Hfuel;
    (destruct fuel as [|fuel]; [lia|]); rewrite pollLoop_step by exact Hd.
  - rewrite Nat.add_0_r in Hlast. rewrite Hlast.
    rewrite pollLoop_unfold, Hdone. unfold after_round, ret.
    now rewrite Nat.add_1_r.
  - destruct (Hbefore 0%nat ltac:(lia)) as (op & Hop & Hopd).
    rewrite Nat.add_0_r in Hop. rewrite Hop.
    rewrite (IH fuel op (after_round operationName w) Hopd).
    + unfold after_round. cbn [calls polls w_browser].
      rewrite <- app_assoc. f_equal. f_equal. lia.
    + intros i Hi. destruct (Hbefore (S i) ltac:(lia)) as (op' & Hop' & Hd').
      exists op'. split; [|exact Hd'].
      cbn [after_round polls]. rewrite <- Hop'. f_equal. lia.
    + cbn [after_round polls]. rewrite <- Hlast. f_equal. lia.
    + exact Hdone.
    + lia.
Qed.

(** X11. With a key configured and an operation submitted under a name, if
    the first [k] polls answer "not done", the next one reports completion
    with a video locator, and the download succeeds, then
    [generateCleanVideo] returns a fresh object URL, given fuel for [k + 1]
    rounds; its calls are the submission, [k + 1] rounds of sleep and poll
    by that name, and one fetch of the locator with the key appended. *)
Theorem generation_completes
    (fuel : nat) (env : GenEnv) (imageBase64 : option string)
    (imageMimeType promptDescription : string) (aspectRatio : AspectRatio)
    (b : Browser) (apiKey : string) (operation final : Operation)
    (operationName videoUri : string) (k : nat) (response : Response) :
  API_KEY env = Some apiKey -> falsy_string apiKey = false ->
  generateVideos env
    (submission imageBase64 imageMimeType promptDescription aspectRatio)
    = inr operation ->
  op_name operation = Some operationName ->
  falsy_string operationName = false ->
  op_done operation = false ->
  (forall i, (i < k)%nat ->
     exists op, getVideosOperation env i operationName = inr op /\
                op_done op = false) ->
  getVideosOperation env k operationName = inr final ->
  op_done final = true ->
  op_videoUri final = Some videoUri -> falsy_string videoUri = false ->
  fetch env (videoUri ++ "&key=" ++ apiKey) = inr response ->
  r_ok response = true -> r_blob response = None ->
  (k < fuel)%nat ->
  generateCleanVideo fuel env imageBase64 imageMimeType promptDescription
    aspectRatio (mkWorld [] 0 b) =
  (Returned (createdURL b),
   mkWorld
     (CallGenerateVideos
        (submission imageBase64 imageMimeType promptDescription aspectRatio)
      :: pollRounds operationName (S k)
      ++ [CallFetch (videoUri ++ "&key=" ++ apiKey)])
     (S k) (snd (URL_createObjectURL b))).
Proof.
  intros Hkey Hkey' Hsub Hname Htruthy Hd Hbefore Hlast Hdone Huri Huri' Hfetch
    Hok Hblob Hfuel.
  unfold generateCleanVideo. rewrite Hkey. cbn [falsy or_else]. rewrite Hkey'.
  unfold try_catch, generateCleanVideo_try, bind at 1.
  unfold call_generateVideos, bind, record, answer.
  fold (submission imageBase64 imageMimeType promptDescription aspectRatio).
  rewrite Hsub. cbn [ret calls polls w_browser app]. rewrite Hname, Htruthy.
  rewrite (pollLoop_done env operationName final k fuel operation _ Hd);
    try assumption.
  rewrite Huri. cbn [falsy or_else]. rewrite Huri'.
  unfold call_fetch, bind, record, answer. rewrite Hfetch. cbn [ret].
  rewrite Hok, Hblob. cbn [negb]. unfold call_createObjectURL.
  cbn [calls polls w_browser]. unfold URL_createObjectURL, createdURL.
  cbn [snd app]. reflexivity.
Qed.

(** Five polls answer "not done", the sixth reports the video. *)
Lemma generation_completes_witness :
  fst (generateCleanVideo 10
         (service (fun n _ =>
                     if (n <? 5)%nat then inr (pendingOperation "operations/1")
                     else inr (finishedOperation "operations/1" "https://video/1?alt=media")))
         (Some "/9j/4AAQ") "image/jpeg" "a red car" Ratio16x9
         (mkWorld [] 0 emptyBrowser))
  = Returned "blob:0".
Proof.
  rewrite (generation_completes 10
             (service (fun n _ =>
                         if (n <? 5)%nat then inr (pendingOperation "operations/1")
                         else inr (finishedOperation "operations/1" "https://video/1?alt=media")))
             (Some "/9j/4AAQ") "image/jpeg" "a red car" Ratio16x9 emptyBrowser
             "KEY" (pendingOperation "operations/1")
             (finishedOperation "operations/1" "https://video/1?alt=media")
             "operations/1" "https://video/1?alt=media" 5
             (mkResponse true 200 "OK" None));
    try reflexivity; try lia.
  intros i Hi. exists (pendingOperation "operations/1").
  do 5 (destruct i as [|i]; [split; reflexivity|]). lia.
Defined.

(** ** The longer side, over a range *)

Lemma SFcompare_antisym a b :
  SFcompare b a = option_map CompOpp (SFcompare a b).
Proof.
  destruct a as [[]|[]| |[] ma ea], b as [[]|[]| |[] mb eb];
    cbn; try reflexivity; f_equal;
    rewrite (Z.compare_antisym ea eb); destruct (ea ?= eb)%Z; cbn;
    try reflexivity.
  all: change Eq with (CompOpp Eq) at 1.
  all: rewrite <- (Pos.compare_cont_antisym ma mb Eq).
  all: try rewrite CompOpp_involutive; reflexivity.
Qed.

Lemma SFcompare_refl a : a <> S754_nan -> SFcompare a a = Some Eq.
Proof.
  destruct a as [[]|[]| |[] m e]; cbn; intros H; try reflexivity;
    try (now destruct H); f_equal;
    rewrite Z.compare_refl, Pos.compare_cont_refl; reflexivity.
Qed.

Lemma SFcompare_Eq a b :
  SFcompare a b = Some Eq ->
  a = b \/ exists s, b = S754_zero s.
Proof.
  destruct a as [[]|[]| |[] ma ea], b as [[]|[]| |[] mb eb];
    cbn; intros H; try discriminate; eauto; injection H as H;
    destruct (ea ?= eb)%Z eqn:He; try discriminate;
    apply Z.compare_eq in He; subst eb;
    destruct (Pos.compare_cont Eq ma mb) eqn:Hm; cbn in H; try discriminate;
    apply Pos.compare_eq in Hm; subst mb; left; reflexivity.
Qed.

Lemma SFcompare_not_nan a b c :
  SFcompare a b = Some c -> a <> S754_nan /\ b <> S754_nan.
Proof.
  destruct a as [| | |], b as [| | |]; cbn; intros H; try discriminate;
    split; discriminate.
Qed.

(** [Math.max] of a side and a side not above it, in either order. *)
Lemma Math_max_longer (longer shorter : number) :
  (shorter <=? longer)%float = true -> PrimFloat.is_zero longer = false ->
  Math_max longer shorter = longer /\ Math_max shorter longer = longer.
Proof.
  intros Hle Hnz. rewrite FloatAxioms.leb_spec in Hle. unfold SFleb in Hle.
  destruct (SFcompare (Prim2SF shorter) (Prim2SF longer)) as [c|] eqn:Hc;
    [|discriminate].
  destruct (SFcompare_not_nan _ _ _ Hc) as [Hs Hl].
  pose proof (SFcompare_antisym (Prim2SF shorter) (Prim2SF longer)) as Hanti.
  rewrite Hc in Hanti. cbn [option_map] in Hanti.
  assert (Hnl : PrimFloat.is_nan longer = false).
  { unfold PrimFloat.is_nan. rewrite FloatAxioms.eqb_spec. unfold SFeqb.
    now rewrite (SFcompare_refl _ Hl). }
  assert (Hns : PrimFloat.is_nan shorter = false).
  { unfold PrimFloat.is_nan. rewrite FloatAxioms.eqb_spec. unfold SFeqb.
    now rewrite (SFcompare_refl _ Hs). }
  assert (Hgt : (longer <? shorter)%float = false).
  { rewrite FloatAxioms.ltb_spec. unfold SFltb. rewrite Hanti.
    destruct c; try discriminate; reflexivity. }
  unfold Math_max. rewrite Hnl, Hns, Hgt. cbn [orb]. rewrite Hnz. cbn [andb].
  rewrite FloatAxioms.ltb_spec. unfold SFltb. rewrite Hc.
  destruct c; try discriminate; [|split; reflexivity].
  destruct (SFcompare_Eq _ _ Hc) as [E|[s E]].
  - apply FloatAxioms.Prim2SF_inj in E. subst shorter.
    split; [reflexivity|]. now destruct (_ && _).
  - exfalso. unfold PrimFloat.is_zero in Hnz.
    rewrite FloatAxioms.eqb_spec, E in Hnz. discriminate.
Qed.

Lemma longerSides_checked : forallb longerSideCheck longerSides = true.
Proof. vm_compute. reflexivity. Qed.

(** X12. For a video whose longer side is any whole number of pixels from
    1025 to 8192 and whose other side is any number not above it, in
    landscape and in portrait, the longer side of the resized frame is 1023
    or 1024 (the shorter side plays no part; the longer sides are checked by
    evaluation in binary64 over the whole range). *)
Theorem scaled_longer_side_1023_or_1024 (m : Z) (shorter : number) :
  (1025 <= m <= 8192)%Z ->
  (shorter <=? of_Z m)%float = true ->
  (fst (downscale (of_Z m) shorter) = 1023%float \/
   fst (downscale (of_Z m) shorter) = 1024%float) /\
  (snd (downscale shorter (of_Z m)) = 1023%float \/
   snd (downscale shorter (of_Z m)) = 1024%float).
Proof.
  intros Hm Hle.
  assert (Hin : In m longerSides).
  { unfold longerSides. apply in_map_iff. exists (Z.to_nat (m - 1025)).
    split; [lia|]. apply in_seq. lia. }
  pose proof longerSides_checked as Hall.
  rewrite forallb_forall in Hall. specialize (Hall m Hin).
  unfold longerSideCheck in Hall.
  apply andb_prop in Hall as [Hall Hscaled].
  apply andb_prop in Hall as [Habove Hnz].
  apply negb_true_iff in Hnz.
  destruct (Math_max_longer (of_Z m) shorter Hle Hnz) as [Hl Hp].
  assert (Hres : Math_floor (of_Z m * (maxDimension / of_Z m)) = 1023%float \/
                 Math_floor (of_Z m * (maxDimension / of_Z m)) = 1024%float).
  { apply orb_prop in Hscaled as [H|H];
      apply FloatAxioms.Leibniz.eqb_spec in H; [left|right]; exact H. }
  unfold downscale. rewrite Habove, Hl, Hp, orb_true_r. cbn [orb fst snd].
  split; exact Hres.
Qed.

Lemma scaled_longer_side_1023_or_1024_witness :
  fst (downscale 1568 882) = 1023%float /\
  (snd (downscale 1080 1920) = 1023%float \/
   snd (downscale 1080 1920) = 1024%float).
Proof.
  split.
  - destruct (proj1 (scaled_longer_side_1023_or_1024 1568 882
                       ltac:(lia) eq_refl)) as [H|H]; [exact H|].
    vm_compute in H. discriminate.
  - exact (proj2 (scaled_longer_side_1023_or_1024 1920 1080
                    ltac:(lia) eq_refl)).
Defined.

(** ** The version without the timer, over every silent run *)

Lemma Bare_loadeddata_only env evs : forall st,
  forallb (fun '(_, ev) => negb (completing ev)) evs = true ->
  timeoutId st = None ->
  promise (eventLoop Bare.extractor env evs st) = promise st /\
  browser (eventLoop Bare.extractor env evs st) = browser st /\
  timeoutId (eventLoop Bare.extractor env evs st) = None.
Proof.
  induction evs as [|[t ev] rest IH]; intros st Hevs Ht; [auto|].
  cbn [forallb] in Hevs. apply andb_prop in Hevs as [Hev Hrest].
  destruct ev; try discriminate.
  cbn [eventLoop]. unfold elapse. rewrite Ht. unfold dispatch.
  destruct (video_onloadeddata st).
  - destruct (IH (Bare.onloadeddata env st) Hrest Ht) as (Hp & Hb & Ht').
    cbn [on_loadeddata Bare.extractor]. now rewrite Hp, Hb, Ht'.
  - exact (IH st Hrest Ht).
Qed.

(** X13. In a host with [document] where the object URL is created, a run of
    the version without the timer in which no [seeked] and no [error] event
    is ever delivered leaves the promise pending for good and the object
    URL it created live. *)
Theorem Bare_never_times_out (env : VideoEnv) (b : Browser) :
  has_document env = true ->
  createObjectURL_throws env = None ->
  forallb (fun '(_, ev) => negb (completing ev)) (media_events env) = true ->
  promise (Bare.extractFirstFrame env b) = None /\
  createdURL b ∈ objectURLs (browser (Bare.extractFirstFrame env b)).
Proof.
  intros Hd Hc Hevs. unfold Bare.extractFirstFrame, run.
  cbn [executor Bare.extractor]. unfold Bare.executor. rewrite Hd, Hc.
  cbn [negb]. unfold createObjectURL, URL_createObjectURL. unfold_state.
  match goal with
  | |- context [eventLoop _ _ _ ?st0] =>
      destruct (Bare_loadeddata_only env (media_events env) st0 Hevs eq_refl)
        as (Hp & Hb & Ht)
  end.
  unfold fire. rewrite Ht, Hp, Hb. unfold_state. split; [reflexivity|].
  apply elem_of_union_l, elem_of_singleton. reflexivity.
Qed.

Lemma Bare_never_times_out_witness :
  promise (Bare.extractFirstFrame
             (clip 640 480 10 [(120, EvLoadedData); (99000, EvLoadedData)])
             emptyBrowser) = None.
Proof.
  exact (proj1 (Bare_never_times_out
                  (clip 640 480 10 [(120, EvLoadedData); (99000, EvLoadedData)])
                  emptyBrowser eq_refl eq_refl eq_refl)).
Defined.

(** ** Runs of the guarded version, event by event *)

Lemma eventLoop_app X env evs evs' st :
  eventLoop X env (evs ++ evs') st = eventLoop X env evs' (eventLoop X env evs st).
Proof.
  revert st. induction evs as [|[t ev] rest IH]; intros st; [reflexivity|].
  cbn [app eventLoop]. apply IH.
Qed.

(** A lead-in only moves the playback position of a waiting extraction. *)
Lemma Guarded_leadIn env u pre : forall st,
  armed u st -> leadIn Guarded.timeoutDelay pre = true ->
  eventLoop Guarded.extractor env pre st =
  match pre with
  | [] => st
  | _ :: _ => set_currentTime (Guarded.targetTime (video_duration env)) st
  end.
Proof.
  induction pre as [|[t ev] rest IH]; intros st Ha Hpre; [reflexivity|].
  cbn [leadIn forallb] in Hpre. apply andb_prop in Hpre as [Hev Hrest].
  apply andb_prop in Hev as [Hev Ht]. destruct ev; try discriminate.
  pose proof Ha as (Hp & Htimer & Hu & Hl & Hs & He).
  cbn [eventLoop]. unfold elapse. rewrite Htimer.
  replace (Guarded.timeoutDelay <=? t)%Z with false by lia.
  unfold dispatch. rewrite Hl. cbn [on_loadeddata Guarded.extractor].
  unfold Guarded.onloadeddata.
  rewrite (IH (set_currentTime (Guarded.targetTime (video_duration env)) st));
    [|exact Ha|exact Hrest].
  destruct rest; reflexivity.
Qed.

(** What a waiting guarded extraction does with a completing event that
    arrives before the deadline: its handler runs, and nothing that comes
    later (events, timer) changes the state it leaves. *)
Lemma Guarded_completes env u t ev rest st :
  armed u st -> falsy_string u = false ->
  (t < Guarded.timeoutDelay)%Z -> completing ev = true ->
  fire Guarded.extractor env
    (eventLoop Guarded.extractor env ((t, ev) :: rest) st)
  = dispatch Guarded.extractor env ev st /\
  released u (dispatch Guarded.extractor env ev st).
Proof.
  intros Ha Hu Ht Hev. pose proof Ha as (Hp & Htimer & Hurl & Hl & Hs & He).
  assert (Hr : released u (dispatch Guarded.extractor env ev st)).
  { destruct ev; try discriminate; unfold dispatch.
    - rewrite Hs. cbn [on_seeked Guarded.extractor]. unfold Guarded.onseeked.
      destruct (falsy_number _ || falsy_number _);
        [apply released_reject, cleanup_released; assumption|].
      destruct (downscale _ _) as [w h].
      destruct (negb (canvas_getContext env));
        [apply released_reject, cleanup_released; assumption|].
      destruct (encode env w h (currentTime st));
        [apply released_reject|apply released_resolve];
        apply cleanup_released; assumption.
    - rewrite He. cbn [on_error Guarded.extractor].
      apply released_reject, cleanup_released; assumption. }
  split; [|exact Hr].
  cbn [eventLoop]. unfold elapse. rewrite Htimer.
  replace (Guarded.timeoutDelay <=? t)%Z with false by lia.
  rewrite (released_eventLoop u env rest _ Hr). apply (released_fire u), Hr.
Qed.

(** In a browser where the object URL is created, the guarded run is
    decided by the first [seeked] or [error] event, if it comes before the
    deadline after a lead-in of [loadeddata] events: right after that event
    the extraction is in the state its handler leaves, with everything
    released, and that is the state the run ends in. *)
Lemma Guarded_first_completion env b pre t ev rest :
  has_window env = true -> has_document env = true ->
  createObjectURL_throws env = None ->
  media_events env = (pre ++ (t, ev) :: rest)%list ->
  leadIn Guarded.timeoutDelay pre = true ->
  (t < Guarded.timeoutDelay)%Z -> completing ev = true ->
  let st := stateAfter Guarded.extractor env b (pre ++ [(t, ev)]) in
  st = dispatch Guarded.extractor env ev
         (set_currentTime
            (positionAfter (Guarded.targetTime (video_duration env)) pre)
            (Guarded.executor env (start b))) /\
  released (createdURL b) st /\
  Guarded.extractFirstFrame env b = st.
Proof.
  intros Hw Hd Hc Hevs Hpre Ht Hev st.
  destruct (Guarded_executor_armed env b Hw Hd Hc) as [Ha _].
  set (st0 := Guarded.executor env (start b)) in *.
  assert (Hst : eventLoop Guarded.extractor env pre st0
                = set_currentTime
                    (positionAfter (Guarded.targetTime (video_duration env)) pre)
                    st0).
  { rewrite (Guarded_leadIn env (createdURL b) pre _ Ha Hpre).
    destruct pre; [|reflexivity]. subst st0. unfold Guarded.executor.
    rewrite Hw, Hd, Hc. reflexivity. }
  assert (Ha' : armed (createdURL b)
                  (set_currentTime
                     (positionAfter (Guarded.targetTime (video_duration env)) pre)
                     st0)) by exact Ha.
  destruct (Guarded_completes env (createdURL b) t ev rest _ Ha'
              (createdURL_truthy b) Ht Hev) as [Hrun Hr].
  assert (E : st = dispatch Guarded.extractor env ev
                     (set_currentTime
                        (positionAfter (Guarded.targetTime (video_duration env)) pre)
                        st0)).
  { subst st. unfold stateAfter.
    change (executor Guarded.extractor env (start b)) with st0.
    rewrite eventLoop_app, Hst. cbn [eventLoop]. unfold elapse.
    destruct Ha' as (_ & -> & _).
    replace (Guarded.timeoutDelay <=? t)%Z with false by lia. reflexivity. }
  rewrite E. split; [reflexivity|split; [exact Hr|]].
  unfold Guarded.extractFirstFrame, run. rewrite Hevs, eventLoop_app.
  change (executor Guarded.extractor env (start b)) with st0.
  rewrite Hst. exact Hrun.
Qed.

(** ** What each path of the guarded extraction yields *)

Ltac guarded_first H :=
  match type of H with
  | let st := _ in _ =>
      let E := fresh "E" in let R := fresh "R" in let F := fresh "F" in
      cbv zeta in H; destruct H as (E & R & F);
      split; [|split; [exact R|exact F]]; rewrite E;
      unfold Guarded.executor
  end.

(** X14. The success path of the guarded [extractFirstFrame]: in a browser,
    when the first [seeked] event comes before the 15 s deadline after
    [loadeddata] events only, the video has non-zero dimensions, the canvas
    has a context and encodes the picture at the position reached, then
    right after that event is handled the promise is resolved with the text
    after the first comma of the data URL, ["image/jpeg"] and the downscaled
    size, and already then the timer is cleared, the object URL revoked,
    the handlers detached and the element removed; the run ends in that
    very state, whatever follows. *)
Theorem Guarded_resolves
    (env : VideoEnv) (b : Browser) (pre rest : list (Z * MediaEvent)) (t : Z)
    (dataUrl : string) :
  has_window env = true -> has_document env = true ->
  createObjectURL_throws env = None ->
  media_events env = (pre ++ (t, EvSeeked) :: rest)%list ->
  leadIn Guarded.timeoutDelay pre = true -> (t < Guarded.timeoutDelay)%Z ->
  falsy_number (videoWidth env) = false ->
  falsy_number (videoHeight env) = false ->
  canvas_getContext env = true ->
  canvas_toDataURL env
    (mkEncode "image/jpeg" jpegQuality
       (fst (downscale (videoWidth env) (videoHeight env)))
       (snd (downscale (videoWidth env) (videoHeight env)))
       (positionAfter (Guarded.targetTime (video_duration env)) pre))
  = inr dataUrl ->
  let st := stateAfter Guarded.extractor env b (pre ++ [(t, EvSeeked)]) in
  promise st =
  Some (Resolved
          (mkFrame (nth_error (split_comma dataUrl) 1) "image/jpeg"
             (fst (downscale (videoWidth env) (videoHeight env)))
             (snd (downscale (videoWidth env) (videoHeight env))))) /\
  released (createdURL b) st /\
  Guarded.extractFirstFrame env b = st.
Proof.
  intros Hw Hd Hc Hevs Hpre Ht Hvw Hvh Hctx Henc st. subst st.
  pose proof (Guarded_first_completion env b pre t EvSeeked rest
                Hw Hd Hc Hevs Hpre Ht eq_refl) as H.
  guarded_first H. rewrite Hw, Hd, Hc. cbn.
  unfold Guarded.onseeked. rewrite Hvw, Hvh. cbn [orb].
  destruct (downscale (videoWidth env) (videoHeight env)) as [w h] eqn:Hds.
  rewrite Hctx. cbn [negb]. unfold encode. cbn [currentTime set_currentTime].
  cbn [fst snd] in Henc. rewrite Henc. reflexivity.
Qed.

Lemma Guarded_resolves_witness :
  promise (stateAfter Guarded.extractor (clip 640 480 10 played) emptyBrowser
             played) =
  Some (Resolved (mkFrame (Some "/9j/4AAQSkZJRg==") "image/jpeg" 640 480)).
Proof.
  exact (proj1
    (Guarded_resolves (clip 640 480 10 played) emptyBrowser
       [(120, EvLoadedData)] [] 340 sampleDataUrl
       eq_refl eq_refl eq_refl eq_refl eq_refl eq_refl eq_refl eq_refl eq_refl
       eq_refl)).
Defined.

(** X15. A guarded extraction whose first [seeked] event finds a video
    width or height of zero (or NaN): right after that event is handled the
    promise is rejected with ["Dimensões de vídeo inválidas."], whatever the
    canvas would do, and already then everything is released (timer
    cleared, object URL revoked, handlers detached, element removed); the
    run ends in that very state. *)
Theorem Guarded_zero_dimensions_rejected
    (env : VideoEnv) (b : Browser) (pre rest : list (Z * MediaEvent)) (t : Z) :
  has_window env = true -> has_document env = true ->
  createObjectURL_throws env = None ->
  media_events env = (pre ++ (t, EvSeeked) :: rest)%list ->
  leadIn Guarded.timeoutDelay pre = true -> (t < Guarded.timeoutDelay)%Z ->
  falsy_number (videoWidth env) || falsy_number (videoHeight env) = true ->
  let st := stateAfter Guarded.extractor env b (pre ++ [(t, EvSeeked)]) in
  promise st = Some (Rejected (new_Error "Dimensões de vídeo inválidas.")) /\
  released (createdURL b) st /\
  Guarded.extractFirstFrame env b = st.
Proof.
  intros Hw Hd Hc Hevs Hpre Ht Hz st. subst st.
  pose proof (Guarded_first_completion env b pre t EvSeeked rest
                Hw Hd Hc Hevs Hpre Ht eq_refl) as H.
  guarded_first H. rewrite Hw, Hd, Hc. cbn.
  unfold Guarded.onseeked. rewrite Hz. reflexivity.
Qed.

Lemma Guarded_zero_dimensions_rejected_witness :
  promise (stateAfter Guarded.extractor (clip 0 480 10 played) emptyBrowser
             played) =
  Some (Rejected (new_Error "Dimensões de vídeo inválidas.")).
Proof.
  exact (proj1
    (Guarded_zero_dimensions_rejected (clip 0 480 10 played) emptyBrowser
       [(120, EvLoadedData)] [] 340
       eq_refl eq_refl eq_refl eq_refl eq_refl eq_refl eq_refl)).
Defined.

(** X16. Canvas failures of the guarded extraction, with non-zero
    dimensions and the first [seeked] event before the deadline: right
    after that event is handled, a canvas without a 2D context has rejected
    the promise with ["Não foi possível obter o contexto do canvas."], and
    an exception thrown while encoding has rejected it with that very
    exception; in both cases everything is released already then, and the
    run ends in that very state. *)
Theorem Guarded_canvas_failure_rejected
    (env : VideoEnv) (b : Browser) (pre rest : list (Z * MediaEvent)) (t : Z) :
  has_window env = true -> has_document env = true ->
  createObjectURL_throws env = None ->
  media_events env = (pre ++ (t, EvSeeked) :: rest)%list ->
  leadIn Guarded.timeoutDelay pre = true -> (t < Guarded.timeoutDelay)%Z ->
  falsy_number (videoWidth env) = false ->
  falsy_number (videoHeight env) = false ->
  let st := stateAfter Guarded.extractor env b (pre ++ [(t, EvSeeked)]) in
  (canvas_getContext env = false ->
   promise st =
   Some (Rejected (new_Error "Não foi possível obter o contexto do canvas."))) /\
  (forall e : Error,
     canvas_getContext env = true ->
     canvas_toDataURL env
       (mkEncode "image/jpeg" jpegQuality
          (fst (downscale (videoWidth env) (videoHeight env)))
          (snd (downscale (videoWidth env) (videoHeight env)))
          (positionAfter (Guarded.targetTime (video_duration env)) pre))
     = inl e ->
     promise st = Some (Rejected e)) /\
  released (createdURL b) st /\
  Guarded.extractFirstFrame env b = st.
Proof.
  intros Hw Hd Hc Hevs Hpre Ht Hvw Hvh st. subst st.
  destruct (Guarded_first_completion env b pre t EvSeeked rest
              Hw Hd Hc Hevs Hpre Ht eq_refl) as (E & R & F).
  split; [|split; [|split; [exact R|exact F]]].
  - intros Hctx. rewrite E. unfold Guarded.executor. rewrite Hw, Hd, Hc. cbn.
    unfold Guarded.onseeked. rewrite Hvw, Hvh. cbn [orb].
    destruct (downscale (videoWidth env) (videoHeight env)) as [w h].
    rewrite Hctx. reflexivity.
  - intros e Hctx Henc. rewrite E. unfold Guarded.executor.
    rewrite Hw, Hd, Hc. cbn.
    unfold Guarded.onseeked. rewrite Hvw, Hvh. cbn [orb].
    destruct (downscale (videoWidth env) (videoHeight env)) as [w h].
    rewrite Hctx. cbn [negb]. unfold encode.
    cbn [currentTime set_currentTime]. cbn [fst snd] in Henc.
    rewrite Henc. reflexivity.
Qed.

Lemma Guarded_canvas_failure_rejected_witness :
  promise (stateAfter Guarded.extractor
             (mkVideoEnv true true None played 10 640 480 false
                (fun _ => inr sampleDataUrl)) emptyBrowser played) =
  Some (Rejected (new_Error "Não foi possível obter o contexto do canvas.")).
Proof.
  exact (proj1
    (Guarded_canvas_failure_rejected
       (mkVideoEnv true true None played 10 640 480 false
          (fun _ => inr sampleDataUrl)) emptyBrowser
       [(120, EvLoadedData)] [] 340
       eq_refl eq_refl eq_refl eq_refl eq_refl eq_refl eq_refl eq_refl)
    eq_refl).
Defined.

(** X17. A guarded extraction whose first completing event is [error],
    before the deadline: right after that event is handled the promise is
    rejected with the decode message and everything is released already
    then; the run ends in that very state, whatever follows. *)
Theorem Guarded_error_event_rejected
    (env : VideoEnv) (b : Browser) (pre rest : list (Z * MediaEvent)) (t : Z) :
  has_window env = true -> has_document env = true ->
  createObjectURL_throws env = None ->
  media_events env = (pre ++ (t, EvError) :: rest)%list ->
  leadIn Guarded.timeoutDelay pre = true -> (t < Guarded.timeoutDelay)%Z ->
  let st := stateAfter Guarded.extractor env b (pre ++ [(t, EvError)]) in
  promise st =
  Some (Rejected (new_Error "Erro ao decodificar o vídeo. O arquivo pode estar corrompido ou formato não suportado.")) /\
  released (createdURL b) st /\
  Guarded.extractFirstFrame env b = st.
Proof.
  intros Hw Hd Hc Hevs Hpre Ht st. subst st.
  pose proof (Guarded_first_completion env b pre t EvError rest
                Hw Hd Hc Hevs Hpre Ht eq_refl) as H.
  guarded_first H. rewrite Hw, Hd, Hc. reflexivity.
Qed.

Lemma Guarded_error_event_rejected_witness :
  promise (stateAfter Guarded.extractor
             (clip 640 480 10 [(120, EvLoadedData); (200, EvError); (340, EvSeeked)])
             emptyBrowser [(120, EvLoadedData); (200, EvError)]) =
  Some (Rejected (new_Error "Erro ao decodificar o vídeo. O arquivo pode estar corrompido ou formato não suportado.")).
Proof.
  exact (proj1
    (Guarded_error_event_rejected
       (clip 640 480 10 [(120, EvLoadedData); (200, EvError); (340, EvSeeked)])
       emptyBrowser [(120, EvLoadedData)] [(340, EvSeeked)] 200
       eq_refl eq_refl eq_refl eq_refl eq_refl eq_refl)).
Defined.

(** X18. The guarded extraction fails fast: the executor itself leaves it
    rejected and holding nothing, and it stays so at every moment
    afterwards, whatever events are delivered, to the end of the run.
    Outside a browser nothing was acquired: no timer, no object URL, no
    handler.  In a browser where [URL.createObjectURL] throws, the
    rejection is ["Falha ao carregar o arquivo de vídeo."], not the
    exception, the timer armed before the attempt is already cleared and
    the element removed. *)
Theorem Guarded_fails_fast (env : VideoEnv) (b : Browser) :
  (has_window env && has_document env = false ->
   let st :=
     reject (new_Error "O processamento de vídeo requer um ambiente de navegador.")
       (start b) in
   (forall evs, stateAfter Guarded.extractor env b evs = st) /\
   Guarded.extractFirstFrame env b = st) /\
  (forall e : Error,
     has_window env = true -> has_document env = true ->
     createObjectURL_throws env = Some e ->
     let st :=
       reject (new_Error "Falha ao carregar o arquivo de vídeo.")
         (video_remove (start b)) in
     (forall evs, stateAfter Guarded.extractor env b evs = st) /\
     Guarded.extractFirstFrame env b = st).
Proof.
  split.
  - intros H st.
    assert (E : Guarded.executor env (start b) = st).
    { unfold Guarded.executor.
      replace (negb (has_window env) || negb (has_document env)) with true
        by (destruct (has_window env), (has_document env); simpl in *; congruence).
      reflexivity. }
    split.
    + intros evs. unfold stateAfter.
      change (executor Guarded.extractor env (start b))
        with (Guarded.executor env (start b)).
      rewrite E. now apply inert_eventLoop.
    + unfold Guarded.extractFirstFrame, run.
      change (executor Guarded.extractor env (start b))
        with (Guarded.executor env (start b)).
      rewrite E. now apply inert_run.
  - intros e Hw Hd Hc st.
    assert (E : Guarded.executor env (start b) = st).
    { unfold Guarded.executor. rewrite Hw, Hd, Hc. reflexivity. }
    split.
    + intros evs. unfold stateAfter.
      change (executor Guarded.extractor env (start b))
        with (Guarded.executor env (start b)).
      rewrite E. now apply inert_eventLoop.
    + unfold Guarded.extractFirstFrame, run.
      change (executor Guarded.extractor env (start b))
        with (Guarded.executor env (start b)).
      rewrite E. now apply inert_run.
Qed.

(** ** The success path of the first version *)

(** [loadeddata] events alone only move the playback position of the first
    version. *)
Lemma Bare_loadsOnly env pre : forall st,
  timeoutId st = None -> video_onloadeddata st = true ->
  loadsOnly pre = true ->
  eventLoop Bare.extractor env pre st =
  match pre with [] => st | _ :: _ => set_currentTime 0.1%float st end.
Proof.
  induction pre as [|[t ev] pre IH]; intros st Ht Hl Hp; [reflexivity|].
  cbn [loadsOnly forallb] in Hp. apply andb_prop in Hp as [Hev Hp].
  destruct ev; try discriminate.
  cbn [eventLoop]. unfold elapse. rewrite Ht. unfold dispatch. rewrite Hl.
  cbn [on_loadeddata Bare.extractor]. unfold Bare.onloadeddata.
  rewrite IH; [|exact Ht|exact Hl|exact Hp].
  destruct pre; reflexivity.
Qed.

(** Once the first version has revoked its object URL, the URL stays
    revoked. *)
Lemma Bare_revoked_stays env u evs st :
  url st = u -> u ∉ objectURLs (browser st) ->
  u ∉ objectURLs
        (browser (fire Bare.extractor env (eventLoop Bare.extractor env evs st))).
Proof.
  intros Hu Hn.
  set (I := fun st : Extraction => url st = u /\ u ∉ objectURLs (browser st)).
  assert (Hrev : forall st', I st' ->
            I (with_browser (URL_revokeObjectURL (url st')) st')).
  { intros st' [Hu' Hn']. split; [exact Hu'|].
    cbn. intros [Hin _]%elem_of_difference. exact (Hn' Hin). }
  enough (H : I (fire Bare.extractor env (eventLoop Bare.extractor env evs st)))
    by exact (proj2 H).
  apply (fire_invariant Bare.extractor env I).
  { intros st' d H' _. exact H'. }
  apply (eventLoop_invariant Bare.extractor env I);
    cbn [on_loadeddata on_seeked on_error on_timeout Bare.extractor].
  - intros st' H' _. exact H'.
  - intros st' H' _. unfold Bare.onseeked.
    destruct (downscale _ _) as [w h].
    destruct (negb (canvas_getContext env)); [exact (Hrev st' H')|].
    destruct (encode env w h (currentTime st')); [exact H'|].
    exact (Hrev st' H').
  - intros st' H' _. exact (Hrev st' H').
  - intros st' d H' _. exact H'.
  - split; assumption.
Qed.

(** X19. The success path of the first [extractFirstFrame]: with a
    document, when the first [seeked] event comes after [loadeddata] events
    only - however late - and the canvas has a context and encodes, the
    promise resolves with the downscaled size, also for a video of width or
    height zero, and the object URL it created is revoked. *)
Theorem Bare_resolves
    (env : VideoEnv) (b : Browser) (pre rest : list (Z * MediaEvent)) (t : Z)
    (dataUrl : string) :
  has_document env = true -> createObjectURL_throws env = None ->
  media_events env = (pre ++ (t, EvSeeked) :: rest)%list ->
  loadsOnly pre = true ->
  canvas_getContext env = true ->
  canvas_toDataURL env
    (mkEncode "image/jpeg" jpegQuality
       (fst (downscale (videoWidth env) (videoHeight env)))
       (snd (downscale (videoWidth env) (videoHeight env)))
       (positionAfter 0.1 pre))
  = inr dataUrl ->
  promise (Bare.extractFirstFrame env b) =
  Some (Resolved
          (mkFrame (nth_error (split_comma dataUrl) 1) "image/jpeg"
             (fst (downscale (videoWidth env) (videoHeight env)))
             (snd (downscale (videoWidth env) (videoHeight env))))) /\
  createdURL b ∉ objectURLs (browser (Bare.extractFirstFrame env b)).
Proof.
  intros Hd Hc Hevs Hpre Hctx Henc.
  unfold Bare.extractFirstFrame, run. rewrite Hevs.
  change (executor Bare.extractor env (start b))
    with (Bare.executor env (start b)).
  set (st0 := Bare.executor env (start b)).
  assert (Hst0 : st0 =
            mkExtraction
              (mkBrowser ({[ createdURL b ]} ∪ objectURLs b) (S (nextBlob b))
                 (alerts b))
              None (createdURL b) true true true false 0%float None).
  { subst st0. unfold Bare.executor. rewrite Hd, Hc. reflexivity. }
  assert (E : eventLoop Bare.extractor env (pre ++ (t, EvSeeked) :: rest) st0 =
    eventLoop Bare.extractor env rest
      (resolve (mkFrame (nth_error (split_comma dataUrl) 1) "image/jpeg"
                  (fst (downscale (videoWidth env) (videoHeight env)))
                  (snd (downscale (videoWidth env) (videoHeight env))))
         (with_browser (URL_revokeObjectURL (createdURL b))
            (set_currentTime (positionAfter 0.1 pre) st0)))).
  { rewrite eventLoop_app.
    rewrite (Bare_loadsOnly env pre);
      [|rewrite Hst0; reflexivity|rewrite Hst0; reflexivity|exact Hpre].
    replace (match pre with
             | [] => st0
             | _ :: _ => set_currentTime 0.1 st0
             end) with (set_currentTime (positionAfter 0.1 pre) st0)
      by (destruct pre; [rewrite Hst0|]; reflexivity).
    clearbody st0. subst st0.
    cbn [eventLoop]. f_equal.
    unfold elapse, dispatch. cbn [timeoutId video_onseeked set_currentTime].
    cbn [on_seeked Bare.extractor]. unfold Bare.onseeked.
    destruct (downscale (videoWidth env) (videoHeight env)) as [w h].
    rewrite Hctx. cbn [negb]. unfold encode.
    cbn [currentTime set_currentTime fst snd] in Henc |- *.
    rewrite Henc. reflexivity. }
  rewrite E. clearbody st0. subst st0. split.
  - apply Bare_settled_stays. reflexivity.
  - apply Bare_revoked_stays; [reflexivity|].
    cbn. intros [_ Hne]%elem_of_difference.
    apply Hne, elem_of_singleton. reflexivity.
Qed.

Lemma Bare_resolves_witness :
  promise (Bare.extractFirstFrame (clip 0 480 10 [(120, EvLoadedData); (60000, EvSeeked)])
             emptyBrowser) =
  Some (Resolved (mkFrame (Some "/9j/4AAQSkZJRg==") "image/jpeg" 0 480)).
Proof.
  exact (proj1
    (Bare_resolves (clip 0 480 10 [(120, EvLoadedData); (60000, EvSeeked)])
       emptyBrowser [(120, EvLoadedData)] [] 60000 sampleDataUrl
       eq_refl eq_refl eq_refl eq_refl eq_refl eq_refl)).
Defined.

(** ** The payload of a data URL *)

Lemma split_comma_commaFree s : commaFree s = true -> split_comma s = [s].
Proof.
  induction s as [|c s IH]; [reflexivity|].
  cbn [commaFree split_comma]. intros [Hc Hs]%andb_prop.
  apply negb_true_iff in Hc. rewrite Hc, (IH Hs). reflexivity.
Qed.

Lemma split_comma_nonempty s : split_comma s <> [].
Proof.
  destruct s as [|c s]; [discriminate|]. cbn [split_comma].
  destruct (Ascii.eqb c ","); [discriminate|].
  destruct (split_comma s); discriminate.
Qed.

Lemma split_comma_app s rest :
  commaFree s = true ->
  split_comma (s ++ "," ++ rest) = s :: split_comma rest.
Proof.
  induction s as [|c s IH]; [reflexivity|].
  cbn [commaFree]. intros [Hc Hs]%andb_prop. apply negb_true_iff in Hc.
  change (String c s ++ "," ++ rest) with (String c (s ++ "," ++ rest)).
  cbn [split_comma]. rewrite Hc, (IH Hs). reflexivity.
Qed.

(** X20. The [base64] field of a frame, [dataUrl.split(',')[1]]: for a data
    URL made of a header without comma, a comma and a payload without
    comma it is the payload; what follows a second comma is dropped; and a
    text without any comma gives [undefined]. *)
Theorem base64_of_data_url (header payload : string) :
  commaFree header = true -> commaFree payload = true ->
  nth_error (split_comma (header ++ "," ++ payload)) 1 = Some payload /\
  (forall more : string,
     nth_error (split_comma (header ++ "," ++ payload ++ "," ++ more)) 1
     = Some payload) /\
  nth_error (split_comma header) 1 = None.
Proof.
  intros Hh Hp. repeat split.
  - rewrite (split_comma_app _ _ Hh), (split_comma_commaFree _ Hp). reflexivity.
  - intros more.
    rewrite (split_comma_app _ _ Hh), (split_comma_app _ _ Hp). reflexivity.
  - rewrite (split_comma_commaFree _ Hh). reflexivity.
Qed.

Lemma base64_of_data_url_witness :
  nth_error (split_comma sampleDataUrl) 1 = Some "/9j/4AAQSkZJRg==".
Proof.
  exact (proj1 (base64_of_data_url "data:image/jpeg;base64" "/9j/4AAQSkZJRg=="
                  eq_refl eq_refl)).
Defined.

(** ** Starting a download *)

Lemma filter_fresh (a : Element) (children : list Element) :
  Forall (fun e => (el_id e < el_id a)%nat) children ->
  List.filter (fun e => negb (same_node a e)) children = children.
Proof.
  induction 1 as [|e children He _ IH]; [reflexivity|].
  cbn [List.filter]. unfold same_node at 1.
  destruct (Nat.eqb_spec (el_id a) (el_id e)) as [E|_]; [lia|].
  cbn [negb]. now rewrite IH.
Qed.

Lemma existsb_last (a : Element) (children : list Element) :
  existsb (same_node a) (children ++ [a]) = true.
Proof.
  rewrite existsb_app. cbn. unfold same_node at 2. rewrite Nat.eqb_refl.
  now rewrite orb_true_r.
Qed.

Lemma filter_last (a : Element) (children : list Element) :
  Forall (fun e => (el_id e < el_id a)%nat) children ->
  List.filter (fun e => negb (same_node a e)) (children ++ [a]) = children.
Proof.
  intros H. rewrite List.filter_app, (filter_fresh a children H). cbn.
  unfold same_node. rewrite Nat.eqb_refl. cbn. apply app_nil_r.
Qed.

(** X21. In a page with a document and a body, both versions of
    [downloadVideo] start exactly one download, of [url] under the name
    [filename], throw nothing, write nothing to the console and leave the
    children of the body as they found them: the anchor is gone again. *)
Theorem downloadVideo_starts_one_download
    (url filename : string) (p : Page) (children : list Element) :
  has_doc p = true -> body p = Some children -> well_formed p ->
  let p' := mkPage true (Some children) (S (nextElement p))
              (downloads p ++ [(url, filename)]) (console_errors p) in
  Bare.downloadVideo url filename p = (None, p') /\
  Guarded.downloadVideo url filename p = p'.
Proof.
  intros Hd Hb Hwf p'. specialize (Hwf children Hb).
  unfold Bare.downloadVideo, Guarded.downloadVideo, createElement.
  rewrite Hd. cbn [el_id tagName href download].
  unfold appendChild. cbn [has_doc body nextElement downloads console_errors].
  rewrite Hb.
  set (a := mkElement (nextElement p) "a" url filename).
  rewrite (filter_fresh a children Hwf).
  unfold removeChild, click.
  cbn [has_doc body nextElement downloads console_errors].
  rewrite (existsb_last a children), (filter_last a children Hwf).
  split; reflexivity.
Qed.

Lemma downloadVideo_starts_one_download_witness :
  Guarded.downloadVideo "blob:0" "video_sem_marca_dagua.mp4"
    (mkPage true (Some [mkElement 0 "div" "" ""]) 1 [] []) =
  mkPage true (Some [mkElement 0 "div" "" ""]) 2
    [("blob:0", "video_sem_marca_dagua.mp4")] [].
Proof.
  refine (proj2 (downloadVideo_starts_one_download "blob:0"
                   "video_sem_marca_dagua.mp4"
                   (mkPage true (Some [mkElement 0 "div" "" ""]) 1 [] [])
                   [mkElement 0 "div" "" ""] eq_refl eq_refl _)).
  intros children E. injection E as <-. repeat constructor.
Defined.

(** X22. Where there is no document, or the document has no body, the
    first [downloadVideo] throws and the second returns, having written
    that same error to the console under ["Erro ao iniciar download:"];
    neither starts a download. *)
Theorem downloadVideo_without_a_body (url filename : string) (p : Page) :
  has_doc p = false \/ body p = None ->
  exists (e : Error) (p' : Page),
    Bare.downloadVideo url filename p = (Some e, p') /\
    Guarded.downloadVideo url filename p =
      console_error "Erro ao iniciar download:" e p' /\
    downloads p' = downloads p /\ console_errors p' = console_errors p.
Proof.
  intros H. unfold Bare.downloadVideo, Guarded.downloadVideo, createElement.
  destruct (has_doc p) eqn:Hd.
  - destruct H as [H|Hb]; [discriminate|].
    cbn [el_id tagName href download]. unfold appendChild.
    cbn [has_doc body]. rewrite Hb. eexists _, _. repeat split.
  - eexists _, _. repeat split.
Qed.

Lemma downloadVideo_without_a_body_witness :
  exists (e : Error) (p' : Page),
    Bare.downloadVideo "blob:0" "video_sem_marca_dagua.mp4"
      (mkPage false None 0 [] []) = (Some e, p') /\
    Guarded.downloadVideo "blob:0" "video_sem_marca_dagua.mp4"
      (mkPage false None 0 [] []) =
      console_error "Erro ao iniciar download:" e p' /\
    downloads p' = [] /\ console_errors p' = [].
Proof.
  exact (downloadVideo_without_a_body "blob:0" "video_sem_marca_dagua.mp4"
           (mkPage false None 0 [] []) (or_introl eq_refl)).
Defined.

(** ** Everything [generateCleanVideo] does *)

(** The loop, whatever the service answers: [k] rounds for the captured
    name, all of the fuel if it is still waiting, and a finished operation
    if it returns. *)
Lemma pollLoop_shape env operationName fuel : forall operation w,
  exists k,
    (k <= fuel)%nat /\
    snd (pollLoop fuel env operationName operation w) =
      mkWorld (calls w ++ pollRounds operationName k) (polls w + k) (w_browser w) /\
    (fst (pollLoop fuel env operationName operation w) = Waiting -> k = fuel) /\
    (forall final,
       fst (pollLoop fuel env operationName operation w) = Returned final ->
       op_done final = true).
Proof.
  induction fuel as [|fuel IH]; intros operation w.
  - exists 0%nat. rewrite pollLoop_unfold.
    destruct (op_done operation) eqn:Hd; cbn; rewrite app_nil_r, Nat.add_0_r;
      (repeat split; [lia|now destruct w|congruence..]).
  - destruct (op_done operation) eqn:Hd.
    + exists 0%nat. rewrite pollLoop_unfold, Hd. cbn.
      rewrite app_nil_r, Nat.add_0_r.
      repeat split; [lia|now destruct w|discriminate|congruence].
    + rewrite pollLoop_step by exact Hd.
      destruct (getVideosOperation env (polls w) operationName) as [e|op'].
      * exists 1%nat. cbn [fst snd]. unfold after_round.
        rewrite Nat.add_1_r. repeat split; [lia|discriminate..].
      * destruct (IH op' (after_round operationName w)) as (k & Hk & Hw & Hwait & Hret).
        exists (S k). rewrite Hw. cbn [after_round calls polls w_browser].
        rewrite <- app_assoc, Nat.add_succ_r.
        repeat split; [lia|..].
        -- intros H. f_equal. exact (Hwait H).
        -- exact Hret.
Qed.

(** What the [try] block does to a world with nothing recorded yet. *)
Lemma try_block_shape fuel env apiKey imageBase64 imageMimeType
    promptDescription aspectRatio b :
  exists (name : string) (k : nat) (tail : list Call),
    let r := generateCleanVideo_try fuel env apiKey imageBase64 imageMimeType
               promptDescription aspectRatio (mkWorld [] 0 b) in
    calls (snd r) =
      (CallGenerateVideos
         (submission imageBase64 imageMimeType promptDescription aspectRatio)
       :: pollRounds name k ++ tail)%list /\
    polls (snd r) = k /\ (k <= fuel)%nat /\
    (tail = [] \/ exists videoUri, tail = [CallFetch (videoUri ++ "&key=" ++ apiKey)]) /\
    match fst r with
    | Returned url =>
        tail <> [] /\ url = createdURL b /\
        w_browser (snd r) = snd (URL_createObjectURL b)
    | Thrown _ => w_browser (snd r) = b
    | Waiting => k = fuel /\ tail = [] /\ w_browser (snd r) = b
    end.
Proof.
  unfold generateCleanVideo_try, bind at 1.
  unfold call_generateVideos, bind, record, answer.
  fold (submission imageBase64 imageMimeType promptDescription aspectRatio).
  cbn [calls polls w_browser app].
  destruct (generateVideos env _) as [e|operation].
  { exists "", 0%nat, []. cbn. repeat split; auto; lia. }
  cbn [ret].
  destruct (op_name operation) as [name|].
  2: { exists "", 0%nat, []. cbn. repeat split; auto; lia. }
  destruct (falsy_string name).
  { exists "", 0%nat, []. cbn. repeat split; auto; lia. }
  set (w1 := mkWorld _ _ _).
  destruct (pollLoop_shape env name fuel operation w1) as (k & Hk & Hw & Hwait & _).
  destruct (pollLoop fuel env name operation w1) as [[final|e|] w2].
  - cbn [snd] in Hw. subst w2. cbn [calls polls w_browser w1 app Nat.add].
    destruct (falsy (op_videoUri final)).
    { exists name, k, []. cbn. rewrite app_nil_r. repeat split; auto. }
    unfold call_fetch, bind, record, answer. cbn [calls polls w_browser].
    exists name, k, [CallFetch (or_else (op_videoUri final) "" ++ "&key=" ++ apiKey)].
    destruct (fetch env _) as [e|response].
    { cbn. repeat split; eauto. }
    cbn [ret]. destruct (r_ok response); cbn [negb].
    2: { cbn. repeat split; eauto. }
    destruct (r_blob response).
    { cbn. repeat split; eauto. }
    cbn. repeat split; eauto.
  - cbn [snd] in Hw. subst w2. exists name, k, [].
    cbn. rewrite app_nil_r. repeat split; auto.
  - cbn [snd] in Hw. subst w2. exists name, k, [].
    cbn. rewrite app_nil_r. repeat split; auto.
Qed.

(** X23. Everything [generateCleanVideo] does with a key configured,
    whatever the service answers: one submission; then rounds of a 5 s
    sleep and a poll, as many as it has polled; then at most one download,
    of a locator with ["&key="] and the key appended, after which nothing
    follows.  It creates an object URL only when it returns, after a
    download, and returns that URL; when it throws it has created none; and
    when it is still waiting it has used every round it was followed for
    and downloaded nothing. *)
Theorem generateCleanVideo_effects
    (fuel : nat) (env : GenEnv) (imageBase64 : option string)
    (imageMimeType promptDescription : string) (aspectRatio : AspectRatio)
    (b : Browser) :
  falsy (API_KEY env) = false ->
  exists (name : string) (k : nat) (tail : list Call),
    let r := generateCleanVideo fuel env imageBase64 imageMimeType
               promptDescription aspectRatio (mkWorld [] 0 b) in
    calls (snd r) =
      (CallGenerateVideos
         (submission imageBase64 imageMimeType promptDescription aspectRatio)
       :: pollRounds name k ++ tail)%list /\
    polls (snd r) = k /\ (k <= fuel)%nat /\
    (tail = [] \/
     exists videoUri,
       tail = [CallFetch (videoUri ++ "&key=" ++ or_else (API_KEY env) "")]) /\
    match fst r with
    | Returned url =>
        tail <> [] /\ url = createdURL b /\
        w_browser (snd r) = snd (URL_createObjectURL b)
    | Thrown _ => w_browser (snd r) = b
    | Waiting => k = fuel /\ tail = [] /\ w_browser (snd r) = b
    end.
Proof.
  intros Hkey. unfold generateCleanVideo. rewrite Hkey.
  destruct (try_block_shape fuel env (or_else (API_KEY env) "") imageBase64
              imageMimeType promptDescription aspectRatio b)
    as (name & k & tail & H).
  exists name, k, tail. cbv zeta in H |- *.
  rewrite snd_try_catch_throw, fst_try_catch_throw.
  destruct H as (Hc & Hp & Hk & Ht & Hr).
  repeat split; try assumption.
  destruct (fst (generateCleanVideo_try _ _ _ _ _ _ _ _)); exact Hr.
Qed.

Lemma generateCleanVideo_effects_witness :
  exists (name : string) (k : nat) (tail : list Call),
    let r := generateCleanVideo 10 renamingService (Some "/9j/4AAQ") "image/jpeg"
               "a red car" Ratio16x9 (mkWorld [] 0 emptyBrowser) in
    calls (snd r) =
      (CallGenerateVideos
         (submission (Some "/9j/4AAQ") "image/jpeg" "a red car" Ratio16x9)
       :: pollRounds name k ++ tail)%list /\
    polls (snd r) = k /\ (k <= 10)%nat /\
    (tail = [] \/
     exists videoUri,
       tail = [CallFetch (videoUri ++ "&key=" ++ or_else (API_KEY renamingService) "")]) /\
    match fst r with
    | Returned url =>
        tail <> [] /\ url = createdURL emptyBrowser /\
        w_browser (snd r) = snd (URL_createObjectURL emptyBrowser)
    | Thrown _ => w_browser (snd r) = emptyBrowser
    | Waiting => k = 10%nat /\ tail = [] /\ w_browser (snd r) = emptyBrowser
    end.
Proof.
  exact (generateCleanVideo_effects 10 renamingService (Some "/9j/4AAQ")
           "image/jpeg" "a red car" Ratio16x9 emptyBrowser eq_refl).
Defined.

(** The loop on a service that never reports completion. *)
Lemma pollLoop_pending env operationName :
  (forall n, exists op, getVideosOperation env n operationName = inr op /\
                        op_done op = false) ->
  forall fuel operation w,
  op_done operation = false ->
  pollLoop fuel env operationName operation w =
  (Waiting,
   mkWorld (calls w ++ pollRounds operationName fuel) (polls w + fuel)
     (w_browser w)).
Proof.
  intros Hnever. induction fuel as [|fuel IH]; intros operation w Hd.
  - rewrite pollLoop_unfold, Hd. cbn. rewrite app_nil_r, Nat.add_0_r.
    now destruct w.
  - rewrite pollLoop_step by exact Hd.
    destruct (Hnever (polls w)) as (op & -> & Hop).
    rewrite (IH op _ Hop). cbn [after_round calls polls w_browser].
    rewrite <- app_assoc, Nat.add_succ_r. reflexivity.
Qed.

(** X24. [generateCleanVideo] has no deadline and no limit on the number of
    polls: while the service answers every poll with an operation that is
    not done, it goes on sleeping and polling - however many rounds it is
    followed for, it has done exactly that many and is still waiting, with
    nothing thrown. *)
Theorem generateCleanVideo_polls_without_limit
    (env : GenEnv) (imageBase64 : option string)
    (imageMimeType promptDescription : string) (aspectRatio : AspectRatio)
    (b : Browser) (operation : Operation) (operationName : string) :
  falsy (API_KEY env) = false ->
  generateVideos env
    (submission imageBase64 imageMimeType promptDescription aspectRatio)
    = inr operation ->
  op_name operation = Some operationName ->
  falsy_string operationName = false ->
  op_done operation = false ->
  (forall n, exists op, getVideosOperation env n operationName = inr op /\
                        op_done op = false) ->
  forall fuel : nat,
    generateCleanVideo fuel env imageBase64 imageMimeType promptDescription
      aspectRatio (mkWorld [] 0 b) =
    (Waiting,
     mkWorld
       (CallGenerateVideos
          (submission imageBase64 imageMimeType promptDescription aspectRatio)
        :: pollRounds operationName fuel)
       fuel b).
Proof.
  intros Hkey Hsub Hname Htruthy Hd Hnever fuel.
  unfold generateCleanVideo. rewrite Hkey.
  unfold try_catch, generateCleanVideo_try, bind at 1.
  unfold call_generateVideos, bind, record, answer.
  fold (submission imageBase64 imageMimeType promptDescription aspectRatio).
  rewrite Hsub. cbn [ret calls polls w_browser app]. rewrite Hname, Htruthy.
  rewrite (pollLoop_pending env operationName Hnever fuel operation _ Hd).
  reflexivity.
Qed.

Lemma generateCleanVideo_polls_without_limit_witness :
  fst (generateCleanVideo 1000
         (service (fun _ _ => inr (pendingOperation "operations/1")))
         (Some "/9j/4AAQ") "image/jpeg" "a red car" Ratio16x9
         (mkWorld [] 0 emptyBrowser))
  = Waiting.
Proof.
  rewrite (generateCleanVideo_polls_without_limit
             (service (fun _ _ => inr (pendingOperation "operations/1")))
             (Some "/9j/4AAQ") "image/jpeg" "a red car" Ratio16x9 emptyBrowser
             (pendingOperation "operations/1") "operations/1"
             eq_refl eq_refl eq_refl eq_refl eq_refl
             (fun _ => ex_intro _ (pendingOperation "operations/1")
                         (conj eq_refl eq_refl))
             1000%nat).
  reflexivity.
Defined.

(** X25. A submission that fails ends the call at once.  If
    [generateVideos] throws, the error goes through the translation of the
    outer [catch]; if it answers with an operation that has no name, or an
    empty one, the error is
    ["A API não retornou um ID de operação válido."].  In both cases the
    submission is the only call made: nothing is polled. *)
Theorem submission_failure_ends_the_call
    (fuel : nat) (env : GenEnv) (imageBase64 : option string)
    (imageMimeType promptDescription : string) (aspectRatio : AspectRatio)
    (b : Browser) :
  falsy (API_KEY env) = false ->
  let sub := submission imageBase64 imageMimeType promptDescription aspectRatio in
  let r := generateCleanVideo fuel env imageBase64 imageMimeType
             promptDescription aspectRatio (mkWorld [] 0 b) in
  (forall e, generateVideos env sub = inl e ->
     r = (Thrown (new_Error (userMessage e)),
          mkWorld [CallGenerateVideos sub] 0 b)) /\
  (forall operation,
     generateVideos env sub = inr operation ->
     falsy (op_name operation) = true ->
     r = (Thrown (new_Error "A API não retornou um ID de operação válido."),
          mkWorld [CallGenerateVideos sub] 0 b)).
Proof.
  intros Hkey sub r. subst r. unfold generateCleanVideo. rewrite Hkey.
  unfold try_catch, generateCleanVideo_try, bind at 1.
  unfold call_generateVideos, bind, record, answer.
  fold (submission imageBase64 imageMimeType promptDescription aspectRatio).
  fold sub. split.
  - intros e ->. reflexivity.
  - intros operation -> Hname. cbn [ret calls polls w_browser app].
    destruct (op_name operation) as [name|]; [|reflexivity].
    cbn [falsy] in Hname. rewrite Hname. reflexivity.
Qed.

Lemma submission_failure_ends_the_call_witness :
  generateCleanVideo 10
    (mkGenEnv (Some "KEY") (fun _ => inl (new_Error "got status: 429 Too Many Requests"))
       (fun _ _ => inr (pendingOperation "operations/1"))
       (fun _ => inr (mkResponse true 200 "OK" None)))
    (Some "/9j/4AAQ") "image/jpeg" "a red car" Ratio16x9 (mkWorld [] 0 emptyBrowser)
  = (Thrown (new_Error quotaExceeded),
     mkWorld [CallGenerateVideos
                (submission (Some "/9j/4AAQ") "image/jpeg" "a red car" Ratio16x9)]
       0 emptyBrowser).
Proof.
  exact (proj1 (submission_failure_ends_the_call 10
           (mkGenEnv (Some "KEY")
              (fun _ => inl (new_Error "got status: 429 Too Many Requests"))
              (fun _ _ => inr (pendingOperation "operations/1"))
              (fun _ => inr (mkResponse true 200 "OK" None)))
           (Some "/9j/4AAQ") "image/jpeg" "a red car" Ratio16x9 emptyBrowser
           eq_refl) _ eq_refl).
Defined.


(** ** Failures after the operation is done *)

Section AfterCompletion.

Variable fuel : nat.
Variable env : GenEnv.
Variable imageBase64 : option string.
Variables imageMimeType promptDescription : string.
Variable aspectRatio : AspectRatio.
Variable b : Browser.
Variable apiKey : string.
Variables operation final : Operation.
Variable operationName : string.
Variable k : nat.

Hypothesis key_configured : API_KEY env = Some apiKey.
Hypothesis key_not_empty : falsy_string apiKey = false.
Hypothesis submitted :
  generateVideos env
    (submission imageBase64 imageMimeType promptDescription aspectRatio)
  = inr operation.
Hypothesis named : op_name operation = Some operationName.
Hypothesis name_not_empty : falsy_string operationName = false.
Hypothesis pending : op_done operation = false.
Hypothesis not_done_before :
  forall i, (i < k)%nat ->
    exists op, getVideosOperation env i operationName = inr op /\
               op_done op = false.
Hypothesis done_at : getVideosOperation env k operationName = inr final.
Hypothesis done : op_done final = true.
Hypothesis enough_fuel : (k < fuel)%nat.

(** X26. When the operation is reported done without a video locator
    (after [k] polls that answered "not done"), [generateCleanVideo] throws
    ["Falha na geração: "] followed by the operation's error message, or by
    ["Nenhum URI de vídeo retornado."] if it has none - a text the outer
    [catch] then translates like any other - and downloads nothing. *)
Theorem done_without_video_fails :
  falsy (op_videoUri final) = true ->
  generateCleanVideo fuel env imageBase64 imageMimeType promptDescription
    aspectRatio (mkWorld [] 0 b) =
  (Thrown
     (new_Error
        (userMessage
           (new_Error
              ("Falha na geração: " ++
               or_else (op_errorMessage final) "Nenhum URI de vídeo retornado.")))),
   mkWorld
     (CallGenerateVideos
        (submission imageBase64 imageMimeType promptDescription aspectRatio)
      :: pollRounds operationName (S k))
     (S k) b).
Proof.
  intros Huri.
  unfold generateCleanVideo. rewrite key_configured. cbn [falsy or_else].
  rewrite key_not_empty.
  unfold try_catch, generateCleanVideo_try, bind at 1.
  unfold call_generateVideos, bind, record, answer.
  fold (submission imageBase64 imageMimeType promptDescription aspectRatio).
  rewrite submitted. cbn [ret calls polls w_browser app].
  rewrite named, name_not_empty.
  rewrite (pollLoop_done env operationName final k fuel operation _ pending);
    try assumption.
  rewrite Huri. reflexivity.
Qed.

(** X27. When the operation is done with a video locator but the download
    fails - [fetch] throws, the response is not ok, or reading the blob
    throws - [generateCleanVideo] throws the translation of that error,
    after one fetch of the locator with the key appended, and creates no
    object URL. *)
Theorem failed_download_creates_no_URL (videoUri : string) (raw : Error) :
  op_videoUri final = Some videoUri -> falsy_string videoUri = false ->
  downloadFails env (videoUri ++ "&key=" ++ apiKey) raw ->
  generateCleanVideo fuel env imageBase64 imageMimeType promptDescription
    aspectRatio (mkWorld [] 0 b) =
  (Thrown (new_Error (userMessage raw)),
   mkWorld
     (CallGenerateVideos
        (submission imageBase64 imageMimeType promptDescription aspectRatio)
      :: pollRounds operationName (S k)
      ++ [CallFetch (videoUri ++ "&key=" ++ apiKey)])
     (S k) b).
Proof.
  intros Huri Huri' Hfail.
  unfold generateCleanVideo. rewrite key_configured. cbn [falsy or_else].
  rewrite key_not_empty.
  unfold try_catch, generateCleanVideo_try, bind at 1.
  unfold call_generateVideos, bind, record, answer.
  fold (submission imageBase64 imageMimeType promptDescription aspectRatio).
  rewrite submitted. cbn [ret calls polls w_browser app].
  rewrite named, name_not_empty.
  rewrite (pollLoop_done env operationName final k fuel operation _ pending);
    try assumption.
  rewrite Huri. cbn [falsy or_else]. rewrite Huri'.
  unfold call_fetch, bind, record, answer. unfold downloadFails in Hfail.
  destruct (fetch env (videoUri ++ "&key=" ++ apiKey)) as [e|response].
  - subst raw. reflexivity.
  - cbn [ret]. destruct (r_ok response); cbn [negb].
    + rewrite Hfail. reflexivity.
    + subst raw. reflexivity.
Qed.

End AfterCompletion.

(** The first poll reports the operation done, with the reason but no
    video. *)
Lemma done_without_video_fails_witness :
  fst (generateCleanVideo 10
         (service (fun _ _ =>
                     inr (mkOperation (Some "operations/1") true None
                            (Some "Content blocked by safety filters"))))
         (Some "/9j/4AAQ") "image/jpeg" "a red car" Ratio16x9
         (mkWorld [] 0 emptyBrowser))
  = Thrown (new_Error "Falha na geração: Content blocked by safety filters").
Proof.
  rewrite (done_without_video_fails 10
             (service (fun _ _ =>
                         inr (mkOperation (Some "operations/1") true None
                                (Some "Content blocked by safety filters"))))
             (Some "/9j/4AAQ") "image/jpeg" "a red car" Ratio16x9 emptyBrowser
             "KEY" (pendingOperation "operations/1")
             (mkOperation (Some "operations/1") true None
                (Some "Content blocked by safety filters"))
             "operations/1" 0);
    try reflexivity; try lia.
Defined.

(** The video is reported at the first poll; the download answers 403. *)
Lemma failed_download_creates_no_URL_witness :
  fst (generateCleanVideo 10
         (mkGenEnv (Some "KEY")
            (fun _ => inr (pendingOperation "operations/1"))
            (fun _ _ => inr (finishedOperation "operations/1" "https://video/1?alt=media"))
            (fun _ => inr (mkResponse false 403 "Forbidden" None)))
         (Some "/9j/4AAQ") "image/jpeg" "a red car" Ratio16x9
         (mkWorld [] 0 emptyBrowser))
  = Thrown (new_Error "Falha ao baixar vídeo gerado: 403 Forbidden").
Proof.
  rewrite (failed_download_creates_no_URL 10
             (mkGenEnv (Some "KEY")
                (fun _ => inr (pendingOperation "operations/1"))
                (fun _ _ => inr (finishedOperation "operations/1" "https://video/1?alt=media"))
                (fun _ => inr (mkResponse false 403 "Forbidden" None)))
             (Some "/9j/4AAQ") "image/jpeg" "a red car" Ratio16x9 emptyBrowser
             "KEY" (pendingOperation "operations/1")
             (finishedOperation "operations/1" "https://video/1?alt=media")
             "operations/1" 0 eq_refl eq_refl eq_refl eq_refl eq_refl eq_refl
             ltac:(intros i Hi; lia) eq_refl eq_refl ltac:(lia)
             "https://video/1?alt=media"
             (new_Error "Falha ao baixar vídeo gerado: 403 Forbidden")
             eq_refl eq_refl eq_refl).
  reflexivity.
Defined.

(** ** The session controller and the errors it shows *)

Lemma userMessage_truthy (e : Error) : falsy_string (userMessage e) = false.
Proof.
  unfold userMessage.
  destruct (includes "404" _ && includes "entity" _); [reflexivity|].
  destruct (includes "429" _); [reflexivity|].
  unfold or_else. destruct (message e) as [m|]; [|reflexivity].
  destruct (falsy_string m) eqn:E; [reflexivity|exact E].
Qed.

(** Whatever [generateCleanVideo] throws carries a message that is not
    empty. *)
Lemma thrown_has_message fuel env imageBase64 imageMimeType promptDescription
    aspectRatio w e :
  fst (generateCleanVideo fuel env imageBase64 imageMimeType promptDescription
         aspectRatio w) = Thrown e ->
  exists m, message e = Some m /\ falsy_string m = false.
Proof.
  unfold generateCleanVideo. destruct (falsy (API_KEY env)).
  - cbn. intros [= <-]. eexists. split; reflexivity.
  - rewrite fst_try_catch_throw.
    destruct (fst (generateCleanVideo_try _ _ _ _ _ _ _ _)) as [u|raw|];
      try discriminate.
    intros [= <-]. exists (userMessage raw). split; [reflexivity|].
    apply userMessage_truthy.
Qed.

(** X28. When a generation started by [handleProcess] throws, the error
    shown is the message thrown, and it is not empty: the handler's own
    text, ["Ocorreu um erro durante a geração do vídeo."], is never what
    [error.message ||] falls back to. *)
Theorem handleProcess_shows_the_thrown_message
    (fuel : nat) (env : GenEnv) (s : App.AppState) (b : Browser)
    (frame : ExtractedFrame) (e : Error) :
  App.extractedFrame s = Some frame ->
  falsy_string (trim (App.prompt s)) = false ->
  fst (generateCleanVideo fuel env (base64 frame) (mimeType frame)
         (App.prompt s) (App.ratio frame) (mkWorld [] 0 b)) = Thrown e ->
  exists m,
    message e = Some m /\ falsy_string m = false /\
    App.processingState (fst (fst (App.handleProcess fuel env (s, b))))
    = App.state_error m.
Proof.
  intros Hframe Hprompt Hthrown.
  destruct (thrown_has_message _ _ _ _ _ _ _ _ Hthrown) as (m & Hm & Hne).
  exists m. repeat split; [exact Hm|exact Hne|].
  unfold App.handleProcess. rewrite Hframe, Hprompt.
  cbn [App.prompt App.setProcessingState].
  destruct (generateCleanVideo _ _ _ _ _ _ _) as [[u|e'|] w'];
    cbn [fst] in Hthrown; try discriminate.
  injection Hthrown as ->. cbn [fst App.processingState App.setProcessingState].
  rewrite Hm. unfold or_else. rewrite Hne. reflexivity.
Qed.

Lemma handleProcess_shows_the_thrown_message_witness :
  exists m,
    message (new_Error operationLost) = Some m /\ falsy_string m = false /\
    App.processingState
      (fst (fst (App.handleProcess 10 lostOperationService
                   (App.mkApp None None "a red car" App.state_idle None
                      (Some (mkFrame (Some "/9j/4AAQSkZJRg==") "image/jpeg" 640 480))
                      None,
                    emptyBrowser))))
    = App.state_error m.
Proof.
  exact (handleProcess_shows_the_thrown_message 10 lostOperationService
           (App.mkApp None None "a red car" App.state_idle None
              (Some (mkFrame (Some "/9j/4AAQSkZJRg==") "image/jpeg" 640 480))
              None)
           emptyBrowser
           (mkFrame (Some "/9j/4AAQSkZJRg==") "image/jpeg" 640 480)
           (new_Error operationLost) eq_refl eq_refl eq_refl).
Defined.

(** ** Selecting a file *)

(** The guarded extraction revokes no object URL but its own. *)
Lemma Guarded_keeps_other_URLs env b x :
  x ∈ objectURLs b -> x <> createdURL b ->
  x ∈ objectURLs (browser (Guarded.extractFirstFrame env b)).
Proof.
  intros Hx Hne.
  set (I := fun st : Extraction =>
              (url st = "" \/ url st = createdURL b) /\
              x ∈ objectURLs (browser st)).
  assert (Hclean : forall st, I st -> I (Guarded.cleanup st)).
  { intros st [Hu Hin]. unfold Guarded.cleanup. unfold_state. split.
    - destruct (falsy_string (url st)); exact Hu.
    - destruct Hu as [Hu|Hu]; rewrite Hu.
      + exact Hin.
      + rewrite createdURL_truthy. unfold_state.
        apply elem_of_difference. split; [exact Hin|].
        intros ->%elem_of_singleton. now apply Hne. }
  enough (H : I (Guarded.extractFirstFrame env b)) by exact (proj2 H).
  apply (run_invariant Guarded.extractor env I);
    cbn [on_loadeddata on_seeked on_error on_timeout executor Guarded.extractor].
  - intros st H _. exact H.
  - intros st H _. unfold Guarded.onseeked.
    destruct (falsy_number _ || falsy_number _); [exact (Hclean st H)|].
    destruct (downscale _ _) as [w h].
    destruct (negb (canvas_getContext env)); [exact (Hclean st H)|].
    destruct (encode env w h (currentTime st)); exact (Hclean st H).
  - intros st H _. exact (Hclean st H).
  - intros st d H _. exact (Hclean (clearTimeout st) H).
  - unfold Guarded.executor.
    destruct (negb (has_window env) || negb (has_document env)).
    + split; [left; reflexivity|exact Hx].
    + destruct (createObjectURL_throws env).
      * apply (Hclean (setTimeout Guarded.timeoutDelay (start b))).
        split; [left; reflexivity|exact Hx].
      * split; [right; reflexivity|].
        cbn. apply elem_of_union. right. exact Hx.
Qed.

Lemma createdURL_fresh b :
  createdURL b <> createdURL (snd (URL_createObjectURL b)).
Proof.
  unfold createdURL, URL_createObjectURL. cbn [snd nextBlob].
  intros H. cbn [String.append] in H. injection H as H.
  change (pretty (nextBlob b) = pretty (S (nextBlob b))) in H.
  apply (inj pretty) in H. lia.
Qed.

(** X29. Selecting an MP4 with the guarded [extractFirstFrame] behind the
    import never leaves the session analyzing: it ends idle with the frame
    the extraction resolved to, or in the error state with
    ["Falha ao processar o vídeo. Tente outro arquivo."] and the frame it
    had before.  The file and its preview URL are set, an earlier result is
    cleared, and of the two object URLs created for the file the preview's
    is still live while the extraction's own is gone. *)
Theorem handleFileChange_Guarded_outcome
    (file : App.File) (s : App.AppState) (b : Browser) :
  App.file_type file = "video/mp4" ->
  let r := App.handleFileChange Guarded.extractor (Some file) (s, b) in
  App.videoFile (fst r) = Some file /\
  App.videoPreviewUrl (fst r) = Some (createdURL b) /\
  App.generatedVideoUrl (fst r) = None /\
  App.prompt (fst r) = App.prompt s /\
  createdURL b ∈ objectURLs (snd r) /\
  objectURLs (snd r) ⊆ {[ createdURL b ]} ∪ objectURLs b /\
  ((exists frame,
      promise (Guarded.extractFirstFrame (App.file_video file)
                 (snd (URL_createObjectURL b)))
      = Some (Resolved frame) /\
      App.extractedFrame (fst r) = Some frame /\
      App.processingState (fst r) = App.state_idle) \/
   (App.extractedFrame (fst r) = App.extractedFrame s /\
    App.processingState (fst r) =
    App.state_error "Falha ao processar o vídeo. Tente outro arquivo.")).
Proof.
  intros Hmp4 r. subst r. unfold App.handleFileChange. rewrite Hmp4.
  cbn [String.eqb Ascii.eqb Bool.eqb negb].
  destruct (URL_createObjectURL b) as [u b1] eqn:Hb1.
  assert (Hu : u = createdURL b) by (injection Hb1 as <- _; reflexivity).
  assert (Hb : b1 = snd (URL_createObjectURL b)) by (rewrite Hb1; reflexivity).
  cbn [snd].
  change (run Guarded.extractor (App.file_video file) b1)
    with (Guarded.extractFirstFrame (App.file_video file) b1).
  set (st := Guarded.extractFirstFrame (App.file_video file) b1).
  assert (Hfin : finished (App.file_video file) b1 st).
  { destruct (Guarded_waiting_or_finished (App.file_video file) b1)
      as [[(_ & Ht & _) _]|H]; [|exact H].
    unfold Guarded.extractFirstFrame, run in Ht.
    rewrite Guarded_fire_clears in Ht. discriminate. }
  destruct Hfin as (Hp & _ & _ & _ & _ & Hsub & _).
  assert (Hlive : createdURL b ∈ objectURLs (browser st)).
  { apply Guarded_keeps_other_URLs.
    - subst b1. cbn. apply elem_of_union. left. now apply elem_of_singleton.
    - subst b1. apply createdURL_fresh. }
  assert (Hsub' : objectURLs (browser st) ⊆ {[ createdURL b ]} ∪ objectURLs b).
  { intros x Hx. apply Hsub in Hx. subst b1. exact Hx. }
  subst u.
  destruct (promise st) as [[frame|e]|] eqn:Hst; [| |congruence]; cbn [fst snd];
    repeat split; try assumption.
  - left. exists frame. repeat split.
  - right. split; reflexivity.
Qed.

Lemma handleFileChange_Guarded_outcome_witness :
  App.processingState (fst (uploaded Guarded.extractor)) <> App.state_analyzing.
Proof.
  destruct (handleFileChange_Guarded_outcome (mp4 (clip 4000 2000 10 played))
              App.initial emptyBrowser eq_refl)
    as (_ & _ & _ & _ & _ & _ & [(f & _ & _ & H)|[_ H]]);
    unfold uploaded; rewrite H; discriminate.
Defined.

(** ** A reset while a promise is pending *)

(** [handleFileChange] is its part before the [await] followed, when the
    promise settles, by its part after it. *)
Lemma handleFileChange_split X file s b :
  App.file_type file = "video/mp4" ->
  fst (App.handleFileChange X (Some file) (s, b)) =
  match promise (run X (App.file_video file) (snd (URL_createObjectURL b))) with
  | Some r =>
      App.handleFileChange_settled r
        (fst (App.handleFileChange_begin X (Some file) (s, b)))
  | None => fst (App.handleFileChange_begin X (Some file) (s, b))
  end.
Proof.
  intros Hmp4. unfold App.handleFileChange, App.handleFileChange_begin.
  rewrite Hmp4. cbn [String.eqb Ascii.eqb Bool.eqb negb].
  unfold URL_createObjectURL. cbn [snd fst].
  destruct (promise _) as [[f|e]|]; reflexivity.
Qed.

(** [handleProcess] likewise. *)
Lemma handleProcess_split fuel env s b :
  fst (fst (App.handleProcess fuel env (s, b))) =
  match App.handleProcess_begin (s, b) with
  | (s1, _, true) =>
      match App.extractedFrame s with
      | Some frame =>
          match fst (generateCleanVideo fuel env (base64 frame) (mimeType frame)
                       (App.prompt s) (App.ratio frame) (mkWorld [] 0 b)) with
          | Returned url => App.handleProcess_settled (inr url) s1
          | Thrown e => App.handleProcess_settled (inl e) s1
          | Waiting => s1
          end
      | None => s1
      end
  | (s1, _, false) => s1
  end.
Proof.
  unfold App.handleProcess, App.handleProcess_begin.
  destruct (App.extractedFrame s) as [frame|]; [|reflexivity].
  destruct (falsy_string (trim (App.prompt s))); [reflexivity|].
  cbn [App.prompt App.setProcessingState].
  destruct (generateCleanVideo _ _ _ _ _ _ _) as [[u|e|] w]; reflexivity.
Qed.

(** X30. A reset cancels nothing that is pending.  If the session is
    reset while the extraction for a file is awaited and another file is
    selected, the first file's frame, once its promise resolves, becomes
    the frame of the session - idle, for the second file - and
    [handleProcess] then starts a generation from it.  If the session is
    reset, from whatever state, while [generateCleanVideo] is awaited, the
    address it returns still lands: the reset session shows completion and
    the video, with no file. *)
Theorem reset_cancels_nothing
    (X : Extractor) (first second : App.File) (frame : ExtractedFrame)
    (text url : string) (s : App.AppState) (b : Browser) :
  App.file_type first = "video/mp4" -> App.file_type second = "video/mp4" ->
  falsy_string (trim text) = false ->
  (let selected := App.handleFileChange_begin X (Some first) (s, b) in
   let reselected :=
     App.handleFileChange_begin X (Some second) (App.handleReset selected) in
   let s' := App.handleFileChange_settled (Resolved frame) (fst reselected) in
   App.videoFile s' = Some second /\
   App.extractedFrame s' = Some frame /\
   App.processingState s' = App.state_idle /\
   App.handleProcess_begin (App.setPrompt text s', snd reselected) =
   (App.setProcessingState App.state_generating (App.setPrompt text s'),
    snd reselected, true)) /\
  (let s' := App.handleProcess_settled (inr url)
               (fst (App.handleReset (s, b))) in
   App.videoFile s' = None /\ App.extractedFrame s' = None /\
   App.generatedVideoUrl s' = Some url /\
   App.processingState s' = App.state_completed).
Proof.
  intros Hfirst Hsecond Htext. split.
  - unfold App.handleFileChange_begin. rewrite Hfirst, Hsecond.
    cbn [String.eqb Ascii.eqb Bool.eqb negb].
    unfold URL_createObjectURL, App.handleReset. cbn [fst snd].
    unfold App.handleProcess_begin.
    cbn [App.handleFileChange_settled App.setProcessingState App.setExtractedFrame
         App.setPrompt App.videoFile App.extractedFrame App.processingState
         App.prompt App.videoPreviewUrl App.generatedVideoUrl App.fileInput].
    rewrite Htext. repeat split.
  - unfold App.handleReset. repeat split.
Qed.

Lemma reset_cancels_nothing_witness :
  let selected :=
    App.handleFileChange_begin Guarded.extractor
      (Some (mp4 (clip 4000 2000 10 played))) (App.initial, emptyBrowser) in
  let reselected :=
    App.handleFileChange_begin Guarded.extractor
      (Some (mp4 (clip 640 480 10 played))) (App.handleReset selected) in
  let s' :=
    App.handleFileChange_settled
      (Resolved (mkFrame (Some "/9j/4AAQSkZJRg==") "image/jpeg" 1024 512))
      (fst reselected) in
  App.videoFile s' = Some (mp4 (clip 640 480 10 played)) /\
  App.extractedFrame s' =
  Some (mkFrame (Some "/9j/4AAQSkZJRg==") "image/jpeg" 1024 512).
Proof.
  destruct (proj1 (reset_cancels_nothing Guarded.extractor
                     (mp4 (clip 4000 2000 10 played))
                     (mp4 (clip 640 480 10 played))
                     (mkFrame (Some "/9j/4AAQSkZJRg==") "image/jpeg" 1024 512)
                     "a red car" "blob:2" App.initial emptyBrowser
                     eq_refl eq_refl eq_refl))
    as (H1 & H2 & _).
  split; [exact H1|exact H2].
Defined.
